(** * FileRenamer: the date-prefix renaming engine of src/1.0.1.py

    A shallow embedding of the renaming engine of the file-date-prefix tool:
    the static methods of class [FileRenamer], the per-file wrappers and the
    traversal of [RenamingWorker], together with the parts of the Python
    standard library they call ([str], [re], [posixpath], [datetime],
    [hashlib.md5], [os]), and the choices the window ([MainWindow]) hands to
    the worker.  The widgets and the log of the window are left out.

    Conventions of the model.
    - A Python [str] is a [string] whose characters are the 256 characters
      U+0000 .. U+00FF; among these the regular expression class [\d] holds
      the ASCII digits only.  Names with other characters are outside of the
      model.
    - Paths follow [posixpath]; a path is the string the program built.
    - The file system is a finite map from the paths that exist to regular
      files.  The directories above a file are implicit in its path; a
      directory whose own path is in the way of a name the program wants has
      to be given as an entry of the map, since [os.path.exists] does not
      tell it from a file.
    - A file time is a whole number of seconds since the epoch; the local
      time zone is a function from a time to its offset from UTC.
    - A computation is a function from a world (the file system, the
      messages emitted so far, the time zone, the other workers) to an
      outcome and a world.  An outcome is a value, a raised Python exception,
      or [Hang] when a [while] loop was cut by its fuel; every loop is proved
      to finish within the fuel it is given.
    - The thread pool is modelled at one point: between a worker's conflict
      resolution and its next look at the resolved path, the other workers
      may change the file system.  The traversal runs the submitted tasks one
      after the other. *)

From Stdlib Require Import ZArith Ascii String DecimalString DecimalN Strings.Byte Lia.
From stdpp Require Import gmap strings list.

Local Open Scope Z_scope.

(** ** Python [str] operations *)

Module PyStr.

(** [c * n] for a one-character string [c]. *)
Fixpoint replicate (n : nat) (c : ascii) : string :=
  match n with
  | O => EmptyString
  | S n' => String c (replicate n' c)
  end.

(** [s[:n]] for [0 <= n]. *)
Fixpoint take (n : nat) (s : string) : string :=
  match n, s with
  | S n', String c s' => String c (take n' s')
  | _, _ => EmptyString
  end.

(** [s[n:]] for [0 <= n]. *)
Fixpoint drop (n : nat) (s : string) : string :=
  match n, s with
  | S n', String _ s' => drop n' s'
  | _, _ => s
  end.

(** [s[i:j]] for [0 <= i]. *)
Definition slice (i j : Z) (s : string) : string :=
  take (Z.to_nat (j - i)) (drop (Z.to_nat i) s).

(** [s.rfind(c)] for a one-character [c]: the highest index of [c] in [s],
    or [-1]. *)
Fixpoint rfind (c : ascii) (s : string) : Z :=
  match s with
  | EmptyString => -1
  | String a s' =>
      let r := rfind c s' in
      if 0 <=? r then r + 1
      else if Ascii.eqb a c then 0 else -1
  end.

(** [c in s]. *)
Fixpoint contains (c : ascii) (s : string) : bool :=
  match s with
  | EmptyString => false
  | String a s' => Ascii.eqb a c || contains c s'
  end.

(** [s == c * len(s)]. *)
Fixpoint all_eq (c : ascii) (s : string) : bool :=
  match s with
  | EmptyString => true
  | String a s' => Ascii.eqb a c && all_eq c s'
  end.

(** [s.rstrip(c)] for a one-character [c]. *)
Fixpoint rstrip (c : ascii) (s : string) : string :=
  match s with
  | EmptyString => EmptyString
  | String a s' =>
      match rstrip c s' with
      | EmptyString => if Ascii.eqb a c then EmptyString else String a EmptyString
      | r => String a r
      end
  end.

(** [s.startswith(p)]. *)
Definition startswith (s p : string) : bool := String.prefix p s.

(** [s.endswith(c)] for a one-character [c]. *)
Fixpoint endswith (s : string) (c : ascii) : bool :=
  match s with
  | EmptyString => false
  | String a EmptyString => Ascii.eqb a c
  | String _ s' => endswith s' c
  end.

(** [str(n)] for a non-negative integer. *)
Definition str (n : N) : string := NilEmpty.string_of_uint (N.to_uint n).

(** [s.zfill(width)] for a string of digits: what [%02d] and the like
    produce. *)
Definition zfill (width : nat) (s : string) : string :=
  replicate (width - String.length s) "0" +:+ s.

End PyStr.

(** ** The fragment of [re] the program uses *)

Module Re.

(** One position of a pattern: [\d], a literal, or a character class
    [[...]]. *)
Inductive atom : Type :=
| Digit
| Lit (c : ascii)
| Class (cs : list ascii).

Definition is_digit (c : ascii) : bool :=
  let n := nat_of_ascii c in (48 <=? n)%nat && (n <=? 57)%nat.

Definition atom_matches (a : atom) (c : ascii) : bool :=
  match a with
  | Digit => is_digit c
  | Lit l => Ascii.eqb c l
  | Class cs => existsb (Ascii.eqb c) cs
  end.

(** [re.match("^" + pat, s)] for a pattern that is a sequence of atoms:
    the rest of [s] after the match, when there is one. *)
Fixpoint match_start (pat : list atom) (s : string) : option string :=
  match pat with
  | [] => Some s
  | a :: pat' =>
      match s with
      | EmptyString => None
      | String c s' => if atom_matches a c then match_start pat' s' else None
      end
  end.

(** [re.sub("^" + pat, repl, s)]: [^] matches at index 0 only, so at most
    one occurrence is replaced. *)
Definition sub_start (pat : list atom) (repl s : string) : string :=
  match match_start pat s with
  | Some rest => repl +:+ rest
  | None => s
  end.

(** [re.sub(a, repl, s)] for a pattern that is one atom: every matching
    character is replaced. *)
Fixpoint sub_atom (a : atom) (repl s : string) : string :=
  match s with
  | EmptyString => EmptyString
  | String c s' =>
      if atom_matches a c then repl +:+ sub_atom a repl s'
      else String c (sub_atom a repl s')
  end.

End Re.

(** ** [posixpath] *)

Module PosixPath.

Definition sep : ascii := "/".
Definition extsep : ascii := ".".

(** [os.path.dirname]. *)
Definition dirname (p : string) : string :=
  let i := PyStr.rfind sep p + 1 in
  let head := PyStr.slice 0 i p in
  if negb (String.eqb head EmptyString) && negb (PyStr.all_eq sep head)
  then PyStr.rstrip sep head
  else head.

(** [os.path.basename]. *)
Definition basename (p : string) : string :=
  let i := PyStr.rfind sep p + 1 in
  PyStr.drop (Z.to_nat i) p.

(** [os.path.join(a, b)]. *)
Definition join (a b : string) : string :=
  if PyStr.startswith b (String sep EmptyString) then b
  else if String.eqb a EmptyString || PyStr.endswith a sep then a +:+ b
  else a +:+ String sep b.

(** The loop of [genericpath._splitext] that skips the leading dots of the
    file name: [true] when a character other than a dot is met before
    [dotIndex].  The loop runs at most [dotIndex - filenameIndex] times,
    which is the fuel. *)
Fixpoint skip_leading_dots (fuel : nat) (p : string) (filenameIndex dotIndex : Z) : bool :=
  match fuel with
  | O => false
  | S fuel' =>
      if filenameIndex <? dotIndex then
        if negb (String.eqb (PyStr.slice filenameIndex (filenameIndex + 1) p)
                            (String extsep EmptyString))
        then true
        else skip_leading_dots fuel' p (filenameIndex + 1) dotIndex
      else false
  end.

(** [os.path.splitext]. *)
Definition splitext (p : string) : string * string :=
  let sepIndex := PyStr.rfind sep p in
  let dotIndex := PyStr.rfind extsep p in
  if (sepIndex <? dotIndex)
     && skip_leading_dots (Z.to_nat (dotIndex - sepIndex)) p (sepIndex + 1) dotIndex
  then (PyStr.slice 0 dotIndex p, PyStr.drop (Z.to_nat dotIndex) p)
  else (p, EmptyString).

End PosixPath.

(** ** [datetime] *)

Module Datetime.

Record date : Type := { year : Z; month : Z; day : Z }.

Definition MINYEAR : Z := 1.
Definition MAXYEAR : Z := 9999.

(** The proleptic Gregorian date of the day that is [z] days after
    1970-01-01. *)
Definition civil_from_days (z : Z) : date :=
  let z := z + 719468 in
  let era := z / 146097 in
  let doe := z - era * 146097 in
  let yoe := (doe - doe / 1460 + doe / 36524 - doe / 146096) / 365 in
  let y := yoe + era * 400 in
  let doy := doe - (365 * yoe + yoe / 4 - yoe / 100) in
  let mp := (5 * doy + 2) / 153 in
  let d := doy - (153 * mp + 2) / 5 + 1 in
  let m := if mp <? 10 then mp + 3 else mp - 9 in
  {| year := if m <=? 2 then y + 1 else y; month := m; day := d |}.

(** [datetime.datetime.fromtimestamp(t)], keeping the date: the local
    calendar day of [t], where [utcoffset t] is the offset of local time
    from UTC at [t], in seconds.  [None] stands for the error Python raises
    when the year is outside [MINYEAR..MAXYEAR]. *)
Definition fromtimestamp (utcoffset : Z -> Z) (t : Z) : option date :=
  let d := civil_from_days ((t + utcoffset t) / 86400) in
  if (MINYEAR <=? year d) && (year d <=? MAXYEAR) then Some d else None.

(** [dt.strftime("%Y-%m-%d")].  [%Y] is handed to the C library of the
    host, which on Linux prints the year without padding: the year 999
    gives [999-06-15].  From the year 1000 on the year has four digits on
    every host. *)
Definition strftime_Ymd (d : date) : string :=
  PyStr.str (Z.to_N (year d)) +:+ "-" +:+
  PyStr.zfill 2 (PyStr.str (Z.to_N (month d))) +:+ "-" +:+
  PyStr.zfill 2 (PyStr.str (Z.to_N (day d))).

End Datetime.

(** ** [hashlib.md5] (RFC 1321) *)

Module MD5.

Definition shifts : list Z :=
  [ 7; 12; 17; 22; 7; 12; 17; 22; 7; 12; 17; 22; 7; 12; 17; 22;
    5; 9; 14; 20; 5; 9; 14; 20; 5; 9; 14; 20; 5; 9; 14; 20;
    4; 11; 16; 23; 4; 11; 16; 23; 4; 11; 16; 23; 4; 11; 16; 23;
    6; 10; 15; 21; 6; 10; 15; 21; 6; 10; 15; 21; 6; 10; 15; 21 ].

Definition sines : list Z :=
  [ 0xd76aa478; 0xe8c7b756; 0x242070db; 0xc1bdceee;
    0xf57c0faf; 0x4787c62a; 0xa8304613; 0xfd469501;
    0x698098d8; 0x8b44f7af; 0xffff5bb1; 0x895cd7be;
    0x6b901122; 0xfd987193; 0xa679438e; 0x49b40821;
    0xf61e2562; 0xc040b340; 0x265e5a51; 0xe9b6c7aa;
    0xd62f105d; 0x02441453; 0xd8a1e681; 0xe7d3fbc8;
    0x21e1cde6; 0xc33707d6; 0xf4d50d87; 0x455a14ed;
    0xa9e3e905; 0xfcefa3f8; 0x676f02d9; 0x8d2a4c8a;
    0xfffa3942; 0x8771f681; 0x6d9d6122; 0xfde5380c;
    0xa4beea44; 0x4bdecfa9; 0xf6bb4b60; 0xbebfbc70;
    0x289b7ec6; 0xeaa127fa; 0xd4ef3085; 0x04881d05;
    0xd9d4d039; 0xe6db99e5; 0x1fa27cf8; 0xc4ac5665;
    0xf4292244; 0x432aff97; 0xab9423a7; 0xfc93a039;
    0x655b59c3; 0x8f0ccc92; 0xffeff47d; 0x85845dd1;
    0x6fa87e4f; 0xfe2ce6e0; 0xa3014314; 0x4e0811a1;
    0xf7537e82; 0xbd3af235; 0x2ad7d2bb; 0xeb86d391 ].

Definition mask32 (x : Z) : Z := Z.land x 0xffffffff.
Definition not32 (x : Z) : Z := Z.lxor x 0xffffffff.
Definition rotl32 (x c : Z) : Z :=
  mask32 (Z.lor (Z.shiftl x c) (Z.shiftr x (32 - c))).

(** [n] as [k] bytes, least significant first. *)
Fixpoint le_bytes (k : nat) (n : Z) : list Z :=
  match k with
  | O => []
  | S k' => Z.land n 0xff :: le_bytes k' (Z.shiftr n 8)
  end.

(** The little-endian word of a list of bytes. *)
Fixpoint le_word (bs : list Z) : Z :=
  match bs with
  | [] => 0
  | b :: bs' => b + 256 * le_word bs'
  end.

(** The message followed by the bit 1, zeros up to 56 modulo 64 bytes and
    the length of the message in bits as 8 bytes. *)
Definition pad (msg : list Z) : list Z :=
  let n := Z.of_nat (length msg) in
  let zeros := (55 - n) mod 64 in
  msg ++ [0x80] ++ repeat 0 (Z.to_nat zeros) ++ le_bytes 8 (Z.land (8 * n) 0xffffffffffffffff).

(** The 16 words of a block of 64 bytes. *)
Fixpoint words (k : nat) (block : list Z) : list Z :=
  match k with
  | O => []
  | S k' => le_word (take 4 block) :: words k' (drop 4 block)
  end.

Definition regs : Type := Z * Z * Z * Z.

(** Operation [i] (0 .. 63) of the main loop on the words [M]. *)
Definition step (M : list Z) (r : regs) (i : Z) : regs :=
  let '(A, B, C, D) := r in
  let '(F, g) :=
    if i <? 16 then (Z.lor (Z.land B C) (Z.land (not32 B) D), i)
    else if i <? 32 then (Z.lor (Z.land D B) (Z.land (not32 D) C), (5 * i + 1) mod 16)
    else if i <? 48 then (Z.lxor (Z.lxor B C) D, (3 * i + 5) mod 16)
    else (Z.lxor C (Z.lor B (not32 D)), (7 * i) mod 16) in
  let F := mask32 (F + A + sines !!! Z.to_nat i + M !!! Z.to_nat g) in
  (D, mask32 (B + rotl32 F (shifts !!! Z.to_nat i)), B, C).

Definition process_block (r : regs) (block : list Z) : regs :=
  let M := words 16 block in
  let '(A, B, C, D) := r in
  let '(A', B', C', D') := foldl (step M) r (map Z.of_nat (seq 0 64)) in
  (mask32 (A + A'), mask32 (B + B'), mask32 (C + C'), mask32 (D + D')).

(** The blocks of a padded message, [k] of them. *)
Fixpoint process (k : nat) (r : regs) (padded : list Z) : regs :=
  match k with
  | O => r
  | S k' => process k' (process_block r (take 64 padded)) (drop 64 padded)
  end.

Definition init : regs := (0x67452301, 0xefcdab89, 0x98badcfe, 0x10325476).

(** The 16 bytes of the digest of a message given as byte values. *)
Definition md5 (msg : list Z) : list Z :=
  let padded := pad msg in
  let '(A, B, C, D) := process (length padded / 64)%nat init padded in
  le_bytes 4 A ++ le_bytes 4 B ++ le_bytes 4 C ++ le_bytes 4 D.

(** A [hashlib.md5()] object is determined by the bytes it was fed. *)
Definition hasher : Type := list byte.
Definition new : hasher := [].
Definition update (h : hasher) (data : list byte) : hasher := h ++ data.
Definition digest (h : hasher) : list Z :=
  md5 (map (fun b => Z.of_N (Byte.to_N b)) h).

End MD5.

(** ** Exceptions and progress messages *)

(** The Python exceptions the engine can meet; all are subclasses of
    [Exception]. *)
Inductive exn : Type :=
| FileNotFoundError (filename : string)
| PermissionError (filename : string)
| ValueError (msg : string).

(** What [signals.progress.emit(value, text)] is called with.  The texts are
    f-strings; a constructor stands for the text's fixed wording and carries
    the values it interpolates.  The per-file messages are emitted with value
    1, [AllDone] with value 0, and [Progress] with the percentage, which the
    program computes in floating point and the model leaves out. *)
Inductive message : Type :=
| AlreadyCorrect (original_name : string)
    (* "[已有]文件 {original_name} 的日期格式已正确，无需重命名。" *)
| DuplicateFound (original_name : string)
    (* "[重复]发现重复文件 {original_name}，将删除原有文件。" *)
| SkippedConflict (original_name new_name : string)
    (* "[跳过]文件 {original_name} 与 {new_name} 冲突，但文件内容不同，将跳过重命名。"
       and, for the restore operation, the same with "将跳过恢复" *)
| SkippedNotEligible (original_name : string)
    (* "[跳过]文件 {original_name} 不符合恢复条件，无需处理。" *)
| Renamed (original_name new_name : string)
    (* "[成功]文件 {original_name} 已重命名为 {new_name}" *)
| Restored (original_name new_name : string)
    (* "[成功]文件 {original_name} 已恢复为 {new_name}" *)
| Failed (file_path : string) (e : exn)
    (* "[错误]处理文件 {file_path} 时出错: {str(e)}" *)
| Progress (processed_files total_files : Z)
    (* "进度: {processed_files}/{total_files} (...%)" *)
| AllDone.
    (* "所有文件处理完成！" *)

(** ** [os] and the state of the host *)

Module Os.

Record file : Type := {
  content : list byte;
  ctime : Z;
  mtime : Z;
  readable : bool
}.

(** The host: its regular files by path, the messages emitted so far, the
    offset of local time from UTC, and what the other workers of the thread
    pool do to the file system between a worker's conflict resolution and
    its next look at the resolved path ([fun fs => fs] when a worker runs
    alone). *)
Record world : Type := {
  files : gmap string file;
  emitted : list message;
  utcoffset : Z -> Z;
  others : gmap string file -> gmap string file
}.

Definition with_files (fs : gmap string file) (w : world) : world :=
  {| files := fs; emitted := emitted w; utcoffset := utcoffset w; others := others w |}.

Definition with_emitted (ms : list message) (w : world) : world :=
  {| files := files w; emitted := ms; utcoffset := utcoffset w; others := others w |}.

(** The worker runs alone. *)
Definition alone (w : world) : Prop := forall fs, others w fs = fs.

Inductive outcome (A : Type) : Type :=
| Return (a : A)
| Raise (e : exn)
| Hang.
Arguments Return {A} a.
Arguments Raise {A} e.
Arguments Hang {A}.

Definition M (A : Type) : Type := world -> outcome A * world.

Definition ret {A} (a : A) : M A := fun w => (Return a, w).

Definition bind {A B} (m : M A) (k : A -> M B) : M B :=
  fun w =>
    match m w with
    | (Return a, w') => k a w'
    | (Raise e, w') => (Raise e, w')
    | (Hang, w') => (Hang, w')
    end.

Definition raise {A} (e : exn) : M A := fun w => (Raise e, w).

Definition hang {A} : M A := fun w => (Hang, w).

(** [try: body  except Exception as e: handler(e)]. *)
Definition try_except (body : M unit) (handler : exn -> M unit) : M unit :=
  fun w =>
    match body w with
    | (Raise e, w') => handler e w'
    | r => r
    end.

Definition get_files : M (gmap string file) := fun w => (Return (files w), w).

Definition stat (path : string) : M file :=
  fun w =>
    match files w !! path with
    | Some f => (Return f, w)
    | None => (Raise (FileNotFoundError path), w)
    end.

(** [os.path.exists]. *)
Definition path_exists (path : string) : M bool :=
  fun w => (Return (bool_decide (is_Some (files w !! path))), w).

(** [os.path.getctime], [os.path.getmtime], [os.path.getsize]. *)
Definition path_getctime (path : string) : M Z := bind (stat path) (fun f => ret (ctime f)).
Definition path_getmtime (path : string) : M Z := bind (stat path) (fun f => ret (mtime f)).
Definition path_getsize (path : string) : M Z :=
  bind (stat path) (fun f => ret (Z.of_nat (length (content f)))).

(** [open(path, "rb")]: the bytes still to be read. *)
Definition open_rb (path : string) : M (list byte) :=
  bind (stat path) (fun f =>
    if readable f then ret (content f) else raise (PermissionError path)).

(** [os.remove]. *)
Definition remove (path : string) : M unit :=
  bind (stat path) (fun _ w => (Return tt, with_files (delete path (files w)) w)).

(** [os.rename]: an existing regular file at [dst] is replaced.  The
    record is carried over with its times: that Linux sets [st_ctime] of a
    renamed file to the time of the rename is not modelled. *)
Definition rename (src dst : string) : M unit :=
  bind (stat src) (fun f w =>
    (Return tt, with_files (<[dst := f]> (delete src (files w))) w)).

(** [signals.progress.emit]. *)
Definition emit (m : message) : M unit :=
  fun w => (Return tt, with_emitted (emitted w ++ [m]) w).

(** The other workers run. *)
Definition others_run : M unit :=
  fun w => (Return tt, with_files (others w (files w)) w).

(** The local time zone. *)
Definition get_utcoffset : M (Z -> Z) := fun w => (Return (utcoffset w), w).

End Os.

Export Os(Return, Raise, Hang).

Notation "'let*' x ':=' m 'in' k" := (Os.bind m (fun x => k))
  (at level 10, x pattern, m at level 100, k at level 200).

(** ** class [FileRenamer] *)

Module FileRenamer.

(** The loop of [calculate_file_hash]: [f] is what is left to read of the
    file.  Each round but the last consumes at least one byte, so the loop
    runs at most [length f + 1] times. *)
Fixpoint read_blocks (fuel : nat) (block_size : nat) (hasher : MD5.hasher)
    (f : list byte) : option MD5.hasher :=
  match fuel with
  | O => None
  | S fuel' =>
      let data := take block_size f in
      let f := drop block_size f in
      match data with
      | [] => Some hasher
      | _ => read_blocks fuel' block_size (MD5.update hasher data) f
      end
  end.

Definition calculate_file_hash (filepath : string) (block_size : nat) : Os.M (list Z) :=
  let hasher := MD5.new in
  let* f := Os.open_rb filepath in
  match read_blocks (S (length f)) block_size hasher f with
  | Some hasher => Os.ret (MD5.digest hasher)
  | None => Os.hang
  end.

Definition default_block_size : nat := Z.to_nat 65536.

Definition check_duplicate_file (file_path new_path : string) : Os.M bool :=
  let* size1 := Os.path_getsize file_path in
  let* size2 := Os.path_getsize new_path in
  if negb (size1 =? size2) then Os.ret false
  else
    let* h1 := calculate_file_hash file_path default_block_size in
    let* h2 := calculate_file_hash new_path default_block_size in
    Os.ret (bool_decide (h1 = h2)).

(** The characters of the class of [illegal_chars]: backslash, slash,
    star, question mark, colon, double quote (code 034), angle brackets
    and the vertical bar. *)
Definition illegal_chars : list ascii :=
  ["\"; "/"; "*"; "?"; ":"; "034"; "<"; ">"; "|"]%char.

Definition clean_filename (filename : string) : string :=
  Re.sub_atom (Re.Class illegal_chars) "_" filename.

Definition get_file_time (filepath time_type : string) : Os.M Z :=
  if String.eqb time_type "creation" then Os.path_getctime filepath
  else if String.eqb time_type "modification" then Os.path_getmtime filepath
  else Os.raise (ValueError "Invalid time_type. Use 'creation' or 'modification'.").

(** The [while] loop of [handle_filename_conflict]. *)
Fixpoint conflict_loop (fuel : nat) (base_dir base_name base_name_without_ext file_ext : string)
    (new_path : string) (conflict_count : N) (conflict_files : gmap string N)
    : Os.M (string * gmap string N) :=
  match fuel with
  | O => Os.hang
  | S fuel' =>
      let* taken := Os.path_exists new_path in
      if taken then
        let conflict_count := (conflict_count + 1)%N in
        let new_name := base_name_without_ext +:+ "_" +:+ PyStr.str conflict_count +:+ file_ext in
        let new_path := PosixPath.join base_dir new_name in
        let conflict_files := <[base_name := conflict_count]> conflict_files in
        conflict_loop fuel' base_dir base_name base_name_without_ext file_ext
          new_path conflict_count conflict_files
      else Os.ret (new_path, conflict_files)
  end.

(** The loop probes pairwise different paths, so it meets a free one within
    as many rounds as the file system has entries, plus one; the fuel is
    one more. *)
Definition handle_filename_conflict (new_path original_name : string)
    (conflict_files : gmap string N) : Os.M (string * gmap string N) :=
  let base_dir := PosixPath.dirname new_path in
  let base_name := PosixPath.basename new_path in
  let name_parts := PosixPath.splitext base_name in
  let '(base_name_without_ext, file_ext) := name_parts in
  let conflict_count :=
    match conflict_files !! base_name with
    | Some n => n
    | None => 0%N
    end in
  let* fs := Os.get_files in
  conflict_loop (S (S (size fs))) base_dir base_name base_name_without_ext file_ext
    new_path conflict_count conflict_files.

Definition has_valid_date_prefix (file date_prefix : string) : bool :=
  let cleaned_file := clean_filename file in
  PyStr.startswith cleaned_file date_prefix.

(** [\d{4}-\d{2}-\d{2} ], anchored at the start by [^]. *)
Definition date_prefix_pattern : list Re.atom :=
  [Re.Digit; Re.Digit; Re.Digit; Re.Digit; Re.Lit "-";
   Re.Digit; Re.Digit; Re.Lit "-"; Re.Digit; Re.Digit; Re.Lit " "].

Definition remove_date_prefix (file : string) : string :=
  let cleaned_file := Re.sub_start date_prefix_pattern "" file in
  cleaned_file.

Definition has_yy_mm_dd_prefix (file : string) : bool :=
  let cleaned_file := clean_filename file in
  bool_decide (is_Some (Re.match_start date_prefix_pattern cleaned_file)).

Definition remove_yy_mm_dd_prefix (file : string) : string :=
  let cleaned_file := Re.sub_start date_prefix_pattern "" file in
  cleaned_file.

(** Lines 146-149 of [rename_file_with_date]. *)
Definition date_prefix_of (dt : Datetime.date) : string :=
  let date_formatted := Datetime.strftime_Ymd dt in
  date_formatted +:+ " ".

(** Lines 154-156 of [rename_file_with_date]. *)
Definition new_name_of (date_prefix cleaned_name : string) : string :=
  let name_without_prefix := remove_date_prefix cleaned_name in
  date_prefix +:+ name_without_prefix.

(** Lines 170-186 of [rename_file_with_date], which are lines 211-227 of
    [restore_original_name] but for the wording of the messages: [success]
    is the message of the operation's last line. *)
Definition rename_unless_conflict (file_path new_path original_name new_name : string)
    (success : message) : Os.M unit :=
  let* present := Os.path_exists new_path in
  if present then
    let* duplicate := check_duplicate_file file_path new_path in
    if duplicate then
      let* _ := Os.emit (DuplicateFound original_name) in
      let* _ := Os.remove new_path in
      let* _ := Os.rename file_path new_path in
      Os.emit success
    else
      Os.emit (SkippedConflict original_name new_name)
  else
    let* _ := Os.rename file_path new_path in
    Os.emit success.

(** The [try] block of [rename_file_with_date]. *)
Definition rename_file_with_date_body (file_path time_type : string) : Os.M unit :=
  let* file_time := get_file_time file_path time_type in
  let* utcoffset := Os.get_utcoffset in
  match Datetime.fromtimestamp utcoffset file_time with
  | None => Os.raise (ValueError "year is out of range")
  | Some dt =>
      let date_prefix := date_prefix_of dt in
      let original_name := PosixPath.basename file_path in
      let cleaned_name := clean_filename original_name in
      let name_without_prefix := remove_date_prefix cleaned_name in
      let new_name := new_name_of date_prefix cleaned_name in
      let new_path := PosixPath.join (PosixPath.dirname file_path) new_name in
      if has_valid_date_prefix name_without_prefix date_prefix then
        Os.emit (AlreadyCorrect original_name)
      else
        let conflict_files : gmap string N := ∅ in
        let* resolved :=
          handle_filename_conflict new_path original_name conflict_files in
        let '(new_path, conflict_files) := resolved in
        let* _ := Os.others_run in
        rename_unless_conflict file_path new_path original_name new_name
          (Renamed original_name new_name)
  end.

Definition rename_file_with_date (file_path time_type : string) : Os.M unit :=
  Os.try_except (rename_file_with_date_body file_path time_type)
    (fun e => Os.emit (Failed file_path e)).

(** The [try] block of [restore_original_name]. *)
Definition restore_original_name_body (file_path : string) : Os.M unit :=
  let original_name := PosixPath.basename file_path in
  let cleaned_name := clean_filename original_name in
  if negb (has_yy_mm_dd_prefix cleaned_name) then
    Os.emit (SkippedNotEligible original_name)
  else
    let new_name := remove_yy_mm_dd_prefix cleaned_name in
    let new_path := PosixPath.join (PosixPath.dirname file_path) new_name in
    let conflict_files : gmap string N := ∅ in
    let* resolved :=
      handle_filename_conflict new_path original_name conflict_files in
    let '(new_path, conflict_files) := resolved in
    let* _ := Os.others_run in
    rename_unless_conflict file_path new_path original_name new_name
      (Restored original_name new_name).

Definition restore_original_name (file_path : string) : Os.M unit :=
  Os.try_except (restore_original_name_body file_path)
    (fun e => Os.emit (Failed file_path e)).

End FileRenamer.

(** ** class [RenamingWorker] *)

Module RenamingWorker.

Record t : Type := {
  folder_path : string;
  time_type : string;
  operation_mode : string;
  total_files : Z;
  processed_files : Z
}.

Definition with_processed_files (n : Z) (self : t) : t :=
  {| folder_path := folder_path self; time_type := time_type self;
     operation_mode := operation_mode self; total_files := total_files self;
     processed_files := n |}.

Definition with_total_files (n : Z) (self : t) : t :=
  {| folder_path := folder_path self; time_type := time_type self;
     operation_mode := operation_mode self; total_files := n;
     processed_files := processed_files self |}.

Definition rename_file_with_date (self : t) (file_path : string) : Os.M t :=
  let* _ := FileRenamer.rename_file_with_date file_path (time_type self) in
  let self := with_processed_files (processed_files self + 1) self in
  let* _ := Os.emit (Progress (processed_files self) (total_files self)) in
  Os.ret self.

Definition restore_original_name (self : t) (file_path : string) : Os.M t :=
  let* _ := FileRenamer.restore_original_name file_path in
  let self := with_processed_files (processed_files self + 1) self in
  let* _ := Os.emit (Progress (processed_files self) (total_files self)) in
  Os.ret self.

(** The two nested [for] loops of [run] over the paths [os.walk] yields,
    each submitted task run to its end before the next one. *)
Fixpoint submit_all (self : t) (walked : list string) : Os.M t :=
  match walked with
  | [] => Os.ret self
  | file_path :: walked' =>
      if String.eqb (operation_mode self) "add_prefix" then
        let* self := rename_file_with_date self file_path in
        submit_all self walked'
      else if String.eqb (operation_mode self) "restore_name" then
        let* self := restore_original_name self file_path in
        submit_all self walked'
      else submit_all self walked'
  end.

(** [run], given the paths of the files that [os.walk(self.folder_path)]
    yields. *)
Definition run (self : t) (walked : list string) : Os.M t :=
  let self := with_total_files (Z.of_nat (length walked)) self in
  let self := with_processed_files 0 self in
  let* self := submit_all self walked in
  let* _ := Os.emit AllDone in
  Os.ret self.

End RenamingWorker.

(** ** Observations on a run *)

(** The messages emitted between the worlds [w] and [w']. *)
Definition messages_of (w w' : Os.world) : list message :=
  drop (length (Os.emitted w)) (Os.emitted w').




(** How an operation that got past its conflict resolution can end, the
    handler of its [try] included: [fs] is the file system the operation
    finds when it looks at the resolved path [p]; the relation holds of the
    messages it emits from there and of the file system it leaves. *)
Inductive settled (file_path p original_name new_name : string) (success : message)
    (fs : gmap string Os.file) : list message -> gmap string Os.file -> Prop :=
| settled_missing :
    fs !! p = None -> fs !! file_path = None ->
    settled file_path p original_name new_name success fs
      [Failed file_path (FileNotFoundError file_path)] fs
| settled_failed e :
    is_Some (fs !! p) ->
    settled file_path p original_name new_name success fs [Failed file_path e] fs
| settled_skipped :
    is_Some (fs !! p) ->
    settled file_path p original_name new_name success fs
      [SkippedConflict original_name new_name] fs
| settled_renamed f :
    fs !! p = None -> fs !! file_path = Some f ->
    settled file_path p original_name new_name success fs
      [success] (<[p := f]> (delete file_path fs))
| settled_duplicate_lost :
    is_Some (fs !! p) -> delete p fs !! file_path = None ->
    settled file_path p original_name new_name success fs
      [DuplicateFound original_name; Failed file_path (FileNotFoundError file_path)]
      (delete p fs)
| settled_duplicate f :
    is_Some (fs !! p) -> delete p fs !! file_path = Some f ->
    settled file_path p original_name new_name success fs
      [DuplicateFound original_name; success]
      (<[p := f]> (delete file_path (delete p fs))).

(** A character the sanitizer replaces, and what it makes of a character. *)
Definition is_illegal (c : ascii) : bool :=
  existsb (Ascii.eqb c) FileRenamer.illegal_chars.

Definition sanitize_char (c : ascii) : ascii :=
  if is_illegal c then "_"%char else c.

(** [s] is [width] ASCII digits. *)
Fixpoint digits_exactly (width : nat) (s : string) : bool :=
  match width, s with
  | O, EmptyString => true
  | S width', String c s' => Re.is_digit c && digits_exactly width' s'
  | _, _ => false
  end.

(** Each of the [count] numbers from [n] on prints, zero-filled, as [width]
    ASCII digits. *)
Fixpoint digits_from (width : nat) (n : N) (count : nat) : bool :=
  match count with
  | O => true
  | S count' =>
      digits_exactly width (PyStr.zfill width (PyStr.str n))
      && digits_from width (N.succ n) count'
  end.

(** Each of the [count] numbers from [n] on prints as [width] ASCII
    digits. *)
Fixpoint plain_digits_from (width : nat) (n : N) (count : nat) : bool :=
  match count with
  | O => true
  | S count' =>
      digits_exactly width (PyStr.str n) && plain_digits_from width (N.succ n) count'
  end.

(** The candidate the resolver probes in round [k] (from 1) for the desired
    path [new_path]. *)
Definition candidate (new_path : string) (k : N) : string :=
  let base_dir := PosixPath.dirname new_path in
  let '(base_name_without_ext, file_ext) := PosixPath.splitext (PosixPath.basename new_path) in
  PosixPath.join base_dir (base_name_without_ext +:+ "_" +:+ PyStr.str k +:+ file_ext).

(** The path the loop of the resolver looks at in round [j] (from 0), when
    it was entered with [new_path] and the count [c]. *)
Definition probe (new_path : string) (c : N) (j : nat) : string :=
  match j with
  | O => new_path
  | S _ => candidate new_path (c + N.of_nat j)
  end.

(** The table of conflicts after [j] rounds. *)
Definition table_after (new_path : string) (c : N) (conflict_files : gmap string N)
    (j : nat) : gmap string N :=
  match j with
  | O => conflict_files
  | S _ => <[PosixPath.basename new_path := (c + N.of_nat j)%N]> conflict_files
  end.

(** ** The resolver as the specification words it *)

Module Spec.

Inductive error : Type := ConflictExhausted.

(** Following the specification's words: while a file exists at the
    candidate path, append [_N] before the extension and retry, until a free
    path is found or [max_attempts] retries were made. *)
Fixpoint retry (attempts_left : nat) (fs : gmap string Os.file) (desired : string)
    (candidate_path : string) (n : N) : error + string :=
  if bool_decide (is_Some (fs !! candidate_path)) then
    match attempts_left with
    | O => inl ConflictExhausted
    | S attempts_left' =>
        retry attempts_left' fs desired (candidate desired (n + 1)) (n + 1)%N
    end
  else inr candidate_path.

(** The cap the specification suggests. *)
Definition suggested_cap : nat := Z.to_nat 10000.

Definition resolve (max_attempts : nat) (fs : gmap string Os.file) (desired : string)
    : error + string :=
  retry max_attempts fs desired desired 0%N.

End Spec.

(** ** Sample hosts *)

Module Sample.

Definition noon_2024_03_05 : Z := 1709640000.


Definition file_of (text : string) : Os.file :=
  {| Os.content := list_byte_of_string text; Os.ctime := noon_2024_03_05;
     Os.mtime := noon_2024_03_05; Os.readable := true |}.

(** A host in UTC whose worker runs alone. *)
Definition host (fs : gmap string Os.file) : Os.world :=
  {| Os.files := fs; Os.emitted := []; Os.utcoffset := fun _ => 0;
     Os.others := fun fs => fs |}.

(** A host in UTC where another worker creates [path] while this one is
    between its conflict resolution and its next look. *)
Definition racing_host (fs : gmap string Os.file) (path : string) (f : Os.file) : Os.world :=
  {| Os.files := fs; Os.emitted := []; Os.utcoffset := fun _ => 0;
     Os.others := fun fs => <[path := f]> fs |}.

Definition prefixed_only : gmap string Os.file :=
  {[ "/d/2024-03-05 report.txt" := file_of "quarterly figures" ]}.

Definition plain_only : gmap string Os.file :=
  {[ "/d/report.txt" := file_of "quarterly figures" ]}.

Definition same_content : gmap string Os.file :=
  <[ "/d/report.txt" := file_of "quarterly figures" ]> prefixed_only.

Definition two_sizes : gmap string Os.file :=
  <[ "/d/notes.txt" := file_of "notes" ]> plain_only.

Definition illegal_name : gmap string Os.file :=
  {[ "/d/2024-03-05 a:b.txt" := file_of "notes" ]}.

Definition worker : RenamingWorker.t :=
  {| RenamingWorker.folder_path := "/d"; RenamingWorker.time_type := "creation";
     RenamingWorker.operation_mode := "add_prefix";
     RenamingWorker.total_files := 0; RenamingWorker.processed_files := 0 |}.

(** [desired] and its first [n] candidates, all taken. *)
Definition crowded (desired : string) (n : nat) : gmap string Os.file :=
  list_to_map ((desired, file_of "") ::
               map (fun k => (candidate desired (N.of_nat k), file_of "")) (seq 1 n)).

End Sample.

(** ** [RenamingWorker.__init__] *)

Definition RenamingWorker_init (folder_path time_type operation_mode : string) :
    RenamingWorker.t :=
  {| RenamingWorker.folder_path := folder_path;
     RenamingWorker.time_type := time_type;
     RenamingWorker.operation_mode := operation_mode;
     RenamingWorker.total_files := 0;
     RenamingWorker.processed_files := 0 |}.

(** ** class [MainWindow]: the choices that reach the engine *)

Module MainWindow.

(** The fields of the window that are handed to the worker. *)
Record window : Type := {
  folder_path : string;
  time_type : string;
  operation_mode : string
}.

(** [__init__]. *)
Definition __init__ : window :=
  {| folder_path := ""; time_type := "creation"; operation_mode := "add_prefix" |}.

(** [select_folder], given what the folder dialog returned (the empty string
    when it was cancelled). *)
Definition select_folder (self : window) (folder : string) : window :=
  if negb (String.eqb folder "") then
    {| folder_path := folder; time_type := time_type self;
       operation_mode := operation_mode self |}
  else self.

Definition time_type_changed (self : window) (index : Z) : window :=
  {| folder_path := folder_path self;
     time_type := if index =? 0 then "creation" else "modification";
     operation_mode := operation_mode self |}.

Definition operation_mode_changed (self : window) (index : Z) : window :=
  {| folder_path := folder_path self; time_type := time_type self;
     operation_mode := if index =? 0 then "add_prefix" else "restore_name" |}.

(** The worker [start_processing] builds, [RenamingWorker(self.folder_path,
    self.time_type, self.operation_mode, self.signals)]; [None] when no
    folder was selected, where [start_processing] only writes a line to the
    log and returns. *)
Definition start_processing (self : window) : option RenamingWorker.t :=
  if String.eqb (folder_path self) "" then None
  else Some (RenamingWorker_init (folder_path self) (time_type self) (operation_mode self)).

(** What the user does before pressing the start button. *)
Inductive event : Type :=
| FolderSelected (folder : string)
| TimeTypeChanged (index : Z)
| OperationModeChanged (index : Z).

Definition handle (self : window) (e : event) : window :=
  match e with
  | FolderSelected folder => select_folder self folder
  | TimeTypeChanged index => time_type_changed self index
  | OperationModeChanged index => operation_mode_changed self index
  end.

(** The window after a sequence of events. *)
Definition after (events : list event) : window := foldl handle __init__ events.

(** The event is a folder dialog that was not cancelled. *)
Definition selects (e : event) : bool :=
  match e with
  | FolderSelected folder => negb (String.eqb folder "")
  | _ => false
  end.

End MainWindow.

(** ** More sample hosts *)

Module More.

Definition twice_prefixed : gmap string Os.file :=
  {[ "/d/2024-03-05 2024-03-05 r.txt" := Sample.file_of "notes" ]}.

(** A file that cannot be opened for reading. *)
Definition locked (text : string) : Os.file :=
  {| Os.content := list_byte_of_string text; Os.ctime := Sample.noon_2024_03_05;
     Os.mtime := Sample.noon_2024_03_05; Os.readable := false |}.

Definition locked_pair : gmap string Os.file :=
  <[ "/d/a.bin" := locked "same size" ]> {[ "/d/b.bin" := Sample.file_of "same-size" ]}.

Definition second_locked : gmap string Os.file :=
  <[ "/d/b.bin" := locked "same size" ]> {[ "/d/a.bin" := Sample.file_of "same-size" ]}.

End More.

(** The contents of the files of a directory tree, whatever their paths. *)
Definition contents_of (fs : gmap string Os.file) : list (list byte) :=
  (fun entry => Os.content entry.2) <$> map_to_list fs.

(** * Properties *)

(** ** The library models on known values *)

Example splitext_known :
  PosixPath.splitext "archive.tar.gz" = ("archive.tar", ".gz") /\
  PosixPath.splitext ".bashrc" = (".bashrc", "") /\
  PosixPath.splitext "a/b.c/d" = ("a/b.c/d", "") /\
  PosixPath.splitext "2024-03-05 report.txt" = ("2024-03-05 report", ".txt").
Proof. repeat split. Qed.

Example dirname_basename_join_known :
  PosixPath.dirname "/d/2024-03-05 report.txt" = "/d" /\
  PosixPath.dirname "/report.txt" = "/" /\
  PosixPath.dirname "report.txt" = "" /\
  PosixPath.basename "/d/2024-03-05 report.txt" = "2024-03-05 report.txt" /\
  PosixPath.join "/d" "x_1.txt" = "/d/x_1.txt" /\
  PosixPath.join "/" "x.txt" = "/x.txt" /\
  PosixPath.join "" "x.txt" = "x.txt".
Proof. repeat split. Qed.

Example strftime_known :
  Datetime.strftime_Ymd <$> Datetime.fromtimestamp (fun _ => 0) 0 = Some "1970-01-01" /\
  Datetime.strftime_Ymd <$> Datetime.fromtimestamp (fun _ => 0) (-1) = Some "1969-12-31" /\
  Datetime.strftime_Ymd <$> Datetime.fromtimestamp (fun _ => 0) 951782400 = Some "2000-02-29" /\
  Datetime.strftime_Ymd <$> Datetime.fromtimestamp (fun _ => 0) 4107542400 = Some "2100-03-01" /\
  Datetime.strftime_Ymd <$> Datetime.fromtimestamp (fun _ => 3600) 1709679600
    = Some "2024-03-06" /\
  Datetime.strftime_Ymd <$> Datetime.fromtimestamp (fun _ => 0) (-30627460800)
    = Some "999-06-15" /\
  Datetime.fromtimestamp (fun _ => 0) 253402300800 = None.
Proof. repeat split. Qed.

Example md5_known :
  MD5.digest [] = [212; 29; 140; 217; 143; 0; 178; 4; 233; 128; 9; 152; 236; 248; 66; 126] /\
  MD5.digest (list_byte_of_string "abc")
    = [144; 1; 80; 152; 60; 210; 79; 176; 214; 150; 63; 125; 40; 225; 127; 114].
Proof. split; vm_compute; reflexivity. Qed.

Example clean_filename_known :
  FileRenamer.clean_filename "a\b/c*d?e:f<g>h|i" = "a_b_c_d_e_f_g_h_i" /\
  FileRenamer.remove_date_prefix "2024-03-05 2024-03-05 r.txt" = "2024-03-05 r.txt" /\
  FileRenamer.remove_date_prefix "2024-3-05 r.txt" = "2024-3-05 r.txt".
Proof. repeat split. Qed.

(** ** Strings *)

Section StringFacts.

Implicit Types (s t u : string) (c a : ascii).

Lemma str_app_cons a s t : String a s +:+ t = String a (s +:+ t).
Proof. reflexivity. Qed.

Lemma str_app_nil_l s : "" +:+ s = s.
Proof. reflexivity. Qed.

Lemma str_app_nil_r s : s +:+ "" = s.
Proof. induction s as [|a s IH]; [reflexivity|]. rewrite str_app_cons, IH. reflexivity. Qed.

Lemma str_app_assoc s t u : (s +:+ t) +:+ u = s +:+ (t +:+ u).
Proof. induction s as [|a s IH]; [reflexivity|]. rewrite !str_app_cons, IH. reflexivity. Qed.

Lemma str_length_app s t : String.length (s +:+ t) = (String.length s + String.length t)%nat.
Proof. induction s as [|a s IH]; [reflexivity|]. rewrite str_app_cons. simpl. rewrite IH. reflexivity. Qed.

Lemma str_app_inv_tail s t u : s +:+ u = t +:+ u -> s = t.
Proof.
  revert t. induction s as [|a s IH]; intros [|b t] H.
  - reflexivity.
  - apply (f_equal String.length) in H.
    rewrite str_app_nil_l, str_app_cons in H. simpl String.length in H.
    rewrite str_length_app in H. lia.
  - apply (f_equal String.length) in H.
    rewrite str_app_nil_l, str_app_cons in H. simpl String.length in H.
    rewrite str_length_app in H. lia.
  - rewrite !str_app_cons in H. injection H as -> H. f_equal. apply IH, H.
Qed.

Lemma contains_app c s t :
  PyStr.contains c (s +:+ t) = PyStr.contains c s || PyStr.contains c t.
Proof.
  induction s as [|a s IH]; [reflexivity|].
  rewrite str_app_cons. simpl. rewrite IH. apply orb_assoc.
Qed.

Lemma str_take_app_length s t : PyStr.take (String.length s) (s +:+ t) = s.
Proof. induction s as [|a s IH]; [destruct t; reflexivity|]. rewrite str_app_cons. simpl. rewrite IH. reflexivity. Qed.

Lemma str_drop_app_length s t : PyStr.drop (String.length s) (s +:+ t) = t.
Proof. induction s as [|a s IH]; [destruct t; reflexivity|]. rewrite str_app_cons. simpl. apply IH. Qed.

Lemma str_take_drop n s : PyStr.take n s +:+ PyStr.drop n s = s.
Proof.
  revert s. induction n as [|n IH]; intros [|a s]; try reflexivity.
  simpl. rewrite str_app_cons, IH. reflexivity.
Qed.

Lemma str_drop_0 s : PyStr.drop 0 s = s.
Proof. destruct s; reflexivity. Qed.

Lemma str_take_app_le n s t :
  (n <= String.length s)%nat -> PyStr.take n (s +:+ t) = PyStr.take n s.
Proof.
  revert s. induction n as [|n IH]; intros [|a s] H; simpl in H.
  - reflexivity.
  - reflexivity.
  - lia.
  - rewrite str_app_cons. simpl. rewrite IH by lia. reflexivity.
Qed.

Lemma str_drop_app_le n s t :
  (n <= String.length s)%nat -> PyStr.drop n (s +:+ t) = PyStr.drop n s +:+ t.
Proof.
  revert s. induction n as [|n IH]; intros [|a s] H; simpl in H.
  - rewrite !str_drop_0. reflexivity.
  - rewrite !str_drop_0. reflexivity.
  - lia.
  - rewrite str_app_cons. simpl. apply IH. lia.
Qed.

(** [rfind] *)

Lemma rfind_lower c s : -1 <= PyStr.rfind c s.
Proof.
  induction s as [|a s IH]; simpl; [lia|].
  destruct (0 <=? PyStr.rfind c s) eqn:E; [apply Z.leb_le in E; lia|].
  destruct (Ascii.eqb a c); lia.
Qed.

Lemma rfind_upper c s : PyStr.rfind c s < Z.of_nat (String.length s).
Proof.
  induction s as [|a s IH]; simpl String.length; simpl PyStr.rfind; [lia|].
  destruct (0 <=? PyStr.rfind c s) eqn:E; [lia|].
  destruct (Ascii.eqb a c); lia.
Qed.

Lemma rfind_absent c s : PyStr.contains c s = false <-> PyStr.rfind c s = -1.
Proof.
  induction s as [|a s IH]; simpl; [tauto|].
  pose proof (rfind_lower c s) as Hl.
  destruct (0 <=? PyStr.rfind c s) eqn:E.
  - apply Z.leb_le in E. split.
    + intros [_ H]%orb_false_iff. apply IH in H. lia.
    + lia.
  - apply Z.leb_gt in E. assert (PyStr.rfind c s = -1) as Hr by lia.
    apply IH in Hr. rewrite Hr, orb_false_r.
    destruct (Ascii.eqb a c); split; intros; try reflexivity; try discriminate; lia.
Qed.

Lemma rfind_app_absent c s t :
  PyStr.contains c t = false -> PyStr.rfind c (s +:+ t) = PyStr.rfind c s.
Proof.
  intros Ht. induction s as [|a s IH].
  - rewrite str_app_nil_l. simpl. apply rfind_absent, Ht.
  - rewrite str_app_cons. simpl. rewrite IH. reflexivity.
Qed.

Lemma rfind_app_present c s t :
  PyStr.contains c t = true ->
  PyStr.rfind c (s +:+ t) = Z.of_nat (String.length s) + PyStr.rfind c t.
Proof.
  intros Ht.
  assert (0 <= PyStr.rfind c t) as H0.
  { pose proof (rfind_lower c t). destruct (Z.eq_dec (PyStr.rfind c t) (-1)) as [E|E]; [|lia].
    apply rfind_absent in E. congruence. }
  induction s as [|a s IH].
  - rewrite str_app_nil_l. simpl String.length. lia.
  - rewrite str_app_cons. simpl PyStr.rfind. rewrite IH.
    destruct (0 <=? Z.of_nat (String.length s) + PyStr.rfind c t) eqn:E.
    + simpl String.length. lia.
    + apply Z.leb_gt in E. lia.
Qed.

Lemma rfind_cons_absent c s :
  PyStr.contains c s = false -> PyStr.rfind c (String c s) = 0.
Proof.
  intros H. simpl. apply rfind_absent in H. rewrite H. simpl.
  rewrite Ascii.eqb_refl. reflexivity.
Qed.

(** The part of [s] after the last [c] holds no [c]. *)
Lemma contains_drop_rfind c s :
  PyStr.contains c (PyStr.drop (Z.to_nat (PyStr.rfind c s + 1)) s) = false.
Proof.
  induction s as [|a s IH]; [reflexivity|].
  simpl PyStr.rfind. pose proof (rfind_lower c s) as Hl.
  destruct (0 <=? PyStr.rfind c s) eqn:E.
  - apply Z.leb_le in E.
    replace (Z.to_nat (PyStr.rfind c s + 1 + 1)) with (S (Z.to_nat (PyStr.rfind c s + 1))) by lia.
    simpl. apply IH.
  - apply Z.leb_gt in E. assert (PyStr.rfind c s = -1) as Hr by lia.
    apply rfind_absent in Hr.
    destruct (Ascii.eqb a c) eqn:Ea; simpl.
    + apply Hr.
    + rewrite Ea, Hr. reflexivity.
Qed.

End StringFacts.

(** ** The sanitizer *)

Section Sanitizer.

Lemma underscore_legal : is_illegal "_" = false.
Proof. reflexivity. Qed.

Lemma clean_filename_cons c s :
  FileRenamer.clean_filename (String c s) =
  String (sanitize_char c) (FileRenamer.clean_filename s).
Proof.
  unfold FileRenamer.clean_filename, sanitize_char, is_illegal.
  change (Re.sub_atom ?a ?r (String c s)) with
    (if Re.atom_matches a c then r +:+ Re.sub_atom a r s else String c (Re.sub_atom a r s)).
  change (Re.atom_matches (Re.Class ?cs) c) with (existsb (Ascii.eqb c) cs).
  destruct (existsb (Ascii.eqb c) FileRenamer.illegal_chars); reflexivity.
Qed.

Lemma sanitize_char_legal c : is_illegal (sanitize_char c) = false.
Proof.
  unfold sanitize_char. destruct (is_illegal c) eqn:E; [apply underscore_legal|exact E].
Qed.

Lemma sanitize_char_idem c : sanitize_char (sanitize_char c) = sanitize_char c.
Proof. unfold sanitize_char at 1. rewrite sanitize_char_legal. reflexivity. Qed.

Lemma clean_filename_get x i :
  String.get i (FileRenamer.clean_filename x) = sanitize_char <$> String.get i x.
Proof.
  revert i. induction x as [|c x IH]; intros i; [reflexivity|].
  rewrite clean_filename_cons. destruct i as [|i]; simpl; [reflexivity|apply IH].
Qed.

Lemma clean_filename_length x :
  String.length (FileRenamer.clean_filename x) = String.length x.
Proof.
  induction x as [|c x IH]; [reflexivity|].
  rewrite clean_filename_cons. simpl. rewrite IH. reflexivity.
Qed.

Lemma clean_filename_legal x c :
  is_illegal c = true -> PyStr.contains c (FileRenamer.clean_filename x) = false.
Proof.
  intros Hc. induction x as [|a x IH]; [reflexivity|].
  rewrite clean_filename_cons. simpl. rewrite IH, orb_false_r.
  destruct (Ascii.eqb_spec (sanitize_char a) c) as [E|E]; [|reflexivity].
  rewrite <- E, sanitize_char_legal in Hc. discriminate.
Qed.

Lemma clean_filename_idem x :
  FileRenamer.clean_filename (FileRenamer.clean_filename x) = FileRenamer.clean_filename x.
Proof.
  induction x as [|a x IH]; [reflexivity|].
  rewrite !clean_filename_cons, sanitize_char_idem, IH. reflexivity.
Qed.

Lemma clean_filename_app s t :
  FileRenamer.clean_filename (s +:+ t) =
  FileRenamer.clean_filename s +:+ FileRenamer.clean_filename t.
Proof.
  induction s as [|a s IH]; [reflexivity|].
  rewrite str_app_cons, !clean_filename_cons, str_app_cons, IH. reflexivity.
Qed.

(** A name without illegal characters is left as it is. *)
Lemma clean_filename_fixed x :
  (forall c, is_illegal c = true -> PyStr.contains c x = false) ->
  FileRenamer.clean_filename x = x.
Proof.
  induction x as [|a x IH]; intros H; [reflexivity|].
  rewrite clean_filename_cons, IH.
  - unfold sanitize_char. destruct (is_illegal a) eqn:E; [|reflexivity].
    specialize (H a E). simpl in H. rewrite Ascii.eqb_refl in H. discriminate.
  - intros c Hc. specialize (H c Hc). simpl in H.
    apply orb_false_iff in H. apply H.
Qed.

Lemma clean_filename_changed x :
  FileRenamer.clean_filename x <> x ->
  exists c, is_illegal c = true /\ PyStr.contains c x = true.
Proof.
  induction x as [|a x IH]; intros H; [exfalso; apply H; reflexivity|].
  rewrite clean_filename_cons in H.
  destruct (is_illegal a) eqn:E.
  - exists a. split; [exact E|]. simpl. rewrite Ascii.eqb_refl. reflexivity.
  - unfold sanitize_char in H. rewrite E in H.
    destruct IH as (c & Hc & Hin); [intros Heq; apply H; rewrite Heq; reflexivity|].
    exists c. split; [exact Hc|]. simpl. rewrite Hin. apply orb_true_r.
Qed.

End Sanitizer.

(** ** Dates and the date prefix *)

Section DatePrefix.

Lemma civil_from_days_bounds z :
  1 <= Datetime.month (Datetime.civil_from_days z) <= 12 /\
  1 <= Datetime.day (Datetime.civil_from_days z) <= 31.
Proof.
  unfold Datetime.civil_from_days. cbv zeta. simpl Datetime.month. simpl Datetime.day.
  set (z' := z + 719468).
  set (era := z' / 146097).
  set (doe := z' - era * 146097).
  assert (0 <= doe < 146097) as Hdoe.
  { unfold doe, era. pose proof (Z.mod_pos_bound z' 146097 ltac:(lia)) as H.
    rewrite Z.mod_eq in H by lia. lia. }
  clearbody doe. clear z' era.
  set (yoe := (doe - doe / 1460 + doe / 36524 - doe / 146096) / 365).
  assert (0 <= yoe <= 399) as Hyoe.
  { unfold yoe. Z.to_euclidean_division_equations. lia. }
  set (doy := doe - (365 * yoe + yoe / 4 - yoe / 100)).
  assert (0 <= doy <= 365) as Hdoy.
  { unfold doy, yoe. Z.to_euclidean_division_equations. lia. }
  clearbody doy. clear yoe Hyoe doe Hdoe.
  set (mp := (5 * doy + 2) / 153).
  assert (0 <= mp <= 11) as Hmp.
  { unfold mp. Z.to_euclidean_division_equations. lia. }
  assert (1 <= doy - (153 * mp + 2) / 5 + 1 <= 31) as Hd.
  { unfold mp. Z.to_euclidean_division_equations. lia. }
  split; [|exact Hd].
  destruct (mp <? 10) eqn:E; [apply Z.ltb_lt in E|apply Z.ltb_ge in E]; lia.
Qed.

Lemma fromtimestamp_bounds utcoffset t dt :
  Datetime.fromtimestamp utcoffset t = Some dt ->
  1 <= Datetime.year dt <= 9999 /\ 1 <= Datetime.month dt <= 12 /\
  1 <= Datetime.day dt <= 31.
Proof.
  unfold Datetime.fromtimestamp, Datetime.MINYEAR, Datetime.MAXYEAR.
  set (d := Datetime.civil_from_days _).
  destruct (_ && _) eqn:E; [|discriminate]. intros [= <-].
  apply andb_true_iff in E as [E1%Z.leb_le E2%Z.leb_le].
  split; [lia|]. apply civil_from_days_bounds.
Qed.

Lemma digits_from_spec width n count k :
  digits_from width n count = true ->
  (n <= k < n + N.of_nat count)%N ->
  digits_exactly width (PyStr.zfill width (PyStr.str k)) = true.
Proof.
  revert n. induction count as [|count IH]; intros n H Hk; [lia|].
  simpl in H. apply andb_true_iff in H as [Hn Hrest].
  destruct (N.eq_dec k n) as [->|Hne]; [exact Hn|].
  apply (IH (N.succ n)); [exact Hrest|lia].
Qed.

Lemma plain_digits_from_spec width n count k :
  plain_digits_from width n count = true ->
  (n <= k < n + N.of_nat count)%N ->
  digits_exactly width (PyStr.str k) = true.
Proof.
  revert n. induction count as [|count IH]; intros n H Hk; [lia|].
  simpl in H. apply andb_true_iff in H as [Hn Hrest].
  destruct (N.eq_dec k n) as [->|Hne]; [exact Hn|].
  apply (IH (N.succ n)); [exact Hrest|lia].
Qed.

(** A year from 1000 on prints as four digits. *)
Lemma four_digits n :
  1000 <= n < 10000 -> digits_exactly 4 (PyStr.str (Z.to_N n)) = true.
Proof.
  intros H. apply (plain_digits_from_spec 4 1000 (Z.to_nat 9000)); [vm_compute; reflexivity|lia].
Qed.

Lemma two_digits n :
  0 <= n < 100 -> digits_exactly 2 (PyStr.zfill 2 (PyStr.str (Z.to_N n))) = true.
Proof.
  intros H. apply (digits_from_spec 2 0 100); [vm_compute; reflexivity|lia].
Qed.

Lemma digits_exactly_match width s pat rest :
  digits_exactly width s = true ->
  Re.match_start (repeat Re.Digit width ++ pat) (s +:+ rest) = Re.match_start pat rest.
Proof.
  revert s. induction width as [|width IH]; intros [|a s] H; simpl in H; try discriminate.
  - reflexivity.
  - apply andb_true_iff in H as [Ha Hs].
    rewrite str_app_cons. simpl. rewrite Ha. apply IH, Hs.
Qed.

Lemma literal_match c pat s :
  Re.match_start ([Re.Lit c] ++ pat) (String c s) = Re.match_start pat s.
Proof. simpl. rewrite Ascii.eqb_refl. reflexivity. Qed.

(** The prefix made for a file time from the year 1000 on matches the
    date-prefix pattern. *)
Lemma date_prefix_of_matches utcoffset t dt rest :
  Datetime.fromtimestamp utcoffset t = Some dt ->
  1000 <= Datetime.year dt ->
  Re.match_start FileRenamer.date_prefix_pattern (FileRenamer.date_prefix_of dt +:+ rest)
  = Some rest.
Proof.
  intros (Hy & Hm & Hd)%fromtimestamp_bounds Hfour.
  unfold FileRenamer.date_prefix_of, Datetime.strftime_Ymd. cbv zeta.
  rewrite !str_app_assoc.
  change FileRenamer.date_prefix_pattern with
    (repeat Re.Digit 4 ++ [Re.Lit "-"] ++ repeat Re.Digit 2 ++ [Re.Lit "-"]
       ++ repeat Re.Digit 2 ++ [Re.Lit " "]).
  rewrite digits_exactly_match by (apply four_digits; lia).
  rewrite str_app_cons, literal_match, str_app_nil_l.
  rewrite digits_exactly_match by (apply two_digits; lia).
  rewrite str_app_cons, literal_match, str_app_nil_l.
  rewrite digits_exactly_match by (apply two_digits; lia).
  reflexivity.
Qed.

Lemma remove_date_prefix_fresh utcoffset t dt name :
  Datetime.fromtimestamp utcoffset t = Some dt ->
  1000 <= Datetime.year dt ->
  FileRenamer.remove_date_prefix (FileRenamer.date_prefix_of dt +:+ name) = name.
Proof.
  intros H Hfour. unfold FileRenamer.remove_date_prefix, Re.sub_start.
  rewrite (date_prefix_of_matches _ _ _ _ H Hfour). reflexivity.
Qed.

End DatePrefix.

(** ** Paths *)

Section PathFacts.

Implicit Types (s t : string) (c a : ascii).

Lemma basename_no_sep (p : string) : PyStr.contains PosixPath.sep (PosixPath.basename p) = false.
Proof. apply contains_drop_rfind. Qed.

Lemma endswith_cons a s c :
  s <> "" -> PyStr.endswith (String a s) c = PyStr.endswith s c.
Proof. destruct s; [congruence|reflexivity]. Qed.

Lemma endswith_snoc s c : PyStr.endswith (s +:+ String c "") c = true.
Proof.
  induction s as [|a s IH].
  - simpl. apply Ascii.eqb_refl.
  - rewrite str_app_cons, endswith_cons; [exact IH|]. destruct s; discriminate.
Qed.

Lemma rfind_endswith s c :
  PyStr.endswith s c = true -> PyStr.rfind c s + 1 = Z.of_nat (String.length s).
Proof.
  induction s as [|a s IH]; [discriminate|].
  destruct s as [|b s].
  - simpl. intros ->. reflexivity.
  - rewrite endswith_cons by discriminate. intros H. specialize (IH H).
    pose proof (rfind_lower c (String b s)) as Hl.
    change (PyStr.rfind c (String a (String b s))) with
      (let r := PyStr.rfind c (String b s) in
       if 0 <=? r then r + 1 else if Ascii.eqb a c then 0 else -1).
    cbv zeta.
    change (String.length (String a (String b s))) with (S (String.length (String b s))).
    assert (0 <= PyStr.rfind c (String b s)) as H0.
    { change (String.length (String b s)) with (S (String.length s)) in IH. lia. }
    rewrite Nat2Z.inj_succ, <- IH.
    destruct (0 <=? PyStr.rfind c (String b s)) eqn:E; [lia|].
    apply Z.leb_gt in E. lia.
Qed.

Lemma startswith_char a s c :
  PyStr.startswith (String a s) (String c "") = Ascii.eqb a c.
Proof.
  unfold PyStr.startswith. cbn [String.prefix].
  destruct (ascii_dec c a) as [->|H].
  - rewrite Ascii.eqb_refl. destruct s; reflexivity.
  - symmetry. apply Ascii.eqb_neq. congruence.
Qed.

(** A name without a separator is never taken for an absolute path. *)
Lemma startswith_sep (n : string) :
  PyStr.contains PosixPath.sep n = false ->
  PyStr.startswith n (String PosixPath.sep "") = false.
Proof.
  destruct n as [|a n]; [reflexivity|]. intros H. simpl in H.
  apply orb_false_iff in H as [Ha _]. rewrite startswith_char. exact Ha.
Qed.

(** [join] puts the name behind a directory part that is empty or ends in
    a separator. *)
Lemma join_shape (d n : string) :
  PyStr.contains PosixPath.sep n = false ->
  exists x, PosixPath.join d n = x +:+ n /\
            (x = "" \/ PyStr.endswith x PosixPath.sep = true) /\
            (forall n' : string, PyStr.contains PosixPath.sep n' = false ->
                        PosixPath.join d n' = x +:+ n').
Proof.
  intros Hn. unfold PosixPath.join.
  destruct (String.eqb_spec d "") as [->|Hd].
  - exists "". rewrite (startswith_sep _ Hn). simpl. split; [reflexivity|].
    split; [left; reflexivity|]. intros n' Hn'. rewrite (startswith_sep _ Hn'). reflexivity.
  - rewrite (startswith_sep _ Hn). simpl.
    destruct (PyStr.endswith d PosixPath.sep) eqn:E.
    + exists d. split; [reflexivity|]. split; [right; exact E|].
      intros n' Hn'. rewrite (startswith_sep _ Hn'). reflexivity.
    + exists (d +:+ String PosixPath.sep ""). rewrite str_app_assoc. split; [reflexivity|].
      split; [right; apply endswith_snoc|].
      intros n' Hn'. rewrite (startswith_sep _ Hn'), str_app_assoc. reflexivity.
Qed.

Lemma basename_join (d n : string) :
  PyStr.contains PosixPath.sep n = false -> PosixPath.basename (PosixPath.join d n) = n.
Proof.
  intros Hn. destruct (join_shape d n Hn) as (x & -> & Hx & _).
  unfold PosixPath.basename. rewrite (rfind_app_absent _ _ _ Hn).
  destruct Hx as [->|Hx].
  - reflexivity.
  - rewrite (rfind_endswith _ _ Hx), Nat2Z.id. apply str_drop_app_length.
Qed.

Lemma join_inj (d n1 n2 : string) :
  PyStr.contains PosixPath.sep n1 = false ->
  PyStr.contains PosixPath.sep n2 = false ->
  PosixPath.join d n1 = PosixPath.join d n2 -> n1 = n2.
Proof.
  intros H1 H2 E.
  rewrite <- (basename_join d n1 H1), <- (basename_join d n2 H2), E. reflexivity.
Qed.

(** [str] *)

Lemma string_of_uint_digits c (u : Decimal.uint) :
  Re.is_digit c = false -> PyStr.contains c (NilEmpty.string_of_uint u) = false.
Proof.
  intros Hc. induction u as [|u IH|u IH|u IH|u IH|u IH|u IH|u IH|u IH|u IH|u IH];
    cbn [NilEmpty.string_of_uint PyStr.contains]; [reflexivity|..];
    rewrite IH, orb_false_r;
    match goal with |- Ascii.eqb ?a c = false =>
      destruct (Ascii.eqb_spec a c) as [<-|]; [discriminate Hc|reflexivity] end.
Qed.

Lemma str_digits c k : Re.is_digit c = false -> PyStr.contains c (PyStr.str k) = false.
Proof. apply string_of_uint_digits. Qed.

Lemma str_inj k1 k2 : PyStr.str k1 = PyStr.str k2 -> k1 = k2.
Proof.
  unfold PyStr.str. intros H. apply DecimalN.Unsigned.to_uint_inj.
  apply (f_equal NilEmpty.uint_of_string) in H. rewrite !NilEmpty.usu in H.
  congruence.
Qed.

End PathFacts.

(** ** Extensions *)

Section SplitextFacts.

Implicit Types (s t : string) (c a : ascii).

Lemma str_length_drop k s :
  String.length (PyStr.drop k s) = (String.length s - k)%nat.
Proof.
  revert s. induction k as [|k IH]; intros [|a s]; simpl; try reflexivity. apply IH.
Qed.

Lemma drop_at_rfind c s :
  0 <= PyStr.rfind c s ->
  PyStr.drop (Z.to_nat (PyStr.rfind c s)) s =
  String c (PyStr.drop (Z.to_nat (PyStr.rfind c s + 1)) s).
Proof.
  induction s as [|a s IH]; [simpl; lia|].
  pose proof (rfind_lower c s) as Hl.
  change (PyStr.rfind c (String a s)) with
    (let r := PyStr.rfind c s in
     if 0 <=? r then r + 1 else if Ascii.eqb a c then 0 else -1).
  cbv zeta. destruct (0 <=? PyStr.rfind c s) eqn:E.
  - apply Z.leb_le in E. intros _.
    replace (Z.to_nat (PyStr.rfind c s + 1 + 1)) with (S (Z.to_nat (PyStr.rfind c s + 1))) by lia.
    replace (Z.to_nat (PyStr.rfind c s + 1)) with (S (Z.to_nat (PyStr.rfind c s))) at 1 by lia.
    simpl. apply IH, E.
  - destruct (Ascii.eqb_spec a c) as [->|]; [|lia]. intros _. reflexivity.
Qed.

(** The character of [s] at index [i], as the one-character slice the
    library takes. *)
Lemma slice_app_l i s t :
  0 <= i < Z.of_nat (String.length s) ->
  PyStr.slice i (i + 1) (s +:+ t) = PyStr.slice i (i + 1) s.
Proof.
  intros Hi. unfold PyStr.slice.
  rewrite str_drop_app_le by lia. apply str_take_app_le.
  rewrite str_length_drop. lia.
Qed.

Lemma slice_at_length s a t :
  PyStr.slice (Z.of_nat (String.length s)) (Z.of_nat (String.length s) + 1)
    (s +:+ String a t) = String a "".
Proof.
  unfold PyStr.slice. rewrite Nat2Z.id, str_drop_app_length.
  replace (Z.to_nat _) with 1%nat by lia. reflexivity.
Qed.

Lemma skip_leading_dots_app fuel s t i d :
  0 <= i -> d <= Z.of_nat (String.length s) ->
  PosixPath.skip_leading_dots fuel (s +:+ t) i d = PosixPath.skip_leading_dots fuel s i d.
Proof.
  revert i. induction fuel as [|fuel IH]; intros i Hi Hd; [reflexivity|].
  simpl. destruct (i <? d) eqn:E; [|reflexivity]. apply Z.ltb_lt in E.
  rewrite slice_app_l by lia. rewrite IH by lia. reflexivity.
Qed.

Lemma skip_leading_dots_found fuel s i j d :
  0 <= i <= j -> j < d -> (Z.to_nat (d - i) <= fuel)%nat ->
  PyStr.slice j (j + 1) s <> String PosixPath.extsep "" ->
  PosixPath.skip_leading_dots fuel s i d = true.
Proof.
  revert i. induction fuel as [|fuel IH]; intros i Hi Hj Hf Hc; [lia|].
  simpl. destruct (i <? d) eqn:E; [|apply Z.ltb_ge in E; lia].
  destruct (String.eqb_spec (PyStr.slice i (i + 1) s) (String PosixPath.extsep ""))
    as [Heq|Hne]; [|reflexivity].
  simpl. apply IH; [|lia|lia|exact Hc].
  assert (i <> j) by (intros ->; contradiction). lia.
Qed.

Lemma splitext_whole (p root ext : string) :
  PosixPath.splitext p = (root, ext) -> root +:+ ext = p.
Proof.
  unfold PosixPath.splitext. destruct (_ && _).
  - intros [= <- <-]. unfold PyStr.slice. rewrite str_drop_0, Z.sub_0_r.
    apply str_take_drop.
  - intros [= <- <-]. apply str_app_nil_r.
Qed.

(** A tag without dot or separator, put between the two parts of a name,
    leaves the extension as it is. *)
Lemma splitext_tagged (p root ext : string) a t :
  PyStr.contains PosixPath.sep p = false ->
  PyStr.contains PosixPath.sep (String a t) = false ->
  PyStr.contains PosixPath.extsep (String a t) = false ->
  PosixPath.splitext p = (root, ext) ->
  PosixPath.splitext (root +:+ String a t +:+ ext) = (root +:+ String a t, ext).
Proof.
  intros Hp Hts Htd Hsplit.
  pose proof (splitext_whole _ _ _ Hsplit) as Hwhole.
  assert (PyStr.contains PosixPath.sep (root +:+ String a t +:+ ext) = false) as Hq.
  { rewrite <- Hwhole, contains_app in Hp. apply orb_false_iff in Hp as [Hr He].
    rewrite !contains_app, Hr, Hts, He. reflexivity. }
  revert Hsplit. unfold PosixPath.splitext.
  apply rfind_absent in Hp as ->. apply rfind_absent in Hq as ->.
  set (d := PyStr.rfind PosixPath.extsep p).
  pose proof (rfind_lower PosixPath.extsep p) as Hl.
  pose proof (rfind_upper PosixPath.extsep p) as Hu. fold d in Hl, Hu.
  destruct ((-1 <? d) && _) eqn:Hcond.
  - (* the name has an extension: it starts at the last dot *)
    apply andb_true_iff in Hcond as [Hd%Z.ltb_lt _].
    intros [= Hroot Hext]. unfold PyStr.slice in Hroot. rewrite str_drop_0, Z.sub_0_r in Hroot.
    assert (exists e, ext = String PosixPath.extsep e /\ PyStr.contains PosixPath.extsep e = false)
      as (e & -> & He).
    { eexists. split; [rewrite <- Hext; apply drop_at_rfind; fold d; lia|].
      apply contains_drop_rfind. }
    rewrite <- (str_app_assoc root (String a t)).
    rewrite (rfind_app_present _ (root +:+ String a t) (String PosixPath.extsep e))
      by reflexivity.
    rewrite (rfind_cons_absent _ _ He), Z.add_0_r.
    set (q := (root +:+ String a t) +:+ String PosixPath.extsep e).
    assert (PosixPath.skip_leading_dots
              (Z.to_nat (Z.of_nat (String.length (root +:+ String a t)) - -1)) q (-1 + 1)
              (Z.of_nat (String.length (root +:+ String a t))) = true) as ->.
    { apply (skip_leading_dots_found _ _ _ (Z.of_nat (String.length root))).
      - lia.
      - rewrite str_length_app. simpl String.length. lia.
      - lia.
      - unfold q. rewrite str_app_assoc, str_app_cons, slice_at_length.
        intros [= Ha]. simpl in Htd. rewrite Ha, Ascii.eqb_refl in Htd. discriminate. }
    assert ((-1 <? Z.of_nat (String.length (root +:+ String a t))) = true) as ->
      by (apply Z.ltb_lt; lia).
    simpl andb. cbv iota. unfold PyStr.slice.
    rewrite str_drop_0, Z.sub_0_r, Nat2Z.id. unfold q.
    rewrite str_take_app_length, str_drop_app_length. reflexivity.
  - (* the name has no extension *)
    intros [= <- <-]. rewrite str_app_nil_r.
    rewrite (rfind_app_absent _ p _ Htd). fold d.
    rewrite skip_leading_dots_app by lia. rewrite Hcond. reflexivity.
Qed.

End SplitextFacts.

(** ** Computations *)

Section MonadFacts.

Context {A B : Type}.

Lemma bind_return (m : Os.M A) (k : A -> Os.M B) w a w' :
  m w = (Return a, w') -> Os.bind m k w = k a w'.
Proof. unfold Os.bind. intros ->. reflexivity. Qed.

Lemma bind_raise (m : Os.M A) (k : A -> Os.M B) w e w' :
  m w = (Raise e, w') -> Os.bind m k w = (Raise e, w').
Proof. unfold Os.bind. intros ->. reflexivity. Qed.

End MonadFacts.

Lemma stat_present path w f :
  Os.files w !! path = Some f -> Os.stat path w = (Return f, w).
Proof. unfold Os.stat. intros ->. reflexivity. Qed.

Lemma stat_absent path w :
  Os.files w !! path = None -> Os.stat path w = (Raise (FileNotFoundError path), w).
Proof. unfold Os.stat. intros ->. reflexivity. Qed.

Lemma path_exists_present path w f :
  Os.files w !! path = Some f -> Os.path_exists path w = (Return true, w).
Proof.
  unfold Os.path_exists. intros H. rewrite bool_decide_eq_true_2; [reflexivity|].
  rewrite H. eauto.
Qed.

Lemma path_exists_absent path w :
  Os.files w !! path = None -> Os.path_exists path w = (Return false, w).
Proof.
  unfold Os.path_exists. intros H. rewrite bool_decide_eq_false_2; [reflexivity|].
  rewrite H. apply is_Some_None.
Qed.

(** ** Hashing and duplicate detection *)

Section Hashing.

(** The loop reads the whole file and stops. *)
Lemma read_blocks_all fuel block_size hasher (f : list byte) :
  (0 < block_size)%nat -> (length f < fuel)%nat ->
  FileRenamer.read_blocks fuel block_size hasher f = Some (hasher ++ f).
Proof.
  intros Hb. revert hasher f.
  destruct block_size as [|block_size]; [lia|].
  induction fuel as [|fuel IH]; intros hasher f Hf; [lia|].
  destruct f as [|x f].
  - simpl. rewrite app_nil_r. reflexivity.
  - cbn [FileRenamer.read_blocks take drop]. unfold MD5.update.
    rewrite IH.
    + rewrite <- app_assoc. cbn [app]. rewrite take_drop. reflexivity.
    + rewrite length_drop. simpl in Hf. lia.
Qed.

Lemma default_block_size_pos : (0 < FileRenamer.default_block_size)%nat.
Proof. unfold FileRenamer.default_block_size. lia. Qed.

Lemma calculate_file_hash_readable path w f :
  Os.files w !! path = Some f -> Os.readable f = true ->
  FileRenamer.calculate_file_hash path FileRenamer.default_block_size w
  = (Return (MD5.digest (Os.content f)), w).
Proof.
  intros Hf Hr. unfold FileRenamer.calculate_file_hash, Os.open_rb.
  erewrite bind_return; [|erewrite bind_return; [|apply stat_present, Hf]; rewrite Hr; reflexivity].
  rewrite read_blocks_all; [reflexivity|apply default_block_size_pos|lia].
Qed.

(** Hashing reads only, and ends. *)
Lemma calculate_file_hash_reads path w :
  exists r, FileRenamer.calculate_file_hash path FileRenamer.default_block_size w = (r, w)
            /\ r <> Hang.
Proof.
  destruct (Os.files w !! path) as [f|] eqn:Hf.
  - destruct (Os.readable f) eqn:Hr.
    + eexists. split; [apply (calculate_file_hash_readable _ _ _ Hf Hr)|discriminate].
    + eexists. split; [|shelve].
      unfold FileRenamer.calculate_file_hash, Os.open_rb.
      erewrite bind_raise; [reflexivity|].
      erewrite bind_return; [|apply stat_present, Hf]. rewrite Hr. reflexivity.
      Unshelve. discriminate.
  - eexists. split; [|shelve].
    unfold FileRenamer.calculate_file_hash, Os.open_rb.
    erewrite bind_raise; [reflexivity|].
    erewrite bind_raise; [reflexivity|]. apply stat_absent, Hf.
    Unshelve. discriminate.
Qed.

Lemma path_getsize_present path w f :
  Os.files w !! path = Some f ->
  Os.path_getsize path w = (Return (Z.of_nat (length (Os.content f))), w).
Proof.
  intros Hf. unfold Os.path_getsize.
  erewrite bind_return; [|apply stat_present, Hf]. reflexivity.
Qed.

Lemma check_duplicate_file_reads file_path new_path w :
  exists r, FileRenamer.check_duplicate_file file_path new_path w = (r, w) /\ r <> Hang.
Proof.
  unfold FileRenamer.check_duplicate_file.
  destruct (Os.files w !! file_path) as [f1|] eqn:H1.
  2:{ eexists. split; [|shelve]. erewrite bind_raise; [reflexivity|].
      unfold Os.path_getsize. erewrite bind_raise; [reflexivity|]. apply stat_absent, H1.
      Unshelve. discriminate. }
  erewrite bind_return; [|apply path_getsize_present, H1].
  destruct (Os.files w !! new_path) as [f2|] eqn:H2.
  2:{ eexists. split; [|shelve]. erewrite bind_raise; [reflexivity|].
      unfold Os.path_getsize. erewrite bind_raise; [reflexivity|]. apply stat_absent, H2.
      Unshelve. discriminate. }
  erewrite bind_return; [|apply path_getsize_present, H2].
  destruct (negb _); [eexists; split; [reflexivity|discriminate]|].
  destruct (calculate_file_hash_reads file_path w) as ([h1| |] & E1 & N1); [| |congruence].
  2:{ eexists. split; [erewrite bind_raise; [reflexivity|exact E1]|discriminate]. }
  erewrite bind_return; [|exact E1].
  destruct (calculate_file_hash_reads new_path w) as ([h2| |] & E2 & N2); [| |congruence].
  2:{ eexists. split; [erewrite bind_raise; [reflexivity|exact E2]|discriminate]. }
  erewrite bind_return; [|exact E2].
  eexists. split; [reflexivity|discriminate].
Qed.

End Hashing.

(** C6.  Duplicate detection: for two files of different sizes
    [check_duplicate_file] answers [False] without opening either (it does so
    even when they cannot be read), and for two readable files with the same
    bytes it answers [True]; the host is left as it was. *)
Theorem check_duplicate_file_sizes_then_bytes file_path new_path w f1 f2 :
  Os.files w !! file_path = Some f1 ->
  Os.files w !! new_path = Some f2 ->
  (length (Os.content f1) <> length (Os.content f2) ->
   FileRenamer.check_duplicate_file file_path new_path w = (Return false, w)) /\
  (Os.readable f1 = true -> Os.readable f2 = true -> Os.content f1 = Os.content f2 ->
   FileRenamer.check_duplicate_file file_path new_path w = (Return true, w)).
Proof.
  intros H1 H2. unfold FileRenamer.check_duplicate_file.
  erewrite bind_return; [|apply path_getsize_present, H1].
  erewrite bind_return; [|apply path_getsize_present, H2].
  split.
  - intros Hne. destruct (Z.eqb_spec (Z.of_nat (length (Os.content f1)))
                                      (Z.of_nat (length (Os.content f2)))) as [E|E]; [lia|].
    reflexivity.
  - intros R1 R2 Hsame. rewrite Hsame, Z.eqb_refl. cbn [negb].
    erewrite bind_return; [|apply (calculate_file_hash_readable _ _ _ H1 R1)].
    erewrite bind_return; [|apply (calculate_file_hash_readable _ _ _ H2 R2)].
    rewrite Hsame. unfold Os.ret. rewrite bool_decide_eq_true_2; reflexivity.
Qed.

(** ** The conflict resolver *)

Section Resolver.

Implicit Types (w : Os.world) (fs : gmap string Os.file).

Lemma candidate_eq new_path root ext k :
  PosixPath.splitext (PosixPath.basename new_path) = (root, ext) ->
  candidate new_path k =
  PosixPath.join (PosixPath.dirname new_path) (root +:+ "_" +:+ PyStr.str k +:+ ext).
Proof. unfold candidate. intros ->. reflexivity. Qed.

(** The name of a candidate holds no separator. *)
Lemma candidate_name_no_sep new_path root ext k :
  PosixPath.splitext (PosixPath.basename new_path) = (root, ext) ->
  PyStr.contains PosixPath.sep (root +:+ "_" +:+ PyStr.str k +:+ ext) = false.
Proof.
  intros Hsplit. pose proof (basename_no_sep new_path) as Hb.
  rewrite <- (splitext_whole _ _ _ Hsplit), contains_app in Hb.
  apply orb_false_iff in Hb as [Hr He].
  rewrite !contains_app, Hr, He, str_digits by reflexivity. reflexivity.
Qed.

Lemma basename_candidate new_path root ext k :
  PosixPath.splitext (PosixPath.basename new_path) = (root, ext) ->
  PosixPath.basename (candidate new_path k) = root +:+ "_" +:+ PyStr.str k +:+ ext.
Proof.
  intros Hsplit. rewrite (candidate_eq _ _ _ _ Hsplit).
  apply basename_join, (candidate_name_no_sep _ _ _ _ Hsplit).
Qed.

Lemma candidate_inj new_path k1 k2 :
  candidate new_path k1 = candidate new_path k2 -> k1 = k2.
Proof.
  destruct (PosixPath.splitext (PosixPath.basename new_path)) as [root ext] eqn:Hsplit.
  intros H. apply (f_equal PosixPath.basename) in H.
  rewrite !(basename_candidate _ _ _ _ Hsplit) in H.
  apply (inj (String.app root)) in H. rewrite !str_app_cons in H. injection H as H.
  rewrite !str_app_nil_l in H. apply str_app_inv_tail in H. apply str_inj, H.
Qed.

Lemma candidate_fresh new_path k : candidate new_path k <> new_path.
Proof.
  destruct (PosixPath.splitext (PosixPath.basename new_path)) as [root ext] eqn:Hsplit.
  intros H. apply (f_equal PosixPath.basename) in H.
  rewrite (basename_candidate _ _ _ _ Hsplit), <- (splitext_whole _ _ _ Hsplit) in H.
  apply (f_equal String.length) in H. rewrite !str_length_app in H.
  simpl String.length in H. lia.
Qed.

(** The extension of a candidate is the extension of the desired name. *)
Lemma splitext_candidate new_path root ext k :
  PosixPath.splitext (PosixPath.basename new_path) = (root, ext) ->
  PosixPath.splitext (PosixPath.basename (candidate new_path k))
  = (root +:+ "_" +:+ PyStr.str k, ext).
Proof.
  intros Hsplit. rewrite (basename_candidate _ _ _ _ Hsplit).
  change ("_" +:+ PyStr.str k +:+ ext) with (String "_" (PyStr.str k) +:+ ext).
  change ("_" +:+ PyStr.str k) with (String "_" (PyStr.str k)).
  apply (splitext_tagged (PosixPath.basename new_path));
    [apply basename_no_sep| | |exact Hsplit].
  - simpl. apply str_digits. reflexivity.
  - simpl. apply str_digits. reflexivity.
Qed.

(** The loop returns the first free path among the ones it probes. *)
Lemma conflict_loop_first_free new_path root ext fuel p c conflict_files w j :
  PosixPath.splitext (PosixPath.basename new_path) = (root, ext) ->
  (j < fuel)%nat ->
  let look i := match i with O => p | S _ => candidate new_path (c + N.of_nat i) end in
  Os.files w !! look j = None ->
  (forall i, (i < j)%nat -> is_Some (Os.files w !! look i)) ->
  FileRenamer.conflict_loop fuel (PosixPath.dirname new_path) (PosixPath.basename new_path)
    root ext p c conflict_files w
  = (Return (look j,
             match j with
             | O => conflict_files
             | S _ => <[PosixPath.basename new_path := (c + N.of_nat j)%N]> conflict_files
             end), w).
Proof.
  intros Hsplit. revert p c conflict_files j.
  induction fuel as [|fuel IH]; intros p c conflict_files j Hj look Hfree Htaken; [lia|].
  cbn [FileRenamer.conflict_loop]. destruct j as [|j].
  - erewrite bind_return; [|apply path_exists_absent, Hfree]. reflexivity.
  - destruct (Htaken O ltac:(lia)) as [f Hf].
    erewrite bind_return; [|apply (path_exists_present _ _ _ Hf)]. cbv iota.
    rewrite <- (candidate_eq _ _ _ _ Hsplit).
    rewrite (IH _ _ _ j ltac:(lia)).
    + destruct j as [|j].
      * replace (c + N.of_nat 1)%N with (c + 1)%N by lia. reflexivity.
      * replace (c + 1 + N.of_nat (S j))%N with (c + N.of_nat (S (S j)))%N by lia.
        rewrite insert_insert_eq. reflexivity.
    + destruct j as [|j].
      * replace (c + 1)%N with (c + N.of_nat 1)%N by lia. exact Hfree.
      * replace (c + 1 + N.of_nat (S j))%N with (c + N.of_nat (S (S j)))%N by lia.
        exact Hfree.
    + intros i Hi. destruct i as [|i].
      * replace (c + 1)%N with (c + N.of_nat 1)%N by lia. apply (Htaken 1%nat). lia.
      * replace (c + 1 + N.of_nat (S i))%N with (c + N.of_nat (S (S i)))%N by lia.
        apply (Htaken (S (S i))). lia.
Qed.

(** Among more candidates than the file system has entries, one is free. *)
Lemma some_candidate_free new_path c fs :
  exists j, (1 <= j <= S (size fs))%nat /\ fs !! candidate new_path (c + N.of_nat j) = None.
Proof.
  set (l := (fun j => candidate new_path (c + N.of_nat j)) <$> seq 1 (S (size fs))).
  destruct (decide (Forall (fun p => is_Some (fs !! p)) l)) as [Hall|Hnot].
  - exfalso.
    assert (NoDup l) as Hnd.
    { apply NoDup_fmap_2; [|apply NoDup_seq].
      intros j1 j2 H%candidate_inj. lia. }
    assert (list_to_set l ⊆ dom fs) as Hsub.
    { intros p Hp%elem_of_list_to_set. apply elem_of_dom.
      rewrite Forall_forall in Hall. apply Hall, Hp. }
    apply subseteq_size in Hsub.
    rewrite size_list_to_set, size_dom in Hsub by exact Hnd.
    unfold l in Hsub. rewrite length_fmap, length_seq in Hsub. lia.
  - apply not_Forall_Exists in Hnot; [|intros p; apply _].
    apply Exists_exists in Hnot as (p & Hp & Hfree).
    apply list_elem_of_fmap in Hp as (j & -> & Hj). apply elem_of_seq in Hj.
    exists j. split; [lia|]. apply eq_None_not_Some, Hfree.
Qed.

(** The first free path among the probes. *)
Lemma first_free_probe new_path c fs :
  exists j, (j <= S (size fs))%nat /\ fs !! probe new_path c j = None /\
            forall i, (i < j)%nat -> is_Some (fs !! probe new_path c i).
Proof.
  destruct (some_candidate_free new_path c fs) as (j0 & Hj0 & Hfree0).
  assert (fs !! probe new_path c j0 = None) as Hp0.
  { destruct j0; [lia|exact Hfree0]. }
  clear Hfree0. revert Hp0.
  assert (j0 <= S (size fs))%nat as Hb by lia. clear Hj0. revert Hb.
  induction j0 as [j0 IH] using lt_wf_ind. intros Hb Hp0.
  destruct (decide (Forall (fun i => is_Some (fs !! probe new_path c i)) (seq 0 j0)))
    as [Hall|Hnot].
  - exists j0. split; [exact Hb|]. split; [exact Hp0|].
    intros i Hi. rewrite Forall_forall in Hall. apply Hall, elem_of_seq. lia.
  - apply not_Forall_Exists in Hnot; [|intros i; apply _].
    apply Exists_exists in Hnot as (i & Hi & Hfree). apply elem_of_seq in Hi.
    apply (IH i); [lia|lia|]. apply eq_None_not_Some, Hfree.
Qed.

(** The resolver ends, on a free path, the first one among its probes, and
    leaves the host as it was. *)
Lemma handle_filename_conflict_first_free new_path original_name conflict_files w :
  let c := default 0%N (conflict_files !! PosixPath.basename new_path) in
  exists j, (j <= S (size (Os.files w)))%nat /\
    FileRenamer.handle_filename_conflict new_path original_name conflict_files w
    = (Return (probe new_path c j, table_after new_path c conflict_files j), w) /\
    Os.files w !! probe new_path c j = None /\
    forall i, (i < j)%nat -> is_Some (Os.files w !! probe new_path c i).
Proof.
  intros c. destruct (first_free_probe new_path c (Os.files w)) as (j & Hj & Hfree & Htaken).
  exists j. split; [exact Hj|]. split; [|split; assumption].
  unfold FileRenamer.handle_filename_conflict.
  destruct (PosixPath.splitext (PosixPath.basename new_path)) as [root ext] eqn:Hsplit.
  unfold Os.bind at 1, Os.get_files.
  assert (match conflict_files !! PosixPath.basename new_path with
          | Some n => n | None => 0%N end = c) as -> by (unfold c; destruct (_ !! _); reflexivity).
  apply (conflict_loop_first_free new_path root ext _ new_path c conflict_files w j Hsplit).
  - lia.
  - exact Hfree.
  - exact Htaken.
Qed.

End Resolver.

(** C4.  Postcondition of the resolver, called as both operations call it
    (with an empty table): it returns a path that does not exist; that path
    is the desired one when it is free, and otherwise the desired name with
    [_N] put before its extension, for the least [N >= 1] whose candidate is
    free; and the extension of the returned name is the extension of the
    desired name. *)
Theorem handle_filename_conflict_postcondition new_path original_name w :
  exists p table,
    FileRenamer.handle_filename_conflict new_path original_name ∅ w = (Return (p, table), w) /\
    Os.files w !! p = None /\
    (p = new_path \/
     exists n, (1 <= n)%N /\ p = candidate new_path n /\
               is_Some (Os.files w !! new_path) /\
               forall k, (1 <= k < n)%N -> is_Some (Os.files w !! candidate new_path k)) /\
    (PosixPath.splitext (PosixPath.basename p)).2
    = (PosixPath.splitext (PosixPath.basename new_path)).2.
Proof.
  destruct (handle_filename_conflict_first_free new_path original_name ∅ w)
    as (j & _ & Hrun & Hfree & Htaken).
  rewrite lookup_empty in Hrun, Hfree, Htaken. simpl default in Hrun, Hfree, Htaken.
  eexists _, _. split; [exact Hrun|]. split; [exact Hfree|].
  destruct j as [|j].
  - split; [left; reflexivity|reflexivity].
  - split.
    + right. exists (N.of_nat (S j)). split; [lia|]. split; [reflexivity|].
      split; [apply (Htaken O); lia|].
      intros k Hk. specialize (Htaken (N.to_nat k) ltac:(lia)).
      destruct (N.to_nat k) as [|i] eqn:Ek; [lia|].
      unfold probe in Htaken. rewrite <- Ek, N2Nat.id in Htaken. exact Htaken.
    + unfold probe.
      destruct (PosixPath.splitext (PosixPath.basename new_path)) as [root ext] eqn:Hsplit.
      rewrite (splitext_candidate _ _ _ _ Hsplit). reflexivity.
Qed.

(** ** The resolver has no cap *)

Section Crowded.

Lemma crowded_taken desired n p :
  is_Some (Sample.crowded desired n !! p) <->
  p = desired \/ exists k, (1 <= k <= n)%nat /\ p = candidate desired (N.of_nat k).
Proof.
  rewrite <- elem_of_dom. unfold Sample.crowded.
  rewrite dom_list_to_map_L, elem_of_list_to_set, fmap_cons, elem_of_cons.
  simpl. rewrite <- list_fmap_compose.
  split; (intros [H|H]; [left; exact H|right]).
  - apply list_elem_of_fmap in H as (k & -> & Hk). apply elem_of_seq in Hk.
    exists k. split; [lia|reflexivity].
  - destruct H as (k & Hk & ->). apply list_elem_of_fmap.
    exists k. split; [reflexivity|]. apply elem_of_seq. lia.
Qed.

Lemma crowded_free desired n k :
  (n < k)%nat -> Sample.crowded desired n !! candidate desired (N.of_nat k) = None.
Proof.
  intros Hk. apply eq_None_not_Some. rewrite crowded_taken.
  intros [H|(k' & Hk' & H)].
  - exact (candidate_fresh _ _ H).
  - apply candidate_inj in H. lia.
Qed.

(** With the desired path and its first [n] candidates taken, the resolver
    retries [n + 1] times and returns the next candidate. *)
Lemma handle_filename_conflict_crowded desired original_name n :
  (FileRenamer.handle_filename_conflict desired original_name ∅
     (Sample.host (Sample.crowded desired n))).1
  = Return (candidate desired (N.of_nat (S n)),
            {[ PosixPath.basename desired := N.of_nat (S n) ]}).
Proof.
  destruct (handle_filename_conflict_first_free desired original_name ∅
              (Sample.host (Sample.crowded desired n))) as (j & _ & -> & Hfree & Htaken).
  rewrite lookup_empty in *. simpl default in *. simpl Os.files in *.
  assert (j = S n) as ->.
  { destruct (decide (j < S n)%nat) as [Hlt|Hge].
    - exfalso. apply eq_None_not_Some in Hfree. apply Hfree, crowded_taken.
      destruct j as [|j]; [left; reflexivity|right].
      exists (S j). split; [lia|]. unfold probe. f_equal.
    - destruct (decide (j = S n)) as [->|Hne]; [reflexivity|]. exfalso.
      specialize (Htaken (S n) ltac:(lia)). unfold probe in Htaken.
      rewrite N.add_0_l, crowded_free in Htaken by lia.
      destruct Htaken as [? [=]]. }
  unfold probe, table_after. simpl fst. rewrite N.add_0_l. reflexivity.
Qed.

Lemma spec_retry_exhausted fs desired attempts p n :
  is_Some (fs !! p) ->
  (forall i, (1 <= i <= attempts)%nat ->
             is_Some (fs !! candidate desired (n + N.of_nat i))) ->
  Spec.retry attempts fs desired p n = inl Spec.ConflictExhausted.
Proof.
  revert p n. induction attempts as [|attempts IH]; intros p n Hp Hall.
  - simpl. rewrite bool_decide_eq_true_2 by exact Hp. reflexivity.
  - simpl. rewrite bool_decide_eq_true_2 by exact Hp. apply IH.
    + replace (n + 1)%N with (n + N.of_nat 1)%N by lia. apply Hall. lia.
    + intros i Hi. replace (n + 1 + N.of_nat i)%N with (n + N.of_nat (S i))%N by lia.
      apply Hall. lia.
Qed.

Lemma spec_resolve_crowded desired max_attempts n :
  (max_attempts <= n)%nat ->
  Spec.resolve max_attempts (Sample.crowded desired n) desired = inl Spec.ConflictExhausted.
Proof.
  intros Hle. apply spec_retry_exhausted.
  - apply crowded_taken. left. reflexivity.
  - intros i Hi. apply crowded_taken. right. exists i. split; [lia|].
    rewrite N.add_0_l. reflexivity.
Qed.

End Crowded.

(** C5, as the program has it.  The loop of the resolver has no cap on its
    retries and no failure of its own: for every host and every table it ends
    and returns a free path, leaving the host as it was; and for every number
    [n] there is a directory in which it retries more than [n] times and
    still returns a path. *)
Theorem handle_filename_conflict_ends_without_cap :
  (forall new_path original_name conflict_files w,
     exists p table,
       FileRenamer.handle_filename_conflict new_path original_name conflict_files w
       = (Return (p, table), w) /\
       Os.files w !! p = None) /\
  (forall desired original_name (n : nat),
     (FileRenamer.handle_filename_conflict desired original_name ∅
        (Sample.host (Sample.crowded desired n))).1
     = Return (candidate desired (N.of_nat (S n)),
               {[ PosixPath.basename desired := N.of_nat (S n) ]})).
Proof.
  split.
  - intros new_path original_name conflict_files w.
    destruct (handle_filename_conflict_first_free new_path original_name conflict_files w)
      as (j & _ & Hrun & Hfree & _).
    eauto.
  - intros. apply handle_filename_conflict_crowded.
Qed.

(** C5, counterexample to the claim as stated.  Take the cap the
    specification suggests, 10000, and a directory where the desired name and
    its first 10001 candidates are taken.  The resolver of the specification
    fails there with [ConflictExhausted]; the program retries 10002 times and
    returns the candidate 10002. *)
Lemma handle_filename_conflict_exceeds_cap :
  Spec.resolve Spec.suggested_cap
    (Sample.crowded "/d/x.txt" (S Spec.suggested_cap)) "/d/x.txt"
    = inl Spec.ConflictExhausted /\
  (FileRenamer.handle_filename_conflict "/d/x.txt" "x.txt" ∅
     (Sample.host (Sample.crowded "/d/x.txt" (S Spec.suggested_cap)))).1
    = Return ("/d/x_10002.txt", {[ "x.txt" := 10002%N ]}).
Proof.
  split.
  - apply spec_resolve_crowded. lia.
  - rewrite handle_filename_conflict_crowded. reflexivity.
Qed.

(** ** The two operations on one file *)

Section Operations.

Implicit Types (w : Os.world).

Lemma messages_of_app w w' ms :
  Os.emitted w' = Os.emitted w ++ ms -> messages_of w w' = ms.
Proof. unfold messages_of. intros ->. apply drop_app_length. Qed.

Lemma messages_of_same w w' :
  Os.emitted w' = Os.emitted w -> messages_of w w' = [].
Proof. intros H. apply messages_of_app. rewrite app_nil_r. exact H. Qed.

Lemma get_file_time_reads file_path time_type w :
  exists r, FileRenamer.get_file_time file_path time_type w = (r, w) /\ r <> Hang.
Proof.
  unfold FileRenamer.get_file_time, Os.path_getctime, Os.path_getmtime, Os.bind, Os.stat,
    Os.raise, Os.ret.
  destruct (String.eqb time_type "creation");
    [|destruct (String.eqb time_type "modification")];
    try destruct (Os.files w !! file_path); eexists; (split; [reflexivity|discriminate]).
Qed.

Lemma remove_present path w f :
  Os.files w !! path = Some f ->
  Os.remove path w = (Return tt, Os.with_files (delete path (Os.files w)) w).
Proof.
  intros H. unfold Os.remove. erewrite bind_return; [|apply stat_present, H]. reflexivity.
Qed.

Lemma rename_present src dst w f :
  Os.files w !! src = Some f ->
  Os.rename src dst w
  = (Return tt, Os.with_files (<[dst := f]> (delete src (Os.files w))) w).
Proof.
  intros H. unfold Os.rename. erewrite bind_return; [|apply stat_present, H]. reflexivity.
Qed.

Lemma rename_absent src dst w :
  Os.files w !! src = None -> Os.rename src dst w = (Raise (FileNotFoundError src), w).
Proof.
  intros H. unfold Os.rename. erewrite bind_raise; [reflexivity|apply stat_absent, H].
Qed.

(** How the lines after the conflict resolution go, on the host [w] they
    find. *)
Lemma rename_unless_conflict_run file_path new_path original_name new_name success w :
  exists r w',
    FileRenamer.rename_unless_conflict file_path new_path original_name new_name success w
    = (r, w') /\
    r <> Hang /\ Os.utcoffset w' = Os.utcoffset w /\ Os.others w' = Os.others w /\
    ((Os.files w !! new_path = None /\
      ((Os.files w !! file_path = None /\ r = Raise (FileNotFoundError file_path) /\
        Os.files w' = Os.files w /\ Os.emitted w' = Os.emitted w) \/
       (exists f, Os.files w !! file_path = Some f /\ r = Return tt /\
        Os.files w' = <[new_path := f]> (delete file_path (Os.files w)) /\
        Os.emitted w' = Os.emitted w ++ [success]))) \/
     (is_Some (Os.files w !! new_path) /\
      ((exists e, r = Raise e /\ Os.files w' = Os.files w /\ Os.emitted w' = Os.emitted w) \/
       (r = Return tt /\ Os.files w' = Os.files w /\
        Os.emitted w' = Os.emitted w ++ [SkippedConflict original_name new_name]) \/
       (delete new_path (Os.files w) !! file_path = None /\
        r = Raise (FileNotFoundError file_path) /\
        Os.files w' = delete new_path (Os.files w) /\
        Os.emitted w' = Os.emitted w ++ [DuplicateFound original_name]) \/
       (exists f, delete new_path (Os.files w) !! file_path = Some f /\ r = Return tt /\
        Os.files w' = <[new_path := f]> (delete file_path (delete new_path (Os.files w))) /\
        Os.emitted w' = Os.emitted w ++ [DuplicateFound original_name; success])))).
Proof.
  unfold FileRenamer.rename_unless_conflict.
  destruct (Os.files w !! new_path) as [g|] eqn:Hnew.
  - erewrite bind_return; [|apply (path_exists_present _ _ _ Hnew)]. cbv iota.
    destruct (check_duplicate_file_reads file_path new_path w)
      as ([[|]|e|] & Hdup & Hne); [| | |congruence].
    + erewrite bind_return; [|exact Hdup]. cbv iota.
      erewrite bind_return; [|reflexivity].
      erewrite bind_return; [|apply (remove_present _ _ g); exact Hnew].
      cbn [Os.files Os.with_emitted Os.with_files].
      destruct (delete new_path (Os.files w) !! file_path) as [f|] eqn:Hf.
      * erewrite bind_return; [|apply (rename_present _ _ _ f); exact Hf].
        eexists _, _. split; [reflexivity|]. split; [discriminate|]. simpl.
        split; [reflexivity|]. split; [reflexivity|]. right. split; [eauto|].
        right. right. right. exists f. rewrite <- app_assoc. auto.
      * erewrite bind_raise; [|apply rename_absent; exact Hf].
        eexists _, _. split; [reflexivity|]. split; [discriminate|]. simpl.
        split; [reflexivity|]. split; [reflexivity|]. right. split; [eauto|].
        right. right. left. auto.
    + erewrite bind_return; [|exact Hdup]. cbv iota.
      eexists _, _. split; [reflexivity|]. split; [discriminate|]. simpl.
      split; [reflexivity|]. split; [reflexivity|]. right. split; [eauto|].
      right. left. auto.
    + erewrite bind_raise; [|exact Hdup].
      eexists _, _. split; [reflexivity|]. split; [discriminate|].
      split; [reflexivity|]. split; [reflexivity|]. right. split; [eauto|].
      left. eauto.
  - erewrite bind_return; [|apply (path_exists_absent _ _ Hnew)]. cbv iota.
    destruct (Os.files w !! file_path) as [f|] eqn:Hf.
    + erewrite bind_return; [|apply (rename_present _ _ _ f); exact Hf].
      eexists _, _. split; [reflexivity|]. split; [discriminate|]. simpl.
      split; [reflexivity|]. split; [reflexivity|]. left. split; [reflexivity|].
      right. eauto.
    + erewrite bind_raise; [|apply rename_absent; exact Hf].
      eexists _, _. split; [reflexivity|]. split; [discriminate|].
      split; [reflexivity|]. split; [reflexivity|]. left. split; [reflexivity|].
      left. auto.
Qed.

(** How the [try] block of [rename_file_with_date] goes up to the conflict
    resolution. *)
Lemma rename_file_with_date_body_run file_path time_type w :
  let original_name := PosixPath.basename file_path in
  (exists e, FileRenamer.rename_file_with_date_body file_path time_type w = (Raise e, w)) \/
  FileRenamer.rename_file_with_date_body file_path time_type w
    = Os.emit (AlreadyCorrect original_name) w \/
  (exists p new_name,
     Os.files w !! p = None /\
     FileRenamer.rename_file_with_date_body file_path time_type w
     = FileRenamer.rename_unless_conflict file_path p original_name new_name
         (Renamed original_name new_name) (Os.with_files (Os.others w (Os.files w)) w)).
Proof.
  intros original_name. unfold FileRenamer.rename_file_with_date_body.
  destruct (get_file_time_reads file_path time_type w) as ([t|e|] & Ht & Hne); [| |congruence].
  2:{ left. exists e. erewrite bind_raise; [reflexivity|exact Ht]. }
  erewrite bind_return; [|exact Ht].
  erewrite (bind_return Os.get_utcoffset); [|reflexivity].
  destruct (Datetime.fromtimestamp (Os.utcoffset w) t) as [dt|]; [|left; eexists; reflexivity].
  fold original_name. destruct (FileRenamer.has_valid_date_prefix _ _).
  { right. left. reflexivity. }
  right. right.
  match goal with |- context [FileRenamer.handle_filename_conflict ?np ?on ?cf] =>
    destruct (handle_filename_conflict_first_free np on cf w) as (j & _ & Hrun & Hfree & _)
  end.
  eexists _, _. split; [exact Hfree|].
  erewrite bind_return; [|exact Hrun]. reflexivity.
Qed.

(** How the [try] block of [restore_original_name] goes up to the conflict
    resolution. *)
Lemma restore_original_name_body_run file_path w :
  let original_name := PosixPath.basename file_path in
  let cleaned_name := FileRenamer.clean_filename original_name in
  let new_name := FileRenamer.remove_yy_mm_dd_prefix cleaned_name in
  if FileRenamer.has_yy_mm_dd_prefix cleaned_name then
    exists j,
      let p := probe (PosixPath.join (PosixPath.dirname file_path) new_name) 0 j in
      Os.files w !! p = None /\
      (forall i, (i < j)%nat ->
         is_Some (Os.files w !! probe (PosixPath.join (PosixPath.dirname file_path) new_name) 0 i)) /\
      FileRenamer.restore_original_name_body file_path w
      = FileRenamer.rename_unless_conflict file_path p original_name new_name
          (Restored original_name new_name) (Os.with_files (Os.others w (Os.files w)) w)
  else
    FileRenamer.restore_original_name_body file_path w
    = Os.emit (SkippedNotEligible original_name) w.
Proof.
  intros original_name cleaned_name new_name.
  unfold FileRenamer.restore_original_name_body.
  fold original_name. fold cleaned_name. fold new_name.
  destruct (FileRenamer.has_yy_mm_dd_prefix cleaned_name); [|reflexivity].
  cbn [negb].
  match goal with |- context [FileRenamer.handle_filename_conflict ?np ?on ?cf] =>
    destruct (handle_filename_conflict_first_free np on cf w) as (j & _ & Hrun & Hfree & Htaken)
  end.
  rewrite lookup_empty in Hrun, Hfree, Htaken. simpl default in Hrun, Hfree, Htaken.
  exists j. split; [exact Hfree|]. split; [exact Htaken|].
  erewrite bind_return; [|exact Hrun]. reflexivity.
Qed.

End Operations.

Section Settling.

Implicit Types (w : Os.world).

(** The handler of the two operations: whatever the [try] block raises
    becomes one [Failed] message, and the operation returns. *)
Lemma try_except_failed (body : Os.M unit) file_path w r wb :
  body w = (r, wb) -> r <> Hang ->
  Os.try_except body (fun e => Os.emit (Failed file_path e)) w
  = (Return tt,
     match r with
     | Raise e => Os.with_emitted (Os.emitted wb ++ [Failed file_path e]) wb
     | _ => wb
     end).
Proof.
  intros Hb Hne. unfold Os.try_except. rewrite Hb.
  destruct r as [[]|e|]; [reflexivity|reflexivity|congruence].
Qed.




(** The lines after the conflict resolution, with the handler. *)
Lemma rename_unless_conflict_settles file_path new_path original_name new_name success w :
  exists w' ms,
    Os.try_except
      (FileRenamer.rename_unless_conflict file_path new_path original_name new_name success)
      (fun e => Os.emit (Failed file_path e)) w = (Return tt, w') /\
    Os.emitted w' = Os.emitted w ++ ms /\
    settled file_path new_path original_name new_name success (Os.files w) ms (Os.files w').
Proof.
  destruct (rename_unless_conflict_run file_path new_path original_name new_name success w)
    as (r & w' & Hrun & Hne & _ & _ & Hcases).
  rewrite (try_except_failed _ _ _ _ _ Hrun Hne).
  destruct Hcases as [(Hnew & [(Hold & -> & Hfs & He)|(f & Hold & -> & Hfs & He)])
                     |(Hnew & [(e & -> & Hfs & He)|[(-> & Hfs & He)
                              |[(Hold & -> & Hfs & He)|(f & Hold & -> & Hfs & He)]]])].
  - eexists _, [_]. split; [reflexivity|]. simpl. rewrite He, Hfs.
    split; [reflexivity|]. apply settled_missing; assumption.
  - eexists _, [_]. split; [reflexivity|]. rewrite He, Hfs.
    split; [reflexivity|]. apply settled_renamed; assumption.
  - eexists _, [_]. split; [reflexivity|]. simpl. rewrite He, Hfs.
    split; [reflexivity|]. apply settled_failed; assumption.
  - eexists _, [_]. split; [reflexivity|]. rewrite He, Hfs.
    split; [reflexivity|]. apply settled_skipped; assumption.
  - eexists _, [_; _]. split; [reflexivity|]. simpl. rewrite He, Hfs, <- app_assoc.
    split; [reflexivity|]. apply settled_duplicate_lost; assumption.
  - eexists _, [_; _]. split; [reflexivity|]. rewrite He, Hfs.
    split; [reflexivity|]. apply settled_duplicate; assumption.
Qed.

Lemma rename_file_with_date_settles file_path time_type w :
  let original_name := PosixPath.basename file_path in
  exists w' ms,
    FileRenamer.rename_file_with_date file_path time_type w = (Return tt, w') /\
    Os.emitted w' = Os.emitted w ++ ms /\
    ((Os.files w' = Os.files w /\
      (ms = [AlreadyCorrect original_name] \/ exists e, ms = [Failed file_path e])) \/
     (exists p new_name,
        Os.files w !! p = None /\
        settled file_path p original_name new_name (Renamed original_name new_name)
          (Os.others w (Os.files w)) ms (Os.files w'))).
Proof.
  intros original_name. unfold FileRenamer.rename_file_with_date.
  destruct (rename_file_with_date_body_run file_path time_type w)
    as [(e & Hb)|[Hb|(p & new_name & Hfree & Hb)]].
  - rewrite (try_except_failed _ _ _ _ _ Hb) by discriminate.
    eexists _, [_]. split; [reflexivity|]. split; [reflexivity|]. left. eauto.
  - rewrite (try_except_failed _ _ _ _ _ Hb) by discriminate.
    eexists _, [_]. split; [reflexivity|]. split; [reflexivity|]. left. eauto.
  - destruct (rename_unless_conflict_settles file_path p original_name new_name
                (Renamed original_name new_name)
                (Os.with_files (Os.others w (Os.files w)) w)) as (w' & ms & Hrun & He & Hs).
    exists w', ms. split; [|split; [exact He|right; eauto]].
    rewrite <- Hrun. unfold Os.try_except. fold original_name in Hb. rewrite Hb. reflexivity.
Qed.

Lemma restore_original_name_settles file_path w :
  let original_name := PosixPath.basename file_path in
  let cleaned_name := FileRenamer.clean_filename original_name in
  let new_name := FileRenamer.remove_yy_mm_dd_prefix cleaned_name in
  let new_path := PosixPath.join (PosixPath.dirname file_path) new_name in
  exists w' ms,
    FileRenamer.restore_original_name file_path w = (Return tt, w') /\
    Os.emitted w' = Os.emitted w ++ ms /\
    if FileRenamer.has_yy_mm_dd_prefix cleaned_name then
      exists j,
        Os.files w !! probe new_path 0 j = None /\
        (forall i, (i < j)%nat -> is_Some (Os.files w !! probe new_path 0 i)) /\
        settled file_path (probe new_path 0 j) original_name new_name
          (Restored original_name new_name) (Os.others w (Os.files w)) ms (Os.files w')
    else Os.files w' = Os.files w /\ ms = [SkippedNotEligible original_name].
Proof.
  intros original_name cleaned_name new_name new_path.
  unfold FileRenamer.restore_original_name.
  pose proof (restore_original_name_body_run file_path w) as Hb. cbv zeta in Hb.
  fold original_name cleaned_name new_name new_path in Hb.
  destruct (FileRenamer.has_yy_mm_dd_prefix cleaned_name).
  - destruct Hb as (j & Hfree & Htaken & Hb).
    destruct (rename_unless_conflict_settles file_path (probe new_path 0 j) original_name
                new_name (Restored original_name new_name)
                (Os.with_files (Os.others w (Os.files w)) w)) as (w' & ms & Hrun & He & Hs).
    exists w', ms. split; [|split; [exact He|eauto]].
    rewrite <- Hrun. unfold Os.try_except. rewrite Hb. reflexivity.
  - rewrite (try_except_failed _ _ _ _ _ Hb) by discriminate.
    eexists _, [_]. split; [reflexivity|]. split; [reflexivity|]. split; reflexivity.
Qed.

End Settling.

(** ** The claims on the sanitizer and on the date prefix *)

(** C7.  Sanitization: [clean_filename] replaces each of the nine illegal
    characters by an underscore and leaves every other character as it is, so
    its result holds none of them, and applying it twice is applying it
    once. *)
Theorem clean_filename_replaces_illegal_chars (x : string) :
  (forall i, String.get i (FileRenamer.clean_filename x) = sanitize_char <$> String.get i x) /\
  (forall c, In c FileRenamer.illegal_chars ->
             PyStr.contains c (FileRenamer.clean_filename x) = false) /\
  FileRenamer.clean_filename (FileRenamer.clean_filename x) = FileRenamer.clean_filename x.
Proof.
  split; [intros i; apply clean_filename_get|].
  split; [|apply clean_filename_idem].
  intros c Hc. apply clean_filename_legal. unfold is_illegal.
  apply existsb_exists. exists c. split; [exact Hc|apply Ascii.eqb_refl].
Qed.

Lemma clean_filename_replaces_illegal_chars_witness :
  PyStr.contains ":" (FileRenamer.clean_filename "a:b?.txt") = false.
Proof.
  apply (proj1 (proj2 (clean_filename_replaces_illegal_chars "a:b?.txt")) ":"%char).
  simpl. tauto.
Defined.




Lemma check_duplicate_file_sizes_then_bytes_witness :
  FileRenamer.check_duplicate_file "/d/report.txt" "/d/notes.txt"
    (Sample.host Sample.two_sizes)
  = (Return false, Sample.host Sample.two_sizes) /\
  FileRenamer.check_duplicate_file "/d/report.txt" "/d/2024-03-05 report.txt"
    (Sample.host Sample.same_content)
  = (Return true, Sample.host Sample.same_content).
Proof.
  split.
  - apply (proj1 (check_duplicate_file_sizes_then_bytes "/d/report.txt" "/d/notes.txt"
                    (Sample.host Sample.two_sizes)
                    (Sample.file_of "quarterly figures") (Sample.file_of "notes")
                    ltac:(vm_compute; reflexivity) ltac:(vm_compute; reflexivity)));
      vm_compute; lia.
  - apply (proj2 (check_duplicate_file_sizes_then_bytes "/d/report.txt" "/d/2024-03-05 report.txt"
                    (Sample.host Sample.same_content)
                    (Sample.file_of "quarterly figures") (Sample.file_of "quarterly figures")
                    ltac:(vm_compute; reflexivity) ltac:(vm_compute; reflexivity))); reflexivity.
Defined.

(** ** The claims on the two operations *)

(** C1, the program at a file that is already prefixed for its time.  The
    file [2024-03-05 report.txt] was created on 2024-03-05, so its sanitized
    name is the fresh prefix followed by its stripped name; it is alone in
    its directory.  [rename_file_with_date] does not answer [AlreadyCorrect]:
    its guard looks at the stripped name, which does not start with the
    prefix, so the operation goes on, finds its own path taken, and renames
    the file to [2024-03-05 report_1.txt]. *)
Theorem rename_file_with_date_prefixed_file_renamed :
  let w := Sample.host Sample.prefixed_only in
  let name := "2024-03-05 report.txt" in
  let w' := (FileRenamer.rename_file_with_date "/d/2024-03-05 report.txt" "creation" w).2 in
  FileRenamer.clean_filename name
    = "2024-03-05 " +:+ FileRenamer.remove_date_prefix (FileRenamer.clean_filename name) /\
  FileRenamer.has_valid_date_prefix
    (FileRenamer.remove_date_prefix (FileRenamer.clean_filename name)) "2024-03-05 " = false /\
  Os.emitted w' = [Renamed name name] /\
  Os.files w' = {[ "/d/2024-03-05 report_1.txt" := Sample.file_of "quarterly figures" ]}.
Proof. intros w name w'. split; [|split; [|split]]; vm_compute; reflexivity. Qed.

(** C2, the program at a same-content collision.  [report.txt] and
    [2024-03-05 report.txt] hold the same bytes and [check_duplicate_file]
    says so, but the conflict resolution runs first and moves on to a free
    name: the operation reports a plain rename, no duplicate, and leaves both
    copies, the source under [2024-03-05 report_1.txt]. *)
Theorem rename_file_with_date_same_content_keeps_both :
  let w := Sample.host Sample.same_content in
  let w' := (FileRenamer.rename_file_with_date "/d/report.txt" "creation" w).2 in
  (FileRenamer.check_duplicate_file "/d/report.txt" "/d/2024-03-05 report.txt" w).1
    = Return true /\
  Os.emitted w' = [Renamed "report.txt" "2024-03-05 report.txt"] /\
  Os.files w' = {[ "/d/2024-03-05 report.txt" := Sample.file_of "quarterly figures";
                   "/d/2024-03-05 report_1.txt" := Sample.file_of "quarterly figures" ]}.
Proof. intros w w'. split; [|split]; vm_compute; reflexivity. Qed.

(** A worker that runs alone never finds a duplicate and never skips for a
    conflict: the path its resolver returned is still free when it looks. *)
Lemma rename_file_with_date_alone file_path time_type w :
  Os.alone w ->
  let original_name := PosixPath.basename file_path in
  exists m, messages_of w (FileRenamer.rename_file_with_date file_path time_type w).2 = [m] /\
    (m = AlreadyCorrect original_name \/ (exists e, m = Failed file_path e) \/
     exists new_name, m = Renamed original_name new_name).
Proof.
  intros Halone original_name.
  destruct (rename_file_with_date_settles file_path time_type w) as (w' & ms & -> & He & Hc).
  simpl snd. rewrite (messages_of_app _ _ _ He).
  destruct Hc as [(_ & [->|(e & ->)])|(p & new_name & Hfree & Hs)].
  - eexists. split; [reflexivity|]. left. reflexivity.
  - eexists. split; [reflexivity|]. right. left. eauto.
  - rewrite Halone in Hs.
    inversion Hs; subst;
      try match goal with H : is_Some (Os.files w !! p) |- _ =>
        rewrite Hfree in H; destruct H as [? [=]] end;
      (eexists; split; [reflexivity|]; right; eauto).
Qed.

(** C8.  Skip outcomes leave the file system as it is: when an operation
    ends in [SkippedConflict], the files are the ones the operation found
    when it looked at the resolved path (what the other workers left; the
    operation itself renamed and removed nothing), and when
    [restore_original_name] ends in [SkippedNotEligible], the files are the
    ones it started with. *)
Theorem skipped_operations_change_no_file file_path time_type w :
  (forall o n,
     last (messages_of w (FileRenamer.rename_file_with_date file_path time_type w).2)
       = Some (SkippedConflict o n) ->
     Os.files (FileRenamer.rename_file_with_date file_path time_type w).2
       = Os.others w (Os.files w)) /\
  (forall o n,
     last (messages_of w (FileRenamer.restore_original_name file_path w).2)
       = Some (SkippedConflict o n) ->
     Os.files (FileRenamer.restore_original_name file_path w).2 = Os.others w (Os.files w)) /\
  (forall o,
     last (messages_of w (FileRenamer.restore_original_name file_path w).2)
       = Some (SkippedNotEligible o) ->
     Os.files (FileRenamer.restore_original_name file_path w).2 = Os.files w).
Proof.
  split; [|split].
  - intros o n.
    destruct (rename_file_with_date_settles file_path time_type w) as (w' & ms & -> & He & Hc).
    simpl snd. rewrite (messages_of_app _ _ _ He).
    destruct Hc as [(_ & [->|(e & ->)])|(p & new_name & _ & Hs)]; [discriminate..|].
    inversion Hs; subst; simpl; intros [=]; reflexivity.
  - intros o n.
    destruct (restore_original_name_settles file_path w) as (w' & ms & -> & He & Hc).
    simpl snd. rewrite (messages_of_app _ _ _ He).
    destruct (FileRenamer.has_yy_mm_dd_prefix _).
    + destruct Hc as (j & _ & _ & Hs). inversion Hs; subst; simpl; intros [=]; reflexivity.
    + destruct Hc as [_ ->]. discriminate.
  - intros o.
    destruct (restore_original_name_settles file_path w) as (w' & ms & -> & He & Hc).
    simpl snd. rewrite (messages_of_app _ _ _ He).
    destruct (FileRenamer.has_yy_mm_dd_prefix _).
    + destruct Hc as (j & _ & _ & Hs). inversion Hs; subst; simpl; intros [=].
    + destruct Hc as [-> _]. reflexivity.
Qed.

Lemma skipped_operations_change_no_file_witness :
  let racing := Sample.racing_host Sample.plain_only "/d/2024-03-05 report.txt"
                  (Sample.file_of "quarterly figureS") in
  let racing' := Sample.racing_host Sample.prefixed_only "/d/report.txt"
                   (Sample.file_of "quarterly figureS") in
  let quiet := Sample.host Sample.plain_only in
  Os.files (FileRenamer.rename_file_with_date "/d/report.txt" "creation" racing).2
    = Os.others racing (Os.files racing) /\
  Os.files (FileRenamer.restore_original_name "/d/2024-03-05 report.txt" racing').2
    = Os.others racing' (Os.files racing') /\
  Os.files (FileRenamer.restore_original_name "/d/report.txt" quiet).2 = Os.files quiet.
Proof.
  intros racing racing' quiet. split; [|split].
  - apply (proj1 (skipped_operations_change_no_file "/d/report.txt" "creation" racing)
             "report.txt" "2024-03-05 report.txt").
    vm_compute. reflexivity.
  - apply (proj1 (proj2 (skipped_operations_change_no_file "/d/2024-03-05 report.txt" ""
                           racing'))
             "2024-03-05 report.txt" "report.txt").
    vm_compute. reflexivity.
  - apply (proj2 (proj2 (skipped_operations_change_no_file "/d/report.txt" "" quiet))
             "report.txt").
    vm_compute. reflexivity.
Defined.

(** ** Containment of errors *)

Section Containment.

Implicit Types (w : Os.world).







End Containment.



(** ** Restoring sanitizes *)

Section Restoring.

Lemma digit_legal c : Re.is_digit c = true -> is_illegal c = false.
Proof.
  destruct c as [[] [] [] [] [] [] [] []]; vm_compute; intros H;
    first [reflexivity|discriminate H].
Qed.

Lemma digits_exactly_fixed width s :
  digits_exactly width s = true -> FileRenamer.clean_filename s = s.
Proof.
  revert s. induction width as [|width IH]; intros [|c s] H; simpl in H; try discriminate.
  - reflexivity.
  - apply andb_true_iff in H as [Hc Hs].
    rewrite clean_filename_cons, (IH _ Hs). unfold sanitize_char.
    rewrite (digit_legal _ Hc). reflexivity.
Qed.

(** The prefix made for a file time holds no illegal character. *)
(** A printed number holds no illegal character. *)
Lemma str_fixed n : FileRenamer.clean_filename (PyStr.str n) = PyStr.str n.
Proof.
  apply clean_filename_fixed. intros c Hc. apply str_digits.
  destruct (Re.is_digit c) eqn:E; [|reflexivity].
  rewrite (digit_legal _ E) in Hc. discriminate.
Qed.

Lemma date_prefix_of_fixed utcoffset t dt :
  Datetime.fromtimestamp utcoffset t = Some dt ->
  FileRenamer.clean_filename (FileRenamer.date_prefix_of dt) = FileRenamer.date_prefix_of dt.
Proof.
  intros (Hy & Hm & Hd)%fromtimestamp_bounds.
  unfold FileRenamer.date_prefix_of, Datetime.strftime_Ymd. cbv zeta.
  rewrite !clean_filename_app, str_fixed.
  rewrite (digits_exactly_fixed 2 (PyStr.zfill 2 (PyStr.str (Z.to_N (Datetime.month dt)))))
    by (apply two_digits; lia).
  rewrite (digits_exactly_fixed 2 (PyStr.zfill 2 (PyStr.str (Z.to_N (Datetime.day dt)))))
    by (apply two_digits; lia).
  reflexivity.
Qed.

Lemma match_start_suffix pat s rest :
  Re.match_start pat s = Some rest -> exists pre, s = pre +:+ rest.
Proof.
  revert s. induction pat as [|a pat IH]; intros s H.
  - exists "". simpl in H. injection H as ->. reflexivity.
  - destruct s as [|c s]; [discriminate|]. simpl in H.
    destruct (Re.atom_matches a c); [|discriminate].
    destruct (IH _ H) as (pre & ->). exists (String c pre). reflexivity.
Qed.

(** Stripping the prefix of a sanitized name leaves a sanitized name. *)
Lemma remove_date_prefix_fixed s :
  FileRenamer.clean_filename s = s ->
  FileRenamer.clean_filename (FileRenamer.remove_date_prefix s)
  = FileRenamer.remove_date_prefix s.
Proof.
  intros Hs. unfold FileRenamer.remove_date_prefix, Re.sub_start.
  destruct (Re.match_start _ s) as [rest|] eqn:Hm; [|exact Hs].
  rewrite str_app_nil_l. apply clean_filename_fixed. intros c Hc.
  destruct (match_start_suffix _ _ _ Hm) as (pre & ->).
  pose proof (clean_filename_legal (pre +:+ rest) c Hc) as Hl.
  rewrite Hs, contains_app in Hl. apply orb_false_iff in Hl. apply Hl.
Qed.

End Restoring.

(** C10.  [restore_original_name] also sanitizes.  For a file that is there,
    whose sanitized name has a date prefix, and a worker that runs alone: the
    operation reports the new name [remove_yy_mm_dd_prefix (clean_filename
    original_name)] and moves the file to the path the resolver makes of that
    name in the same directory; that name holds no illegal character; and a
    name [x] that holds one is not what restoring gives back for the name
    [rename_file_with_date] builds from [x], a name that
    [restore_original_name] accepts when the date is in the year 1000 or
    later. *)
Theorem restore_original_name_sanitizes file_path w f :
  Os.alone w ->
  Os.files w !! file_path = Some f ->
  let original_name := PosixPath.basename file_path in
  let new_name :=
    FileRenamer.remove_yy_mm_dd_prefix (FileRenamer.clean_filename original_name) in
  let new_path := PosixPath.join (PosixPath.dirname file_path) new_name in
  FileRenamer.has_yy_mm_dd_prefix (FileRenamer.clean_filename original_name) = true ->
  (exists p,
     (FileRenamer.restore_original_name file_path w).1 = Return tt /\
     messages_of w (FileRenamer.restore_original_name file_path w).2
       = [Restored original_name new_name] /\
     Os.files (FileRenamer.restore_original_name file_path w).2
       = <[p := f]> (delete file_path (Os.files w)) /\
     Os.files w !! p = None /\
     (p = new_path \/ exists n, (1 <= n)%N /\ p = candidate new_path n)) /\
  (forall c, is_illegal c = true -> PyStr.contains c new_name = false) /\
  (forall x utcoffset (t : Z) dt,
     FileRenamer.clean_filename x <> x ->
     Datetime.fromtimestamp utcoffset t = Some dt ->
     let added :=
       FileRenamer.new_name_of (FileRenamer.date_prefix_of dt) (FileRenamer.clean_filename x) in
     (1000 <= Datetime.year dt ->
      FileRenamer.has_yy_mm_dd_prefix (FileRenamer.clean_filename added) = true) /\
     FileRenamer.remove_yy_mm_dd_prefix (FileRenamer.clean_filename added) <> x).
Proof.
  intros Halone Hf original_name new_name new_path Hprefix.
  split; [|split].
  - destruct (restore_original_name_settles file_path w) as (w' & ms & Hrun & He & Hc).
    cbv zeta in Hc. fold original_name new_name new_path in Hc.
    rewrite Hprefix in Hc. destruct Hc as (j & Hfree & _ & Hs).
    rewrite Halone in Hs. rewrite Hrun. simpl fst. simpl snd.
    rewrite (messages_of_app _ _ _ He).
    exists (probe new_path 0 j).
    inversion Hs; subst;
      try match goal with H : is_Some (Os.files w !! probe new_path 0 j) |- _ =>
        rewrite Hfree in H; destruct H as [? [=]] end;
      try congruence.
    split; [reflexivity|]. split; [reflexivity|].
    match goal with H : Os.files w !! file_path = Some ?g |- _ =>
      rewrite Hf in H; injection H as <- end.
    split; [congruence|]. split; [exact Hfree|].
    destruct j as [|j]; [left; reflexivity|right].
    exists (N.of_nat (S j)). split; [lia|reflexivity].
  - intros c Hc. unfold new_name, FileRenamer.remove_yy_mm_dd_prefix.
    change (Re.sub_start FileRenamer.date_prefix_pattern ""
              (FileRenamer.clean_filename original_name))
      with (FileRenamer.remove_date_prefix (FileRenamer.clean_filename original_name)).
    rewrite <- remove_date_prefix_fixed by apply clean_filename_idem.
    apply clean_filename_legal, Hc.
  - intros x utcoffset t dt Hx Hdt added.
    assert (FileRenamer.clean_filename added = added) as Hfixed.
    { unfold added, FileRenamer.new_name_of. rewrite clean_filename_app.
      rewrite (date_prefix_of_fixed _ _ _ Hdt).
      rewrite remove_date_prefix_fixed by apply clean_filename_idem. reflexivity. }
    rewrite Hfixed. split.
    + intros Hfour. unfold FileRenamer.has_yy_mm_dd_prefix. rewrite Hfixed.
      unfold added, FileRenamer.new_name_of.
      rewrite (date_prefix_of_matches _ _ _ _ Hdt Hfour). apply bool_decide_eq_true_2. eauto.
    + change (FileRenamer.remove_yy_mm_dd_prefix added)
        with (FileRenamer.remove_date_prefix added).
      intros Heq. apply Hx.
      pose proof (remove_date_prefix_fixed _ Hfixed) as Hfx.
      rewrite Heq in Hfx. exact Hfx.
Qed.

Lemma restore_original_name_sanitizes_witness :
  let w := Sample.host Sample.illegal_name in
  (exists p,
     (FileRenamer.restore_original_name "/d/2024-03-05 a:b.txt" w).1 = Return tt /\
     messages_of w (FileRenamer.restore_original_name "/d/2024-03-05 a:b.txt" w).2
       = [Restored "2024-03-05 a:b.txt" "a_b.txt"] /\
     Os.files (FileRenamer.restore_original_name "/d/2024-03-05 a:b.txt" w).2
       = <[p := Sample.file_of "notes"]> (delete "/d/2024-03-05 a:b.txt" (Os.files w)) /\
     Os.files w !! p = None /\
     (p = "/d/a_b.txt" \/ exists n, (1 <= n)%N /\ p = candidate "/d/a_b.txt" n)) /\
  FileRenamer.remove_yy_mm_dd_prefix
    (FileRenamer.clean_filename
       (FileRenamer.new_name_of "2024-03-05 " (FileRenamer.clean_filename "a:b.txt")))
  <> "a:b.txt".
Proof.
  intros w.
  pose proof (restore_original_name_sanitizes "/d/2024-03-05 a:b.txt" w (Sample.file_of "notes")
                (fun fs => eq_refl) ltac:(vm_compute; reflexivity) ltac:(vm_compute; reflexivity))
    as (Hrun & _ & Hback).
  split; [exact Hrun|].
  exact (proj2 (Hback "a:b.txt" (fun _ => 0) Sample.noon_2024_03_05
                  {| Datetime.year := 2024; Datetime.month := 3; Datetime.day := 5 |}
                  ltac:(vm_compute; discriminate) ltac:(vm_compute; reflexivity))).
Defined.

(** * Further properties of the engine *)

(** ** Hashing *)

Lemma read_blocks_none fuel hasher (f : list byte) :
  FileRenamer.read_blocks (S fuel) 0 hasher f = Some hasher.
Proof. reflexivity. Qed.

(** X1.  [calculate_file_hash] of a readable file is the MD5 digest of its
    whole content, whatever positive block size it is read with; with block
    size 0 the first read is empty and the digest is the one of the empty
    message.  The host is left as it was. *)
Theorem calculate_file_hash_block_size filepath (block_size : nat) w f :
  Os.files w !! filepath = Some f ->
  Os.readable f = true ->
  FileRenamer.calculate_file_hash filepath block_size w
  = (Return (MD5.digest (match block_size with O => [] | S _ => Os.content f end)), w).
Proof.
  intros Hf Hr. unfold FileRenamer.calculate_file_hash, Os.open_rb.
  erewrite bind_return; [|erewrite bind_return; [|apply stat_present, Hf]; rewrite Hr; reflexivity].
  destruct block_size as [|block_size].
  - rewrite read_blocks_none. reflexivity.
  - rewrite read_blocks_all; [reflexivity|lia|lia].
Qed.

Lemma calculate_file_hash_block_size_witness :
  FileRenamer.calculate_file_hash "/d/report.txt" 3 (Sample.host Sample.plain_only)
  = (Return (MD5.digest (list_byte_of_string "quarterly figures")),
     Sample.host Sample.plain_only) /\
  FileRenamer.calculate_file_hash "/d/report.txt" 0 (Sample.host Sample.plain_only)
  = (Return (MD5.digest []), Sample.host Sample.plain_only).
Proof.
  split.
  - apply (calculate_file_hash_block_size "/d/report.txt" 3 (Sample.host Sample.plain_only)
             (Sample.file_of "quarterly figures")); vm_compute; reflexivity.
  - apply (calculate_file_hash_block_size "/d/report.txt" 0 (Sample.host Sample.plain_only)
             (Sample.file_of "quarterly figures")); vm_compute; reflexivity.
Defined.

(** ** Duplicate detection *)

Lemma calculate_file_hash_unreadable path block_size w f :
  Os.files w !! path = Some f -> Os.readable f = false ->
  FileRenamer.calculate_file_hash path block_size w = (Raise (PermissionError path), w).
Proof.
  intros Hf Hr. unfold FileRenamer.calculate_file_hash, Os.open_rb.
  erewrite bind_raise; [reflexivity|].
  erewrite bind_return; [|apply stat_present, Hf]. rewrite Hr. reflexivity.
Qed.

Lemma path_getsize_absent path w :
  Os.files w !! path = None ->
  Os.path_getsize path w = (Raise (FileNotFoundError path), w).
Proof.
  intros H. unfold Os.path_getsize. erewrite bind_raise; [reflexivity|apply stat_absent, H].
Qed.

(** X2.  The errors of [check_duplicate_file], in the order the function
    meets them: a missing first file, then a missing second file; and, only
    when the sizes agree, an unreadable first file, then an unreadable second
    file.  The host is left as it was. *)
Theorem check_duplicate_file_errors file_path new_path w :
  (Os.files w !! file_path = None ->
   FileRenamer.check_duplicate_file file_path new_path w
   = (Raise (FileNotFoundError file_path), w)) /\
  (forall f1, Os.files w !! file_path = Some f1 -> Os.files w !! new_path = None ->
   FileRenamer.check_duplicate_file file_path new_path w
   = (Raise (FileNotFoundError new_path), w)) /\
  (forall f1 f2, Os.files w !! file_path = Some f1 -> Os.files w !! new_path = Some f2 ->
   length (Os.content f1) = length (Os.content f2) ->
   Os.readable f1 = false ->
   FileRenamer.check_duplicate_file file_path new_path w
   = (Raise (PermissionError file_path), w)) /\
  (forall f1 f2, Os.files w !! file_path = Some f1 -> Os.files w !! new_path = Some f2 ->
   length (Os.content f1) = length (Os.content f2) ->
   Os.readable f1 = true -> Os.readable f2 = false ->
   FileRenamer.check_duplicate_file file_path new_path w
   = (Raise (PermissionError new_path), w)).
Proof.
  unfold FileRenamer.check_duplicate_file. split; [|split; [|split]].
  - intros H1. erewrite bind_raise; [reflexivity|apply path_getsize_absent, H1].
  - intros f1 H1 H2. erewrite bind_return; [|apply path_getsize_present, H1].
    erewrite bind_raise; [reflexivity|apply path_getsize_absent, H2].
  - intros f1 f2 H1 H2 Hlen R1.
    erewrite bind_return; [|apply path_getsize_present, H1].
    erewrite bind_return; [|apply path_getsize_present, H2].
    rewrite Hlen, Z.eqb_refl. cbn [negb].
    erewrite bind_raise; [reflexivity|apply (calculate_file_hash_unreadable _ _ _ _ H1 R1)].
  - intros f1 f2 H1 H2 Hlen R1 R2.
    erewrite bind_return; [|apply path_getsize_present, H1].
    erewrite bind_return; [|apply path_getsize_present, H2].
    rewrite Hlen, Z.eqb_refl. cbn [negb].
    erewrite bind_return; [|apply (calculate_file_hash_readable _ _ _ H1 R1)].
    erewrite bind_raise; [reflexivity|apply (calculate_file_hash_unreadable _ _ _ _ H2 R2)].
Qed.

Lemma check_duplicate_file_errors_witness :
  (FileRenamer.check_duplicate_file "/d/none.bin" "/d/b.bin" (Sample.host More.locked_pair)).1
    = Raise (FileNotFoundError "/d/none.bin") /\
  (FileRenamer.check_duplicate_file "/d/a.bin" "/d/none.bin" (Sample.host More.locked_pair)).1
    = Raise (FileNotFoundError "/d/none.bin") /\
  (FileRenamer.check_duplicate_file "/d/a.bin" "/d/b.bin" (Sample.host More.locked_pair)).1
    = Raise (PermissionError "/d/a.bin") /\
  (FileRenamer.check_duplicate_file "/d/a.bin" "/d/b.bin" (Sample.host More.second_locked)).1
    = Raise (PermissionError "/d/b.bin").
Proof.
  split; [|split; [|split]].
  - rewrite (proj1 (check_duplicate_file_errors "/d/none.bin" "/d/b.bin"
                      (Sample.host More.locked_pair)));
      [reflexivity|vm_compute; reflexivity].
  - rewrite (proj1 (proj2 (check_duplicate_file_errors "/d/a.bin" "/d/none.bin"
                             (Sample.host More.locked_pair))) (More.locked "same size"));
      [reflexivity|vm_compute; reflexivity|vm_compute; reflexivity].
  - rewrite (proj1 (proj2 (proj2 (check_duplicate_file_errors "/d/a.bin" "/d/b.bin"
                                    (Sample.host More.locked_pair))))
               (More.locked "same size") (Sample.file_of "same-size"));
      [reflexivity|vm_compute; reflexivity|vm_compute; reflexivity|reflexivity|reflexivity].
  - rewrite (proj2 (proj2 (proj2 (check_duplicate_file_errors "/d/a.bin" "/d/b.bin"
                                    (Sample.host More.second_locked))))
               (Sample.file_of "same-size") (More.locked "same size"));
      [reflexivity|vm_compute; reflexivity|vm_compute; reflexivity|reflexivity|reflexivity
      |reflexivity].
Defined.

Lemma check_duplicate_file_readable a b w fa fb :
  Os.files w !! a = Some fa -> Os.files w !! b = Some fb ->
  Os.readable fa = true -> Os.readable fb = true ->
  FileRenamer.check_duplicate_file a b w
  = (Return (bool_decide (length (Os.content fa) = length (Os.content fb) /\
                          MD5.digest (Os.content fa) = MD5.digest (Os.content fb))), w).
Proof.
  intros Ha Hb Ra Rb. unfold FileRenamer.check_duplicate_file.
  erewrite bind_return; [|apply path_getsize_present, Ha].
  erewrite bind_return; [|apply path_getsize_present, Hb].
  destruct (Z.eqb_spec (Z.of_nat (length (Os.content fa)))
                       (Z.of_nat (length (Os.content fb)))) as [E|E]; cbn [negb].
  - erewrite bind_return; [|apply (calculate_file_hash_readable _ _ _ Ha Ra)].
    erewrite bind_return; [|apply (calculate_file_hash_readable _ _ _ Hb Rb)].
    unfold Os.ret. do 2 f_equal. apply bool_decide_ext. split; [|tauto].
    intros Hd. split; [lia|exact Hd].
  - unfold Os.ret. do 2 f_equal. symmetry. apply bool_decide_eq_false_2.
    intros [Hl _]. lia.
Qed.

(** X3.  For two readable files, [check_duplicate_file] answers [True]
    exactly when they have the same size and the same MD5 digest; so its
    answer does not depend on the order of its arguments. *)
Theorem check_duplicate_file_exactly file_path new_path w f1 f2 :
  Os.files w !! file_path = Some f1 ->
  Os.files w !! new_path = Some f2 ->
  Os.readable f1 = true -> Os.readable f2 = true ->
  FileRenamer.check_duplicate_file file_path new_path w
  = (Return (bool_decide (length (Os.content f1) = length (Os.content f2) /\
                          MD5.digest (Os.content f1) = MD5.digest (Os.content f2))), w) /\
  (FileRenamer.check_duplicate_file new_path file_path w).1
  = (FileRenamer.check_duplicate_file file_path new_path w).1.
Proof.
  intros H1 H2 R1 R2.
  split; [apply (check_duplicate_file_readable _ _ _ _ _ H1 H2 R1 R2)|].
  rewrite (check_duplicate_file_readable _ _ _ _ _ H1 H2 R1 R2),
    (check_duplicate_file_readable _ _ _ _ _ H2 H1 R2 R1). simpl.
  f_equal. apply bool_decide_ext. split; intros [-> ->]; split; reflexivity.
Qed.

Lemma check_duplicate_file_exactly_witness :
  (FileRenamer.check_duplicate_file "/d/2024-03-05 report.txt" "/d/report.txt"
     (Sample.host Sample.same_content)).1
  = (FileRenamer.check_duplicate_file "/d/report.txt" "/d/2024-03-05 report.txt"
       (Sample.host Sample.same_content)).1.
Proof.
  apply (proj2 (check_duplicate_file_exactly "/d/report.txt" "/d/2024-03-05 report.txt"
                  (Sample.host Sample.same_content)
                  (Sample.file_of "quarterly figures") (Sample.file_of "quarterly figures")
                  ltac:(vm_compute; reflexivity) ltac:(vm_compute; reflexivity)
                  ltac:(reflexivity) ltac:(reflexivity))).
Defined.

(** ** Names *)

(** X4.  [clean_filename] keeps the length of a name, works character by
    character (the clean form of a concatenation is the concatenation of the
    clean forms), and leaves a name as it is exactly when the name holds none
    of the nine illegal characters. *)
Theorem clean_filename_shape (x y : string) :
  String.length (FileRenamer.clean_filename x) = String.length x /\
  FileRenamer.clean_filename (x +:+ y)
    = FileRenamer.clean_filename x +:+ FileRenamer.clean_filename y /\
  (FileRenamer.clean_filename x = x <->
   forall c, In c FileRenamer.illegal_chars -> PyStr.contains c x = false).
Proof.
  split; [apply clean_filename_length|]. split; [apply clean_filename_app|].
  split.
  - intros Hx c Hc. rewrite <- Hx. apply clean_filename_legal.
    apply existsb_exists. exists c. split; [exact Hc|apply Ascii.eqb_refl].
  - intros H. apply clean_filename_fixed. intros c Hc.
    apply existsb_exists in Hc as (c' & Hin & Heq). apply Ascii.eqb_eq in Heq as ->.
    apply H, Hin.
Qed.

Section Stripping.

Lemma match_start_length pat s rest :
  Re.match_start pat s = Some rest ->
  s = PyStr.take (length pat) s +:+ rest /\
  String.length s = (length pat + String.length rest)%nat.
Proof.
  revert s. induction pat as [|a pat IH]; intros s H.
  - simpl in H. injection H as ->. split; reflexivity.
  - destruct s as [|c s]; [discriminate|]. simpl in H.
    destruct (Re.atom_matches a c); [|discriminate].
    destruct (IH _ H) as [Hs Hl]. split.
    + simpl. rewrite str_app_cons. f_equal. exact Hs.
    + simpl. rewrite Hl. reflexivity.
Qed.

End Stripping.

(** X5.  The strip functions remove at most one date prefix.  A sanitized
    name that has the prefix is its first 11 characters followed by what
    [remove_yy_mm_dd_prefix] returns; a name that has none is returned as it
    is; and stripping a name that carries twice the prefix of a file time in
    the year 1000 or later leaves a name that still has a prefix. *)
Theorem remove_yy_mm_dd_prefix_once (file : string) :
  let cleaned := FileRenamer.clean_filename file in
  (FileRenamer.has_yy_mm_dd_prefix file = true ->
   cleaned = PyStr.take 11 cleaned +:+ FileRenamer.remove_yy_mm_dd_prefix cleaned /\
   String.length file = (11 + String.length (FileRenamer.remove_yy_mm_dd_prefix cleaned))%nat) /\
  (FileRenamer.has_yy_mm_dd_prefix file = false ->
   FileRenamer.remove_yy_mm_dd_prefix cleaned = cleaned) /\
  (forall utcoffset (t : Z) dt,
     Datetime.fromtimestamp utcoffset t = Some dt ->
     1000 <= Datetime.year dt ->
     let twice := FileRenamer.date_prefix_of dt +:+ FileRenamer.date_prefix_of dt +:+ file in
     FileRenamer.remove_yy_mm_dd_prefix twice = FileRenamer.date_prefix_of dt +:+ file /\
     FileRenamer.has_yy_mm_dd_prefix (FileRenamer.remove_yy_mm_dd_prefix twice) = true).
Proof.
  intros cleaned. split; [|split].
  - unfold FileRenamer.has_yy_mm_dd_prefix, FileRenamer.remove_yy_mm_dd_prefix, Re.sub_start.
    fold cleaned. intros H. apply bool_decide_eq_true_1 in H as [rest Hrest]. rewrite Hrest.
    destruct (match_start_length _ _ _ Hrest) as [Hs Hl]. rewrite str_app_nil_l.
    split; [exact Hs|]. unfold cleaned in Hl. rewrite clean_filename_length in Hl. exact Hl.
  - unfold FileRenamer.has_yy_mm_dd_prefix, FileRenamer.remove_yy_mm_dd_prefix, Re.sub_start.
    fold cleaned. intros H. apply bool_decide_eq_false_1 in H.
    destruct (Re.match_start _ cleaned); [exfalso; apply H; eauto|reflexivity].
  - intros utcoffset t dt Hdt Hfour twice.
    assert (FileRenamer.remove_yy_mm_dd_prefix twice = FileRenamer.date_prefix_of dt +:+ file)
      as ->.
    { unfold twice, FileRenamer.remove_yy_mm_dd_prefix, Re.sub_start.
      rewrite (date_prefix_of_matches _ _ _ _ Hdt Hfour). reflexivity. }
    split; [reflexivity|]. unfold FileRenamer.has_yy_mm_dd_prefix.
    rewrite clean_filename_app, (date_prefix_of_fixed _ _ _ Hdt).
    rewrite (date_prefix_of_matches _ _ _ _ Hdt Hfour). apply bool_decide_eq_true_2. eauto.
Qed.

Lemma remove_yy_mm_dd_prefix_once_witness :
  "2024-03-05 a_b.txt"
    = PyStr.take 11 "2024-03-05 a_b.txt" +:+ FileRenamer.remove_yy_mm_dd_prefix "2024-03-05 a_b.txt" /\
  FileRenamer.remove_yy_mm_dd_prefix "report.txt" = "report.txt" /\
  FileRenamer.remove_yy_mm_dd_prefix ("2024-03-05 " +:+ "2024-03-05 " +:+ "r.txt")
    = "2024-03-05 " +:+ "r.txt".
Proof.
  split; [|split].
  - exact (proj1 (proj1 (remove_yy_mm_dd_prefix_once "2024-03-05 a_b.txt") eq_refl)).
  - exact (proj1 (proj2 (remove_yy_mm_dd_prefix_once "report.txt")) eq_refl).
  - exact (proj1 (proj2 (proj2 (remove_yy_mm_dd_prefix_once "r.txt")) (fun _ => 0)
                    Sample.noon_2024_03_05
                    {| Datetime.year := 2024; Datetime.month := 3; Datetime.day := 5 |}
                    eq_refl ltac:(simpl; lia))).
Defined.

(** X6.  The name [rename_file_with_date] builds is sanitized; and when the
    date of the file time is in the year 1000 or later, it has a date prefix
    (so [restore_original_name] accepts it), and building again from it, for
    the same or another file time, replaces the prefix instead of stacking a
    second one. *)
Theorem new_name_of_is_stable utcoffset (t1 t2 : Z) dt1 dt2 (original_name : string) :
  Datetime.fromtimestamp utcoffset t1 = Some dt1 ->
  Datetime.fromtimestamp utcoffset t2 = Some dt2 ->
  let built :=
    FileRenamer.new_name_of (FileRenamer.date_prefix_of dt1)
      (FileRenamer.clean_filename original_name) in
  FileRenamer.clean_filename built = built /\
  (1000 <= Datetime.year dt1 ->
   FileRenamer.has_yy_mm_dd_prefix built = true /\
   FileRenamer.new_name_of (FileRenamer.date_prefix_of dt2) (FileRenamer.clean_filename built)
   = FileRenamer.new_name_of (FileRenamer.date_prefix_of dt2)
       (FileRenamer.clean_filename original_name)).
Proof.
  intros H1 H2 built.
  assert (FileRenamer.clean_filename built = built) as Hfixed.
  { unfold built, FileRenamer.new_name_of. rewrite clean_filename_app.
    rewrite (date_prefix_of_fixed _ _ _ H1).
    rewrite remove_date_prefix_fixed by apply clean_filename_idem. reflexivity. }
  split; [exact Hfixed|]. intros Hfour. split.
  - unfold FileRenamer.has_yy_mm_dd_prefix. rewrite Hfixed.
    unfold built, FileRenamer.new_name_of.
    rewrite (date_prefix_of_matches _ _ _ _ H1 Hfour). apply bool_decide_eq_true_2. eauto.
  - rewrite Hfixed. unfold built, FileRenamer.new_name_of at 1 2.
    rewrite (remove_date_prefix_fresh _ _ _ _ H1 Hfour). reflexivity.
Qed.

Lemma new_name_of_is_stable_witness :
  FileRenamer.new_name_of "2025-01-01 "
    (FileRenamer.clean_filename
       (FileRenamer.new_name_of "2024-03-05 " (FileRenamer.clean_filename "a:b.txt")))
  = FileRenamer.new_name_of "2025-01-01 " (FileRenamer.clean_filename "a:b.txt").
Proof.
  exact (proj2 (proj2 (new_name_of_is_stable (fun _ => 0) Sample.noon_2024_03_05 1735732800
                         {| Datetime.year := 2024; Datetime.month := 3; Datetime.day := 5 |}
                         {| Datetime.year := 2025; Datetime.month := 1; Datetime.day := 1 |}
                         "a:b.txt" eq_refl eq_refl) ltac:(simpl; lia))).
Defined.

(** ** The conflict resolver with a table *)

(** X7.  [handle_filename_conflict] with any table of conflicts.  A free
    desired path is returned as it is, with the table as it was.  For a taken
    one the numbering resumes after the count [c] the table records for the
    base name (0 when it records none): the result is the candidate with the
    least number above [c] that is free, and the table records that number
    for the base name. *)
Theorem handle_filename_conflict_resumes new_path original_name
    (conflict_files : gmap string N) w :
  let base_name := PosixPath.basename new_path in
  let c := default 0%N (conflict_files !! base_name) in
  (Os.files w !! new_path = None ->
   FileRenamer.handle_filename_conflict new_path original_name conflict_files w
   = (Return (new_path, conflict_files), w)) /\
  (is_Some (Os.files w !! new_path) ->
   exists n, (c < n)%N /\
     FileRenamer.handle_filename_conflict new_path original_name conflict_files w
     = (Return (candidate new_path n, <[base_name := n]> conflict_files), w) /\
     Os.files w !! candidate new_path n = None /\
     forall k, (c < k < n)%N -> is_Some (Os.files w !! candidate new_path k)).
Proof.
  intros base_name c.
  destruct (handle_filename_conflict_first_free new_path original_name conflict_files w)
    as (j & _ & Hrun & Hfree & Htaken). fold base_name c in Hrun, Hfree, Htaken.
  split.
  - intros Hnew. destruct j as [|j]; [exact Hrun|].
    destruct (Htaken O ltac:(lia)) as [f Hf]. simpl in Hf. congruence.
  - intros [f Hf]. destruct j as [|j]; [simpl in Hfree; congruence|].
    exists (c + N.of_nat (S j))%N. split; [lia|]. split; [exact Hrun|].
    split; [exact Hfree|].
    intros k Hk. specialize (Htaken (N.to_nat (k - c)) ltac:(lia)).
    destruct (N.to_nat (k - c)) as [|i] eqn:Ek; [lia|].
    unfold probe in Htaken. rewrite <- Ek in Htaken.
    replace (c + N.of_nat (N.to_nat (k - c)))%N with k in Htaken by lia. exact Htaken.
Qed.

Lemma handle_filename_conflict_resumes_witness :
  FileRenamer.handle_filename_conflict "/d/x.txt" "x.txt" {[ "x.txt" := 7%N ]}
    (Sample.host Sample.plain_only)
  = (Return ("/d/x.txt", {[ "x.txt" := 7%N ]}), Sample.host Sample.plain_only) /\
  exists n, (7 < n)%N /\
    FileRenamer.handle_filename_conflict "/d/report.txt" "report.txt" {[ "report.txt" := 7%N ]}
      (Sample.host Sample.plain_only)
    = (Return (candidate "/d/report.txt" n, <[ "report.txt" := n ]> {[ "report.txt" := 7%N ]}),
       Sample.host Sample.plain_only).
Proof.
  split.
  - apply (proj1 (handle_filename_conflict_resumes "/d/x.txt" "x.txt" {[ "x.txt" := 7%N ]}
                    (Sample.host Sample.plain_only))).
    vm_compute. reflexivity.
  - destruct (proj2 (handle_filename_conflict_resumes "/d/report.txt" "report.txt"
                       {[ "report.txt" := 7%N ]} (Sample.host Sample.plain_only))
                ltac:(vm_compute; eauto)) as (n & Hn & Hrun & _).
    exists n. split; [exact Hn|exact Hrun].
Defined.

(** ** The directory of a resolved path *)

Section Dirname.

Implicit Types (s : string) (c a : ascii).

Lemma rstrip_empty_iff c s : PyStr.rstrip c s = "" <-> PyStr.all_eq c s = true.
Proof.
  induction s as [|a s IH]; [simpl; tauto|].
  simpl. destruct (PyStr.rstrip c s) eqn:E.
  - destruct (Ascii.eqb a c); simpl; [tauto|].
    split; [discriminate|discriminate].
  - split; [discriminate|]. intros [_ H]%andb_true_iff.
    apply IH in H. discriminate.
Qed.

Lemma rstrip_no_trailing c s : PyStr.endswith (PyStr.rstrip c s) c = false.
Proof.
  induction s as [|a s IH]; [reflexivity|].
  simpl. destruct (PyStr.rstrip c s) as [|b r] eqn:E.
  - destruct (Ascii.eqb a c) eqn:Ea; [reflexivity|]. simpl. exact Ea.
  - rewrite endswith_cons by discriminate. exact IH.
Qed.

Lemma rstrip_fixed c s : PyStr.endswith s c = false -> PyStr.rstrip c s = s.
Proof.
  induction s as [|a s IH]; [reflexivity|].
  destruct s as [|b s].
  - simpl. intros ->. reflexivity.
  - rewrite endswith_cons by discriminate. intros H. specialize (IH H).
    change (PyStr.rstrip c (String a (String b s))) with
      (match PyStr.rstrip c (String b s) with
       | "" => if Ascii.eqb a c then "" else String a ""
       | r => String a r
       end).
    rewrite IH. reflexivity.
Qed.

Lemma rstrip_snoc c s : PyStr.rstrip c (s +:+ String c "") = PyStr.rstrip c s.
Proof.
  induction s as [|a s IH].
  - simpl. rewrite Ascii.eqb_refl. reflexivity.
  - rewrite str_app_cons. simpl. rewrite IH. reflexivity.
Qed.

Lemma all_eq_endswith c s : s <> "" -> PyStr.all_eq c s = true -> PyStr.endswith s c = true.
Proof.
  induction s as [|a s IH]; [congruence|]. intros _ H. simpl in H.
  apply andb_true_iff in H as [Ha Hs]. destruct s as [|b s].
  - simpl. exact Ha.
  - rewrite endswith_cons by discriminate. apply IH; [discriminate|exact Hs].
Qed.

Lemma all_eq_snoc c s : PyStr.all_eq c (s +:+ String c "") = PyStr.all_eq c s.
Proof.
  induction s as [|a s IH].
  - simpl. rewrite Ascii.eqb_refl. reflexivity.
  - rewrite str_app_cons. simpl. rewrite IH. reflexivity.
Qed.

(** A directory part that ends in a separator is made of separators. *)
Lemma dirname_trailing (p : string) :
  PyStr.endswith (PosixPath.dirname p) PosixPath.sep = true ->
  PyStr.all_eq PosixPath.sep (PosixPath.dirname p) = true.
Proof.
  unfold PosixPath.dirname. cbv zeta.
  set (head := PyStr.slice 0 (PyStr.rfind PosixPath.sep p + 1) p).
  destruct (String.eqb_spec head "") as [->|Hne]; [discriminate|].
  destruct (PyStr.all_eq PosixPath.sep head) eqn:Hall; simpl.
  - intros _. exact Hall.
  - rewrite rstrip_no_trailing. discriminate.
Qed.

Lemma dirname_of_prefixed (x n : string) :
  PyStr.contains PosixPath.sep n = false ->
  x = "" \/ PyStr.endswith x PosixPath.sep = true ->
  PosixPath.dirname (x +:+ n)
  = if negb (String.eqb x "") && negb (PyStr.all_eq PosixPath.sep x)
    then PyStr.rstrip PosixPath.sep x else x.
Proof.
  intros Hn Hx. unfold PosixPath.dirname. cbv zeta.
  rewrite (rfind_app_absent _ _ _ Hn).
  assert (PyStr.slice 0 (PyStr.rfind PosixPath.sep x + 1) (x +:+ n) = x) as ->.
  { unfold PyStr.slice. rewrite str_drop_0, Z.sub_0_r. destruct Hx as [->|Hx].
    - reflexivity.
    - rewrite (rfind_endswith _ _ Hx), Nat2Z.id. apply str_take_app_length. }
  reflexivity.
Qed.

(** Joining a name to the directory part of a path stays in that
    directory. *)
Lemma dirname_join_dirname (p n : string) :
  PyStr.contains PosixPath.sep n = false ->
  PosixPath.dirname (PosixPath.join (PosixPath.dirname p) n) = PosixPath.dirname p.
Proof.
  intros Hn. set (d := PosixPath.dirname p).
  pose proof (dirname_trailing p) as Htrail. fold d in Htrail.
  unfold PosixPath.join. rewrite (startswith_sep _ Hn).
  destruct (String.eqb_spec d "") as [Hd|Hd].
  - rewrite Hd. simpl orb. cbv iota. rewrite str_app_nil_l.
    rewrite <- (str_app_nil_l n). rewrite dirname_of_prefixed; [reflexivity|exact Hn|auto].
  - simpl orb. destruct (PyStr.endswith d PosixPath.sep) eqn:E.
    + rewrite dirname_of_prefixed; [|exact Hn|auto].
      rewrite (Htrail eq_refl), andb_false_r. reflexivity.
    + replace (d +:+ String PosixPath.sep n) with ((d +:+ String PosixPath.sep "") +:+ n)
        by (rewrite str_app_assoc; reflexivity).
      rewrite dirname_of_prefixed; [|exact Hn|right; apply endswith_snoc].
      assert (PyStr.all_eq PosixPath.sep d = false) as Hall.
      { destruct (PyStr.all_eq PosixPath.sep d) eqn:Hall; [|reflexivity].
        rewrite (all_eq_endswith _ _ Hd Hall) in E. discriminate. }
      rewrite all_eq_snoc, Hall, andb_true_r.
      destruct (String.eqb_spec (d +:+ String PosixPath.sep "") "") as [He|He].
      * destruct d; discriminate.
      * simpl negb. cbv iota. rewrite rstrip_snoc. apply rstrip_fixed, E.
Qed.

End Dirname.

(** X8.  The resolver stays in the directory of the desired path: whatever
    the table, the path it returns has the directory part of the desired
    path, and a candidate is never the desired path itself. *)
Theorem handle_filename_conflict_same_directory new_path original_name
    (conflict_files : gmap string N) w :
  exists p table,
    FileRenamer.handle_filename_conflict new_path original_name conflict_files w
    = (Return (p, table), w) /\
    PosixPath.dirname p = PosixPath.dirname new_path /\
    (is_Some (Os.files w !! new_path) -> p <> new_path).
Proof.
  destruct (handle_filename_conflict_first_free new_path original_name conflict_files w)
    as (j & _ & Hrun & Hfree & _).
  eexists _, _. split; [exact Hrun|]. split.
  - destruct j as [|j]; [reflexivity|]. unfold probe.
    destruct (PosixPath.splitext (PosixPath.basename new_path)) as [root ext] eqn:Hsplit.
    rewrite (candidate_eq _ _ _ _ Hsplit).
    apply dirname_join_dirname, (candidate_name_no_sep _ _ _ _ Hsplit).
  - intros [f Hf] Heq. rewrite Heq in Hfree. congruence.
Qed.

Lemma handle_filename_conflict_same_directory_witness :
  exists p table,
    FileRenamer.handle_filename_conflict "/d/report.txt" "report.txt" ∅
      (Sample.host Sample.plain_only) = (Return (p, table), Sample.host Sample.plain_only) /\
    PosixPath.dirname p = "/d" /\ p <> "/d/report.txt".
Proof.
  destruct (handle_filename_conflict_same_directory "/d/report.txt" "report.txt" ∅
              (Sample.host Sample.plain_only)) as (p & table & Hrun & Hdir & Hne).
  exists p, table. split; [exact Hrun|]. split; [exact Hdir|].
  apply Hne. vm_compute. eauto.
Defined.

(** ** The operations, step by step *)

Section Exact.

Implicit Types (w : Os.world).

Lemma get_file_time_present file_path time_type w f :
  Os.files w !! file_path = Some f ->
  time_type = "creation" \/ time_type = "modification" ->
  FileRenamer.get_file_time file_path time_type w
  = (Return (if String.eqb time_type "creation" then Os.ctime f else Os.mtime f), w).
Proof.
  intros Hf [->| ->]; unfold FileRenamer.get_file_time; simpl;
    unfold Os.path_getctime, Os.path_getmtime;
    (erewrite bind_return; [|apply stat_present, Hf]); reflexivity.
Qed.

Lemma get_file_time_absent file_path time_type w :
  Os.files w !! file_path = None ->
  time_type = "creation" \/ time_type = "modification" ->
  FileRenamer.get_file_time file_path time_type w = (Raise (FileNotFoundError file_path), w).
Proof.
  intros Hf [->| ->]; unfold FileRenamer.get_file_time; simpl;
    unfold Os.path_getctime, Os.path_getmtime;
    (erewrite bind_raise; [reflexivity|apply stat_absent, Hf]).
Qed.

Lemma get_file_time_invalid file_path time_type w :
  time_type <> "creation" -> time_type <> "modification" ->
  FileRenamer.get_file_time file_path time_type w
  = (Raise (ValueError "Invalid time_type. Use 'creation' or 'modification'."), w).
Proof.
  intros H1 H2. unfold FileRenamer.get_file_time.
  destruct (String.eqb_spec time_type "creation"); [contradiction|].
  destruct (String.eqb_spec time_type "modification"); [contradiction|]. reflexivity.
Qed.

(** A file time is read only from a file that is there, with one of the two
    kinds of time. *)
Lemma get_file_time_returns file_path time_type w t :
  FileRenamer.get_file_time file_path time_type w = (Return t, w) ->
  is_Some (Os.files w !! file_path) /\
  (time_type = "creation" \/ time_type = "modification").
Proof.
  intros H.
  destruct (String.eqb_spec time_type "creation") as [E1|E1];
    [|destruct (String.eqb_spec time_type "modification") as [E2|E2]].
  - split; [|auto]. destruct (Os.files w !! file_path) eqn:Hf; [eauto|].
    rewrite (get_file_time_absent _ _ _ Hf) in H by auto. discriminate.
  - split; [|auto]. destruct (Os.files w !! file_path) eqn:Hf; [eauto|].
    rewrite (get_file_time_absent _ _ _ Hf) in H by auto. discriminate.
  - rewrite (get_file_time_invalid _ _ _ E1 E2) in H. discriminate.
Qed.

(** The [try] block of [rename_file_with_date] once the date is there. *)
Lemma rename_file_with_date_body_exact file_path time_type w t dt :
  FileRenamer.get_file_time file_path time_type w = (Return t, w) ->
  Datetime.fromtimestamp (Os.utcoffset w) t = Some dt ->
  let original_name := PosixPath.basename file_path in
  let cleaned_name := FileRenamer.clean_filename original_name in
  let date_prefix := FileRenamer.date_prefix_of dt in
  let new_name := FileRenamer.new_name_of date_prefix cleaned_name in
  let new_path := PosixPath.join (PosixPath.dirname file_path) new_name in
  if FileRenamer.has_valid_date_prefix (FileRenamer.remove_date_prefix cleaned_name) date_prefix
  then FileRenamer.rename_file_with_date_body file_path time_type w
       = Os.emit (AlreadyCorrect original_name) w
  else exists j,
    Os.files w !! probe new_path 0 j = None /\
    (forall i, (i < j)%nat -> is_Some (Os.files w !! probe new_path 0 i)) /\
    FileRenamer.rename_file_with_date_body file_path time_type w
    = FileRenamer.rename_unless_conflict file_path (probe new_path 0 j) original_name new_name
        (Renamed original_name new_name) (Os.with_files (Os.others w (Os.files w)) w).
Proof.
  intros Ht Hdt original_name cleaned_name date_prefix new_name new_path.
  unfold FileRenamer.rename_file_with_date_body.
  erewrite bind_return; [|exact Ht].
  erewrite (bind_return Os.get_utcoffset); [|reflexivity]. rewrite Hdt.
  fold original_name cleaned_name date_prefix new_name new_path.
  destruct (FileRenamer.has_valid_date_prefix _ date_prefix); [reflexivity|].
  destruct (handle_filename_conflict_first_free new_path original_name ∅ w)
    as (j & _ & Hrun & Hfree & Htaken).
  rewrite lookup_empty in Hrun, Hfree, Htaken. simpl default in Hrun, Hfree, Htaken.
  exists j. split; [exact Hfree|]. split; [exact Htaken|].
  erewrite bind_return; [|exact Hrun]. reflexivity.
Qed.

Lemma rename_file_with_date_settles_exact file_path time_type w t dt :
  FileRenamer.get_file_time file_path time_type w = (Return t, w) ->
  Datetime.fromtimestamp (Os.utcoffset w) t = Some dt ->
  let original_name := PosixPath.basename file_path in
  let cleaned_name := FileRenamer.clean_filename original_name in
  let date_prefix := FileRenamer.date_prefix_of dt in
  let new_name := FileRenamer.new_name_of date_prefix cleaned_name in
  let new_path := PosixPath.join (PosixPath.dirname file_path) new_name in
  exists w' ms,
    FileRenamer.rename_file_with_date file_path time_type w = (Return tt, w') /\
    Os.emitted w' = Os.emitted w ++ ms /\
    if FileRenamer.has_valid_date_prefix (FileRenamer.remove_date_prefix cleaned_name)
         date_prefix
    then Os.files w' = Os.files w /\ ms = [AlreadyCorrect original_name]
    else exists j,
      Os.files w !! probe new_path 0 j = None /\
      (forall i, (i < j)%nat -> is_Some (Os.files w !! probe new_path 0 i)) /\
      settled file_path (probe new_path 0 j) original_name new_name
        (Renamed original_name new_name) (Os.others w (Os.files w)) ms (Os.files w').
Proof.
  intros Ht Hdt original_name cleaned_name date_prefix new_name new_path.
  pose proof (rename_file_with_date_body_exact file_path time_type w t dt Ht Hdt) as Hb.
  cbv zeta in Hb. fold original_name cleaned_name date_prefix new_name new_path in Hb.
  unfold FileRenamer.rename_file_with_date.
  destruct (FileRenamer.has_valid_date_prefix _ date_prefix).
  - rewrite (try_except_failed _ _ _ _ _ Hb) by discriminate.
    eexists _, [_]. split; [reflexivity|]. split; [reflexivity|]. split; reflexivity.
  - destruct Hb as (j & Hfree & Htaken & Hb).
    destruct (rename_unless_conflict_settles file_path (probe new_path 0 j) original_name
                new_name (Renamed original_name new_name)
                (Os.with_files (Os.others w (Os.files w)) w)) as (w' & ms & Hrun & He & Hs).
    exists w', ms. split; [|split; [exact He|eauto]].
    rewrite <- Hrun. unfold Os.try_except. rewrite Hb. reflexivity.
Qed.

(** The operations leave the time zone and the other workers as they
    are. *)
Lemma try_rename_unless_conflict_frame file_path p original_name new_name success w :
  let w' := (Os.try_except
               (FileRenamer.rename_unless_conflict file_path p original_name new_name success)
               (fun e => Os.emit (Failed file_path e)) w).2 in
  Os.utcoffset w' = Os.utcoffset w /\ Os.others w' = Os.others w.
Proof.
  destruct (rename_unless_conflict_run file_path p original_name new_name success w)
    as (r & w1 & Hrun & Hne & Hu & Ho & _).
  cbv zeta. rewrite (try_except_failed _ _ _ _ _ Hrun Hne).
  destruct r as [[]|e|]; simpl; auto.
Qed.

Lemma rename_file_with_date_frame file_path time_type w :
  let w' := (FileRenamer.rename_file_with_date file_path time_type w).2 in
  Os.utcoffset w' = Os.utcoffset w /\ Os.others w' = Os.others w.
Proof.
  cbv zeta. unfold FileRenamer.rename_file_with_date.
  destruct (rename_file_with_date_body_run file_path time_type w)
    as [(e & Hb)|[Hb|(p & new_name & _ & Hb)]].
  - rewrite (try_except_failed _ _ _ _ _ Hb) by discriminate. split; reflexivity.
  - rewrite (try_except_failed _ _ _ _ _ Hb) by discriminate. split; reflexivity.
  - pose proof (try_rename_unless_conflict_frame file_path p (PosixPath.basename file_path)
                  new_name (Renamed (PosixPath.basename file_path) new_name)
                  (Os.with_files (Os.others w (Os.files w)) w)) as Hf.
    cbv zeta in Hf. unfold Os.try_except in *. rewrite Hb. exact Hf.
Qed.

Lemma restore_original_name_frame file_path w :
  let w' := (FileRenamer.restore_original_name file_path w).2 in
  Os.utcoffset w' = Os.utcoffset w /\ Os.others w' = Os.others w.
Proof.
  cbv zeta. unfold FileRenamer.restore_original_name.
  pose proof (restore_original_name_body_run file_path w) as Hb. cbv zeta in Hb.
  destruct (FileRenamer.has_yy_mm_dd_prefix _).
  - destruct Hb as (j & _ & _ & Hb).
    match type of Hb with _ = FileRenamer.rename_unless_conflict ?a ?b ?c ?d ?e ?f =>
      pose proof (try_rename_unless_conflict_frame a b c d e f) as Hf end.
    cbv zeta in Hf. unfold Os.try_except in *. rewrite Hb. exact Hf.
  - rewrite (try_except_failed _ _ _ _ _ Hb) by discriminate. split; reflexivity.
Qed.

End Exact.

(** ** The add-prefix operation *)

(** X9.  The early failures of [rename_file_with_date].  A time type other
    than ["creation"] and ["modification"] makes the operation emit one
    [Failed] message with the [ValueError] of [get_file_time], whether or not
    the file is there; with a proper time type, a file that is not there
    makes it emit one [Failed] message with the [FileNotFoundError] of that
    path.  In both cases nothing else happens. *)
Theorem rename_file_with_date_early_failures file_path time_type w :
  (time_type <> "creation" -> time_type <> "modification" ->
   FileRenamer.rename_file_with_date file_path time_type w
   = (Return tt,
      Os.with_emitted
        (Os.emitted w ++
         [Failed file_path
            (ValueError "Invalid time_type. Use 'creation' or 'modification'.")]) w)) /\
  (time_type = "creation" \/ time_type = "modification" ->
   Os.files w !! file_path = None ->
   FileRenamer.rename_file_with_date file_path time_type w
   = (Return tt,
      Os.with_emitted (Os.emitted w ++ [Failed file_path (FileNotFoundError file_path)]) w)).
Proof.
  split.
  - intros H1 H2. unfold FileRenamer.rename_file_with_date.
    apply (try_except_failed _ _ _ (Raise _) w); [|discriminate].
    unfold FileRenamer.rename_file_with_date_body.
    erewrite bind_raise; [reflexivity|apply get_file_time_invalid; assumption].
  - intros Hv Hf. unfold FileRenamer.rename_file_with_date.
    apply (try_except_failed _ _ _ (Raise _) w); [|discriminate].
    unfold FileRenamer.rename_file_with_date_body.
    erewrite bind_raise; [reflexivity|apply get_file_time_absent; assumption].
Qed.

Lemma rename_file_with_date_early_failures_witness :
  let w := Sample.host Sample.plain_only in
  Os.emitted (FileRenamer.rename_file_with_date "/d/report.txt" "access" w).2
    = [Failed "/d/report.txt"
         (ValueError "Invalid time_type. Use 'creation' or 'modification'.")] /\
  Os.emitted (FileRenamer.rename_file_with_date "/d/missing.txt" "modification" w).2
    = [Failed "/d/missing.txt" (FileNotFoundError "/d/missing.txt")].
Proof.
  intros w. split.
  - rewrite (proj1 (rename_file_with_date_early_failures "/d/report.txt" "access" w));
      [reflexivity|discriminate|discriminate].
  - rewrite (proj2 (rename_file_with_date_early_failures "/d/missing.txt" "modification" w));
      [reflexivity|right; reflexivity|vm_compute; reflexivity].
Defined.

Section Guard.


(** The guard of [rename_file_with_date] sanitizes a name that is sanitized
    already. *)
Lemma has_valid_date_prefix_stripped (original_name date_prefix : string) :
  FileRenamer.has_valid_date_prefix
    (FileRenamer.remove_date_prefix (FileRenamer.clean_filename original_name)) date_prefix
  = PyStr.startswith
      (FileRenamer.remove_date_prefix (FileRenamer.clean_filename original_name)) date_prefix.
Proof.
  unfold FileRenamer.has_valid_date_prefix.
  rewrite remove_date_prefix_fixed by apply clean_filename_idem. reflexivity.
Qed.

Lemma settled_not_already_correct file_path p o n success fs ms fs' x :
  settled file_path p o n success fs ms fs' ->
  success <> AlreadyCorrect x -> ms <> [AlreadyCorrect x].
Proof. intros Hs Hne. inversion Hs; subst; congruence. Qed.

End Guard.

(** X10.  When [rename_file_with_date] answers that the date is already
    correct.  For a file that is there, with a proper time type and a file
    time that has a date: the operation ends with the one message
    [AlreadyCorrect] exactly when the sanitized name, with one date prefix
    stripped, still starts with the prefix of the file's date; and then it
    leaves every file as it is. *)
Theorem rename_file_with_date_already_correct_iff file_path time_type w f dt :
  Os.files w !! file_path = Some f ->
  time_type = "creation" \/ time_type = "modification" ->
  Datetime.fromtimestamp (Os.utcoffset w)
    (if String.eqb time_type "creation" then Os.ctime f else Os.mtime f) = Some dt ->
  let original_name := PosixPath.basename file_path in
  let name_without_prefix :=
    FileRenamer.remove_date_prefix (FileRenamer.clean_filename original_name) in
  let w' := (FileRenamer.rename_file_with_date file_path time_type w).2 in
  (messages_of w w' = [AlreadyCorrect original_name] <->
   PyStr.startswith name_without_prefix (FileRenamer.date_prefix_of dt) = true) /\
  (PyStr.startswith name_without_prefix (FileRenamer.date_prefix_of dt) = true ->
   Os.files w' = Os.files w).
Proof.
  intros Hf Hv Hdt original_name name_without_prefix w'.
  destruct (rename_file_with_date_settles_exact file_path time_type w _ dt
              (get_file_time_present _ _ _ _ Hf Hv) Hdt) as (w1 & ms & Hrun & He & Hc).
  cbv zeta in Hc. fold original_name in Hc.
  rewrite has_valid_date_prefix_stripped in Hc. fold original_name name_without_prefix in Hc.
  unfold w'. rewrite Hrun. simpl snd. rewrite (messages_of_app _ _ _ He).
  destruct (PyStr.startswith name_without_prefix (FileRenamer.date_prefix_of dt)).
  - destruct Hc as [Hfs ->]. split; [tauto|]. intros _. exact Hfs.
  - destruct Hc as (j & _ & _ & Hs). split; [|discriminate]. split; [|discriminate].
    intros Hms. exfalso. revert Hms.
    apply (settled_not_already_correct _ _ _ _ _ _ _ _ _ Hs). discriminate.
Qed.

Lemma rename_file_with_date_already_correct_iff_witness :
  let w := Sample.host More.twice_prefixed in
  Os.files (FileRenamer.rename_file_with_date "/d/2024-03-05 2024-03-05 r.txt" "creation" w).2
  = Os.files w.
Proof.
  intros w.
  apply (proj2 (rename_file_with_date_already_correct_iff "/d/2024-03-05 2024-03-05 r.txt"
                  "creation" w (Sample.file_of "notes")
                  {| Datetime.year := 2024; Datetime.month := 3; Datetime.day := 5 |}
                  ltac:(vm_compute; reflexivity) ltac:(left; reflexivity)
                  ltac:(vm_compute; reflexivity))).
  vm_compute. reflexivity.
Defined.

(** ** Where an operation puts the file *)

Section Placing.



(** The first free path is the desired one when that is free. *)
Lemma probe_free_first new_path j (fs : gmap string Os.file) :
  fs !! new_path = None ->
  (forall i, (i < j)%nat -> is_Some (fs !! probe new_path 0 i)) -> j = O.
Proof.
  intros Hfree Htaken. destruct j as [|j]; [reflexivity|].
  destruct (Htaken O ltac:(lia)) as [x Hx]. simpl in Hx. congruence.
Qed.




End Placing.



(** ** What an operation keeps *)

Section Keeping.

Lemma contents_of_moved (fs : gmap string Os.file) file_path p f :
  fs !! p = None -> fs !! file_path = Some f ->
  contents_of (<[p := f]> (delete file_path fs)) ≡ₚ contents_of fs.
Proof.
  intros Hp Hf. unfold contents_of.
  assert (delete file_path fs !! p = None) as Hd.
  { destruct (decide (file_path = p)) as [->|Hne]; [congruence|].
    rewrite lookup_delete_ne by exact Hne. exact Hp. }
  rewrite (map_to_list_insert _ _ _ Hd).
  rewrite <- (map_to_list_delete fs file_path f Hf). reflexivity.
Qed.

Lemma settled_alone_keeps file_path p o n success (fs fs' : gmap string Os.file) ms :
  fs !! p = None ->
  settled file_path p o n success fs ms fs' ->
  contents_of fs' ≡ₚ contents_of fs /\
  (forall path g, path <> file_path -> fs !! path = Some g -> fs' !! path = Some g).
Proof.
  intros Hp Hs.
  inversion Hs; subst;
    try (exfalso; match goal with H : is_Some _ |- _ => destruct H as [? H] end; congruence);
    try (split; [reflexivity|intros path g _ Hg; exact Hg]).
  split.
  - apply contents_of_moved; assumption.
  - intros path g Hne Hg. rewrite lookup_insert_ne by congruence.
    rewrite lookup_delete_ne by congruence. exact Hg.
Qed.

Lemma rename_file_with_date_keeps file_path time_type w :
  Os.alone w ->
  let w' := (FileRenamer.rename_file_with_date file_path time_type w).2 in
  contents_of (Os.files w') ≡ₚ contents_of (Os.files w) /\
  (forall path g, path <> file_path ->
     Os.files w !! path = Some g -> Os.files w' !! path = Some g).
Proof.
  intros Halone. cbv zeta.
  destruct (rename_file_with_date_settles file_path time_type w) as (w' & ms & -> & _ & Hc).
  simpl snd. destruct Hc as [(-> & _)|(p & new_name & Hfree & Hs)].
  - split; [reflexivity|auto].
  - rewrite Halone in Hs. apply (settled_alone_keeps _ _ _ _ _ _ _ _ Hfree Hs).
Qed.

Lemma restore_original_name_keeps file_path w :
  Os.alone w ->
  let w' := (FileRenamer.restore_original_name file_path w).2 in
  contents_of (Os.files w') ≡ₚ contents_of (Os.files w) /\
  (forall path g, path <> file_path ->
     Os.files w !! path = Some g -> Os.files w' !! path = Some g).
Proof.
  intros Halone. cbv zeta.
  destruct (restore_original_name_settles file_path w) as (w' & ms & -> & _ & Hc).
  simpl snd. cbv zeta in Hc. destruct (FileRenamer.has_yy_mm_dd_prefix _).
  - destruct Hc as (j & Hfree & _ & Hs). rewrite Halone in Hs.
    apply (settled_alone_keeps _ _ _ _ _ _ _ _ Hfree Hs).
  - destruct Hc as [-> _]. split; [reflexivity|auto].
Qed.

End Keeping.

(** X12.  Neither operation loses or overwrites a file when its worker runs
    alone: whatever the path, the time type and the files, the contents of
    the files after [rename_file_with_date], and after
    [restore_original_name], are the contents before it, each as often as
    before; and every file other than the one given is still at its path,
    unchanged. *)
Theorem operations_keep_every_file file_path time_type w :
  Os.alone w ->
  let added := (FileRenamer.rename_file_with_date file_path time_type w).2 in
  let restored := (FileRenamer.restore_original_name file_path w).2 in
  contents_of (Os.files added) ≡ₚ contents_of (Os.files w) /\
  contents_of (Os.files restored) ≡ₚ contents_of (Os.files w) /\
  (forall path g, path <> file_path -> Os.files w !! path = Some g ->
     Os.files added !! path = Some g /\ Os.files restored !! path = Some g).
Proof.
  intros Halone added restored.
  destruct (rename_file_with_date_keeps file_path time_type w Halone) as [Ha Ha'].
  destruct (restore_original_name_keeps file_path w Halone) as [Hr Hr'].
  split; [exact Ha|]. split; [exact Hr|]. intros path g Hne Hg. split; auto.
Qed.

Lemma operations_keep_every_file_witness :
  Os.files (FileRenamer.rename_file_with_date "/d/report.txt" "creation"
              (Sample.host Sample.two_sizes)).2 !! "/d/notes.txt"
  = Some (Sample.file_of "notes").
Proof.
  apply (proj2 (proj2 (operations_keep_every_file "/d/report.txt" "creation"
                         (Sample.host Sample.two_sizes) ltac:(intros fs; reflexivity)))
           "/d/notes.txt" (Sample.file_of "notes") ltac:(discriminate)
           ltac:(vm_compute; reflexivity)).
Defined.

(** ** A path taken in the window *)

Section Window.

Variables (file_path p original_name new_name : string) (success : message).

(** Lines 171-180: the path is taken by a file of the same content. *)
Lemma rename_unless_conflict_duplicate w f :
  is_Some (Os.files w !! p) ->
  delete p (Os.files w) !! file_path = Some f ->
  FileRenamer.check_duplicate_file file_path p w = (Return true, w) ->
  FileRenamer.rename_unless_conflict file_path p original_name new_name success w
  = (Return tt,
     Os.with_emitted (Os.emitted w ++ [DuplicateFound original_name; success])
       (Os.with_files (<[p := f]> (delete file_path (delete p (Os.files w)))) w)).
Proof.
  intros [g Hp] Hf Hdup. unfold FileRenamer.rename_unless_conflict.
  erewrite bind_return; [|apply (path_exists_present _ _ _ Hp)]. cbv beta iota.
  erewrite bind_return; [|exact Hdup]. cbv beta iota.
  erewrite (bind_return (Os.emit _)); [|reflexivity].
  erewrite bind_return; [|apply (remove_present _ _ g); exact Hp].
  erewrite bind_return; [|apply (rename_present _ _ _ f); exact Hf].
  unfold Os.emit, Os.with_emitted, Os.with_files. simpl.
  rewrite <- app_assoc. reflexivity.
Qed.

(** Lines 181-184: the path is taken by a file of another content. *)
Lemma rename_unless_conflict_skips w :
  is_Some (Os.files w !! p) ->
  FileRenamer.check_duplicate_file file_path p w = (Return false, w) ->
  FileRenamer.rename_unless_conflict file_path p original_name new_name success w
  = (Return tt,
     Os.with_emitted (Os.emitted w ++ [SkippedConflict original_name new_name]) w).
Proof.
  intros [g Hp] Hdup. unfold FileRenamer.rename_unless_conflict.
  erewrite bind_return; [|apply (path_exists_present _ _ _ Hp)]. cbv beta iota.
  erewrite bind_return; [|exact Hdup]. reflexivity.
Qed.

End Window.

(** X13.  The duplicate branch, which only another worker can open.  When
    [restore_original_name] finds the desired path free, and another worker
    creates a readable file there before line 211 looks: if that file has the
    size and the digest of the (readable) file being restored, the operation
    reports the duplicate, removes the other worker's file and moves its own
    file there; otherwise it reports the conflict and leaves the files as the
    other worker left them. *)
Theorem restore_original_name_taken_in_window file_path w f g :
  let original_name := PosixPath.basename file_path in
  let new_name :=
    FileRenamer.remove_yy_mm_dd_prefix (FileRenamer.clean_filename original_name) in
  let new_path := PosixPath.join (PosixPath.dirname file_path) new_name in
  let fs := Os.others w (Os.files w) in
  let w' := (FileRenamer.restore_original_name file_path w).2 in
  FileRenamer.has_yy_mm_dd_prefix (FileRenamer.clean_filename original_name) = true ->
  Os.files w !! new_path = None ->
  fs !! new_path = Some g -> fs !! file_path = Some f -> new_path <> file_path ->
  Os.readable f = true -> Os.readable g = true ->
  if bool_decide (length (Os.content f) = length (Os.content g) /\
                  MD5.digest (Os.content f) = MD5.digest (Os.content g))
  then messages_of w w' = [DuplicateFound original_name; Restored original_name new_name] /\
       Os.files w' = <[new_path := f]> (delete file_path (delete new_path fs))
  else messages_of w w' = [SkippedConflict original_name new_name] /\ Os.files w' = fs.
Proof.
  intros original_name new_name new_path fs w' Hprefix Hfree Hg Hf Hne Rf Rg.
  pose proof (restore_original_name_body_run file_path w) as Hb. cbv zeta in Hb.
  fold original_name new_name new_path in Hb. rewrite Hprefix in Hb.
  destruct Hb as (j & _ & Htaken & Hb).
  rewrite (probe_free_first _ _ _ Hfree Htaken) in Hb. simpl probe in Hb. fold fs in Hb.
  set (w1 := Os.with_files fs w) in *.
  pose proof (check_duplicate_file_readable file_path new_path w1 f g Hf Hg Rf Rg) as Hdup.
  unfold w', FileRenamer.restore_original_name.
  destruct (bool_decide _).
  - assert (delete new_path (Os.files w1) !! file_path = Some f) as Hf'.
    { rewrite lookup_delete_ne by exact Hne. exact Hf. }
    rewrite (try_except_failed _ _ _ (Return tt)
               (Os.with_emitted
                  (Os.emitted w1 ++ [DuplicateFound original_name;
                                     Restored original_name new_name])
                  (Os.with_files (<[new_path := f]> (delete file_path (delete new_path fs))) w1)));
      [|rewrite Hb; apply rename_unless_conflict_duplicate; [exists g; exact Hg|exact Hf'|exact Hdup]
       |discriminate].
    simpl snd. split; [|reflexivity]. apply messages_of_app. reflexivity.
  - rewrite (try_except_failed _ _ _ (Return tt)
               (Os.with_emitted
                  (Os.emitted w1 ++ [SkippedConflict original_name new_name]) w1));
      [|rewrite Hb; apply rename_unless_conflict_skips; [exists g; exact Hg|exact Hdup]
       |discriminate].
    simpl snd. split; [|reflexivity]. apply messages_of_app. reflexivity.
Qed.

Lemma restore_original_name_taken_in_window_witness :
  let w := Sample.racing_host Sample.prefixed_only "/d/report.txt"
             (Sample.file_of "quarterly figures") in
  messages_of w (FileRenamer.restore_original_name "/d/2024-03-05 report.txt" w).2
  = [DuplicateFound "2024-03-05 report.txt"; Restored "2024-03-05 report.txt" "report.txt"].
Proof.
  intros w.
  pose proof (restore_original_name_taken_in_window "/d/2024-03-05 report.txt" w
                (Sample.file_of "quarterly figures") (Sample.file_of "quarterly figures")
                ltac:(vm_compute; reflexivity) ltac:(vm_compute; reflexivity)
                ltac:(vm_compute; reflexivity) ltac:(vm_compute; reflexivity)
                ltac:(discriminate) ltac:(reflexivity) ltac:(reflexivity)) as H.
  cbv zeta in H.
  match type of H with
  | if ?b then _ else _ => assert (b = true) as E by (vm_compute; reflexivity); rewrite E in H
  end.
  exact (proj1 H).
Defined.

(** X14.  When [restore_original_name] does nothing.  A name whose sanitized
    form has no date prefix is reported as not eligible without a look at the
    file system, so also when no such file is there; a name that has one,
    given to a worker that runs alone at a path where no file is, is reported
    as failed with the [FileNotFoundError] of [os.rename], the files left as
    they are. *)
Theorem restore_original_name_refusals file_path w :
  let original_name := PosixPath.basename file_path in
  let w' := (FileRenamer.restore_original_name file_path w).2 in
  (FileRenamer.has_yy_mm_dd_prefix (FileRenamer.clean_filename original_name) = false ->
   w' = Os.with_emitted (Os.emitted w ++ [SkippedNotEligible original_name]) w) /\
  (FileRenamer.has_yy_mm_dd_prefix (FileRenamer.clean_filename original_name) = true ->
   Os.alone w -> Os.files w !! file_path = None ->
   messages_of w w' = [Failed file_path (FileNotFoundError file_path)] /\
   Os.files w' = Os.files w).
Proof.
  intros original_name w'. split.
  - intros Hprefix. unfold w', FileRenamer.restore_original_name.
    pose proof (restore_original_name_body_run file_path w) as Hb. cbv zeta in Hb.
    fold original_name in Hb. rewrite Hprefix in Hb.
    rewrite (try_except_failed _ _ _ _ _ Hb) by discriminate. reflexivity.
  - intros Hprefix Halone Hf. unfold w'.
    destruct (restore_original_name_settles file_path w) as (w1 & ms & -> & He & Hc).
    simpl snd. cbv zeta in Hc. fold original_name in Hc. rewrite Hprefix in Hc.
    destruct Hc as (j & Hfree & _ & Hs). rewrite Halone in Hs.
    rewrite (messages_of_app _ _ _ He).
    inversion Hs; subst;
      try (exfalso; match goal with H : is_Some _ |- _ => destruct H as [? H] end; congruence);
      try (exfalso; congruence).
    split; reflexivity.
Qed.

Lemma restore_original_name_refusals_witness :
  let w := Sample.host Sample.plain_only in
  (FileRenamer.restore_original_name "/d/nothing here.txt" w).2
    = Os.with_emitted [SkippedNotEligible "nothing here.txt"] w /\
  messages_of w (FileRenamer.restore_original_name "/d/2024-03-05 gone.txt" w).2
    = [Failed "/d/2024-03-05 gone.txt" (FileNotFoundError "/d/2024-03-05 gone.txt")].
Proof.
  intros w. split.
  - apply (proj1 (restore_original_name_refusals "/d/nothing here.txt" w)).
    vm_compute. reflexivity.
  - apply (proj2 (restore_original_name_refusals "/d/2024-03-05 gone.txt" w));
      [vm_compute; reflexivity|intros fs; reflexivity|vm_compute; reflexivity].
Defined.

(** ** Adding a prefix and taking it off again *)

Section RoundTrip.





End RoundTrip.



(** ** The traversal *)

Section Traversal.

Lemma worker_rename_file_with_date_eq self file_path w :
  let w1 := (FileRenamer.rename_file_with_date file_path (RenamingWorker.time_type self) w).2 in
  let self' :=
    RenamingWorker.with_processed_files (RenamingWorker.processed_files self + 1) self in
  RenamingWorker.rename_file_with_date self file_path w
  = (Return self',
     Os.with_emitted
       (Os.emitted w1 ++ [Progress (RenamingWorker.processed_files self')
                            (RenamingWorker.total_files self')]) w1).
Proof.
  cbv zeta.
  destruct (rename_file_with_date_settles file_path (RenamingWorker.time_type self) w)
    as (w1 & ms & Hrun & _).
  unfold RenamingWorker.rename_file_with_date.
  erewrite bind_return; [|exact Hrun]. rewrite Hrun. reflexivity.
Qed.

Lemma worker_restore_original_name_eq self file_path w :
  let w1 := (FileRenamer.restore_original_name file_path w).2 in
  let self' :=
    RenamingWorker.with_processed_files (RenamingWorker.processed_files self + 1) self in
  RenamingWorker.restore_original_name self file_path w
  = (Return self',
     Os.with_emitted
       (Os.emitted w1 ++ [Progress (RenamingWorker.processed_files self')
                            (RenamingWorker.total_files self')]) w1).
Proof.
  cbv zeta.
  destruct (restore_original_name_settles file_path w) as (w1 & ms & Hrun & _).
  unfold RenamingWorker.restore_original_name.
  erewrite bind_return; [|exact Hrun]. rewrite Hrun. reflexivity.
Qed.

(** With another operation mode no task is submitted. *)
Lemma submit_all_unknown self walked w :
  RenamingWorker.operation_mode self <> "add_prefix" ->
  RenamingWorker.operation_mode self <> "restore_name" ->
  RenamingWorker.submit_all self walked w = (Return self, w).
Proof.
  intros H1 H2. induction walked as [|file_path walked IH]; [reflexivity|].
  cbn [RenamingWorker.submit_all].
  destruct (String.eqb_spec (RenamingWorker.operation_mode self) "add_prefix");
    [contradiction|].
  destruct (String.eqb_spec (RenamingWorker.operation_mode self) "restore_name");
    [contradiction|].
  exact IH.
Qed.

Lemma submit_all_keeps self walked w :
  Os.alone w ->
  exists self' w',
    RenamingWorker.submit_all self walked w = (Return self', w') /\
    Os.others w' = Os.others w /\
    contents_of (Os.files w') ≡ₚ contents_of (Os.files w).
Proof.
  revert self w. induction walked as [|file_path walked IH]; intros self w Halone.
  - exists self, w. split; [reflexivity|]. split; reflexivity.
  - cbn [RenamingWorker.submit_all].
    destruct (String.eqb (RenamingWorker.operation_mode self) "add_prefix");
      [|destruct (String.eqb (RenamingWorker.operation_mode self) "restore_name")].
    + erewrite bind_return; [|apply worker_rename_file_with_date_eq].
      pose proof (rename_file_with_date_frame file_path (RenamingWorker.time_type self) w)
        as [_ Ho].
      pose proof (rename_file_with_date_keeps file_path (RenamingWorker.time_type self) w
                    Halone) as [Hk _].
      cbv zeta in Ho, Hk.
      match goal with |- context [RenamingWorker.submit_all ?s walked ?w1] =>
        destruct (IH s w1) as (self' & w' & Hrun & Ho' & Hk') end.
      { intros fs. simpl. rewrite Ho. apply Halone. }
      exists self', w'. split; [exact Hrun|]. simpl in Ho', Hk'.
      split; [rewrite Ho', Ho; reflexivity|]. rewrite Hk', Hk. reflexivity.
    + erewrite bind_return; [|apply worker_restore_original_name_eq].
      pose proof (restore_original_name_frame file_path w) as [_ Ho].
      pose proof (restore_original_name_keeps file_path w Halone) as [Hk _].
      cbv zeta in Ho, Hk.
      match goal with |- context [RenamingWorker.submit_all ?s walked ?w1] =>
        destruct (IH s w1) as (self' & w' & Hrun & Ho' & Hk') end.
      { intros fs. simpl. rewrite Ho. apply Halone. }
      exists self', w'. split; [exact Hrun|]. simpl in Ho', Hk'.
      split; [rewrite Ho', Ho; reflexivity|]. rewrite Hk', Hk. reflexivity.
    + apply IH, Halone.
Qed.

End Traversal.

(** X16.  [run] with an operation mode that is neither ["add_prefix"] nor
    ["restore_name"]: the files are counted, no task is submitted, and the
    worker still reports that all files are processed; no file changes and
    [processed_files] stays 0 whatever [total_files] is. *)
Theorem run_unknown_operation_mode self walked w :
  RenamingWorker.operation_mode self <> "add_prefix" ->
  RenamingWorker.operation_mode self <> "restore_name" ->
  exists self',
    RenamingWorker.run self walked w
    = (Return self', Os.with_emitted (Os.emitted w ++ [AllDone]) w) /\
    RenamingWorker.total_files self' = Z.of_nat (length walked) /\
    RenamingWorker.processed_files self' = 0.
Proof.
  intros H1 H2. unfold RenamingWorker.run. cbv zeta.
  erewrite bind_return; [|apply submit_all_unknown; assumption].
  eexists. split; [reflexivity|]. split; reflexivity.
Qed.

Lemma run_unknown_operation_mode_witness :
  exists self',
    RenamingWorker.run (RenamingWorker_init "/d" "creation" "remove_prefix")
      ["/d/report.txt"] (Sample.host Sample.plain_only)
    = (Return self', Os.with_emitted [AllDone] (Sample.host Sample.plain_only)) /\
    RenamingWorker.total_files self' = 1 /\ RenamingWorker.processed_files self' = 0.
Proof.
  apply (run_unknown_operation_mode (RenamingWorker_init "/d" "creation" "remove_prefix")
           ["/d/report.txt"] (Sample.host Sample.plain_only)); discriminate.
Defined.

(** X17.  A traversal whose tasks run one after the other, with no other
    worker in their way, loses and overwrites nothing: whatever the paths
    [run] is given, and whatever the operation mode and the time type, it
    returns, and the contents of the files afterwards are the contents
    before, each as often as before. *)
Theorem run_keeps_every_content self walked w :
  Os.alone w ->
  exists self' w',
    RenamingWorker.run self walked w = (Return self', w') /\
    contents_of (Os.files w') ≡ₚ contents_of (Os.files w).
Proof.
  intros Halone. unfold RenamingWorker.run. cbv zeta.
  match goal with |- context [RenamingWorker.submit_all ?s walked] =>
    destruct (submit_all_keeps s walked w Halone) as (self' & w' & Hrun & _ & Hk) end.
  erewrite bind_return; [|exact Hrun].
  eexists _, _. split; [reflexivity|]. exact Hk.
Qed.

Lemma run_keeps_every_content_witness :
  exists self' w',
    RenamingWorker.run Sample.worker ["/d/report.txt"; "/d/notes.txt"]
      (Sample.host Sample.two_sizes) = (Return self', w') /\
    contents_of (Os.files w') ≡ₚ contents_of (Sample.two_sizes).
Proof.
  apply (run_keeps_every_content Sample.worker ["/d/report.txt"; "/d/notes.txt"]
           (Sample.host Sample.two_sizes)).
  intros fs. reflexivity.
Defined.

(** ** The window *)

Section Choices.

Lemma after_snoc events e :
  MainWindow.after (events ++ [e]) = MainWindow.handle (MainWindow.after events) e.
Proof. unfold MainWindow.after. rewrite foldl_app. reflexivity. Qed.

Lemma after_choices events :
  let self := MainWindow.after events in
  (MainWindow.time_type self = "creation" \/ MainWindow.time_type self = "modification") /\
  (MainWindow.operation_mode self = "add_prefix" \/
   MainWindow.operation_mode self = "restore_name").
Proof.
  induction events as [|e events IH] using rev_ind; [split; left; reflexivity|].
  cbv zeta in *. rewrite after_snoc. destruct IH as [Ht Hm].
  destruct e as [folder|index|index]; simpl.
  - unfold MainWindow.select_folder. destruct (negb _); simpl; auto.
  - split; [|exact Hm]. destruct (index =? 0); auto.
  - split; [exact Ht|]. destruct (index =? 0); auto.
Qed.

Lemma after_folder events :
  let self := MainWindow.after events in
  (MainWindow.folder_path self = "" <-> existsb MainWindow.selects events = false) /\
  (MainWindow.folder_path self <> "" ->
   In (MainWindow.FolderSelected (MainWindow.folder_path self)) events).
Proof.
  induction events as [|e events IH] using rev_ind; [split; [tauto|simpl; congruence]|].
  cbv zeta in *. rewrite after_snoc, existsb_app. destruct IH as [Hnone Hsome].
  setoid_rewrite in_app_iff.
  destruct e as [folder|index|index]; simpl.
  - unfold MainWindow.select_folder.
    destruct (String.eqb_spec folder "") as [->|Hne]; simpl.
    + rewrite orb_false_r. split; [exact Hnone|]. intros H. left. apply Hsome, H.
    + rewrite orb_true_r. split; [split; [contradiction|discriminate]|]. auto.
  - rewrite orb_false_r. split; [exact Hnone|]. intros H. left. apply Hsome, H.
  - rewrite orb_false_r. split; [exact Hnone|]. intros H. left. apply Hsome, H.
Qed.

End Choices.

(** X18.  What the window hands to the engine.  Whatever the user did before
    pressing the start button: [start_processing] builds no worker exactly
    when no folder dialog ended with a folder; a worker it builds has a
    folder that some dialog returned, one of the two operation modes [run]
    knows, and one of the two time types [get_file_time] knows, so that
    [get_file_time] returns a time for every file that is there: the
    [ValueError] of [get_file_time] is out of reach from the window. *)
Theorem start_processing_hands_over_valid_choices (events : list MainWindow.event) :
  (MainWindow.start_processing (MainWindow.after events) = None <->
   existsb MainWindow.selects events = false) /\
  (forall worker,
     MainWindow.start_processing (MainWindow.after events) = Some worker ->
     RenamingWorker.folder_path worker <> "" /\
     In (MainWindow.FolderSelected (RenamingWorker.folder_path worker)) events /\
     (RenamingWorker.operation_mode worker = "add_prefix" \/
      RenamingWorker.operation_mode worker = "restore_name") /\
     RenamingWorker.total_files worker = 0 /\
     RenamingWorker.processed_files worker = 0 /\
     forall file_path w f,
       Os.files w !! file_path = Some f ->
       exists t,
         FileRenamer.get_file_time file_path (RenamingWorker.time_type worker) w
         = (Return t, w)).
Proof.
  destruct (after_choices events) as [Ht Hm]. destruct (after_folder events) as [Hnone Hsome].
  cbv zeta in *. unfold MainWindow.start_processing.
  destruct (String.eqb_spec (MainWindow.folder_path (MainWindow.after events)) "") as [E|E].
  - split; [|discriminate]. split; [intros _; apply Hnone, E|reflexivity].
  - split.
    + split; [discriminate|]. intros H. apply Hnone in H. contradiction.
    + intros worker [= <-]. simpl. split; [exact E|]. split; [apply Hsome, E|].
      split; [exact Hm|]. split; [reflexivity|]. split; [reflexivity|].
      intros file_path w f Hf. eexists. apply (get_file_time_present _ _ _ _ Hf Ht).
Qed.

Lemma start_processing_hands_over_valid_choices_witness :
  exists t,
    FileRenamer.get_file_time "/d/report.txt" "modification" (Sample.host Sample.plain_only)
    = (Return t, Sample.host Sample.plain_only).
Proof.
  destruct (proj2 (start_processing_hands_over_valid_choices
                     [MainWindow.FolderSelected "/d"; MainWindow.TimeTypeChanged 1;
                      MainWindow.FolderSelected ""; MainWindow.OperationModeChanged 1])
              (RenamingWorker_init "/d" "modification" "restore_name") eq_refl)
    as (_ & _ & _ & _ & _ & H).
  apply (H "/d/report.txt" (Sample.host Sample.plain_only) (Sample.file_of "quarterly figures")).
  vm_compute. reflexivity.
Defined.

(** ** Adding the prefix twice *)

Section Twice.


End Twice.


